(** * LeafLens training scripts: label reconciliation, dataset split, manifest

    A shallow embedding of the pure parts of
    - [training/prepare_dataset.py]   (module [PrepareDataset]),
    - [training/train_yolov8_cls.py]  (module [TrainYolo]),
    - [training/train_mobilenet.py]   (module [TrainMobilenet]),
    with the library routines they call ([sklearn]'s [train_test_split],
    [tf.data]'s [shuffle]/[enumerate]/[filter]) modelled in [Sklearn] and
    [TfData].  Python [str] values are modelled as Rocq strings of 8-bit
    characters; case conversion acts on the ASCII letters only. *)

From Stdlib Require Import List String Ascii Arith Lia Bool Permutation Sorted.
From Stdlib Require Import DecimalString DecimalNat.
Import ListNotations.
Local Open Scope string_scope.
Local Open Scope list_scope.
Local Open Scope nat_scope.

(** ** Python values shared by the three scripts *)

Module Py.

(** The exceptions the scripts (or the libraries they call) raise.
    [Propagated call text] is an exception that comes out of a call the
    model does not look into (a call of [ultralytics], a file operation of
    the YOLO script): the call, as the traceback names it, and the text of
    the exception. *)
Inductive exn : Type :=
  | FileNotFoundError (msg : string)
  | ValueError (msg : string)
  | KeyError (key : string)
  | IsADirectoryError (path : string)
  | Propagated (call : string) (text : string).

Inductive result (A : Type) : Type :=
  | Ok (a : A)
  | Raise (e : exn).
Arguments Ok {A} a.
Arguments Raise {A} e.

Definition bind {A B} (r : result A) (k : A -> result B) : result B :=
  match r with
  | Ok a => k a
  | Raise e => Raise e
  end.

Definition is_ok {A} (r : result A) : bool :=
  match r with Ok _ => true | Raise _ => false end.

(** The outcome of a call the model does not look into: the value it
    returns, or the text of the exception that comes out of it. *)
Inductive outcome (A : Type) : Type :=
  | Returns (a : A)
  | Raises (text : string).
Arguments Returns {A} a.
Arguments Raises {A} text.

(** [dict]: insertion-ordered, keys compared with [eqb]. *)
Section Dict.
Context {K V : Type} (eqb : K -> K -> bool).

Fixpoint get (d : list (K * V)) (k : K) : option V :=
  match d with
  | [] => None
  | (k', v) :: rest => if eqb k' k then Some v else get rest k
  end.

(** [d[k] = v]: overwrite in place, or append a new entry. *)
Fixpoint set (d : list (K * V)) (k : K) (v : V) : list (K * V) :=
  match d with
  | [] => [(k, v)]
  | (k', v') :: rest =>
      if eqb k' k then (k', v) :: rest else (k', v') :: set rest k v
  end.

Definition keys (d : list (K * V)) : list K := map fst d.
Definition values (d : list (K * V)) : list V := map snd d.
End Dict.

(** [enumerate(l)], counting from [start]. *)
Fixpoint enumerate_from {A} (start : nat) (l : list A) : list (nat * A) :=
  match l with
  | [] => []
  | x :: rest => (start, x) :: enumerate_from (S start) rest
  end.

Definition enumerate {A} (l : list A) : list (nat * A) := enumerate_from 0 l.

End Py.

Declare Scope py_scope.
Notation "x <- c1 ;; c2" := (Py.bind c1 (fun x => c2))
  (at level 61, c1 at next level, right associativity) : py_scope.
Local Open Scope py_scope.

(** ** [str] methods used by the scripts *)

Module PyStr.

Definition newline : string := String (ascii_of_nat 10) EmptyString.

Definition is_upper (c : ascii) : bool :=
  let n := nat_of_ascii c in (65 <=? n) && (n <=? 90).
Definition is_lower (c : ascii) : bool :=
  let n := nat_of_ascii c in (97 <=? n) && (n <=? 122).

Definition lower_char (c : ascii) : ascii :=
  if is_upper c then ascii_of_nat (nat_of_ascii c + 32) else c.
Definition upper_char (c : ascii) : ascii :=
  if is_lower c then ascii_of_nat (nat_of_ascii c - 32) else c.

Fixpoint map_chars (f : ascii -> ascii) (s : string) : string :=
  match s with
  | EmptyString => EmptyString
  | String c rest => String (f c) (map_chars f rest)
  end.

(** [s.lower()], on ASCII text; a character outside ASCII is left as it
    is, where Python follows the Unicode tables. *)
Definition lower (s : string) : string := map_chars lower_char s.

(** [s.capitalize()]: first character upper-cased, the rest lower-cased,
    on ASCII text as for [lower]. *)
Definition capitalize (s : string) : string :=
  match s with
  | EmptyString => EmptyString
  | String c rest => String (upper_char c) (lower rest)
  end.

(** [s.startswith(p)] *)
Fixpoint startswith (p s : string) : bool :=
  match p, s with
  | EmptyString, _ => true
  | String a p', String b s' => Ascii.eqb a b && startswith p' s'
  | String _ _, EmptyString => false
  end.

(** [sub in s] *)
Fixpoint contains (sub s : string) : bool :=
  startswith sub s ||
  match s with
  | EmptyString => false
  | String _ rest => contains sub rest
  end.

(** [s[n:]] *)
Fixpoint drop (n : nat) (s : string) : string :=
  match n, s with
  | 0, _ => s
  | S n', String _ rest => drop n' rest
  | S _, EmptyString => EmptyString
  end.

(** [s.split(sep, 1)] for a non-empty [sep]: [[before; after]] at the
    first occurrence of [sep], [[s]] when there is none. *)
Fixpoint split_once (sep s : string) : list string :=
  if startswith sep s then [EmptyString; drop (String.length sep) s]
  else
    match s with
    | EmptyString => [s]
    | String c rest =>
        match split_once sep rest with
        | [before; after] => [String c before; after]
        | _ => [s]
        end
    end.

(** [sep.join(parts)] *)
Fixpoint join (sep : string) (parts : list string) : string :=
  match parts with
  | [] => EmptyString
  | [p] => p
  | p :: rest => (p ++ sep ++ join sep rest)%string
  end.

(** [s.split(c)] for a one-character separator: the lines of a text when
    [c] is the line break. *)
Fixpoint split_char (c : ascii) (s : string) : list string :=
  match s with
  | EmptyString => [EmptyString]
  | String a rest =>
      if Ascii.eqb a c then EmptyString :: split_char c rest
      else
        match split_char c rest with
        | [] => [String a EmptyString]
        | first :: others => String a first :: others
        end
  end.

Fixpoint has_char (c : ascii) (s : string) : bool :=
  match s with
  | EmptyString => false
  | String a rest => Ascii.eqb a c || has_char c rest
  end.

(** [f"{n:05d}"] *)
Fixpoint zeros (n : nat) : string :=
  match n with 0 => EmptyString | S n' => String "0" (zeros n') end.
Definition format_05d (n : nat) : string :=
  let digits := NilEmpty.string_of_uint (Nat.to_uint n) in
  (zeros (5 - String.length digits) ++ digits)%string.

(** [Path(name).suffix]: from the last dot on, unless the dot is the
    first or the last character. *)
Fixpoint rfind_dot (s : string) (pos : nat) (found : option nat) : option nat :=
  match s with
  | EmptyString => found
  | String c rest =>
      rfind_dot rest (S pos) (if Ascii.eqb c "." then Some pos else found)
  end.
Definition suffix (name : string) : string :=
  match rfind_dot name 0 None with
  | Some i =>
      if (0 <? i) && (i <? String.length name - 1) then drop i name
      else EmptyString
  | None => EmptyString
  end.

End PyStr.

(** ** Library routines the scripts call *)

(** [a[i] for i in indices]; the index lists built below only hold valid
    positions. *)
Definition select {A} (l : list A) (indices : list nat) : list A :=
  flat_map (fun i => match nth_error l i with Some x => [x] | None => [] end)
           indices.

Module Sklearn.

(** NumPy's legacy generator, as far as [train_test_split] uses it: a
    generator state, [RandomState(seed)], and [rng.permutation(n)], which
    returns an arrangement of [0 .. n-1] and advances the state. *)
Record Rng : Type := {
  state : Type;
  RandomState : nat -> state;
  permutation : state -> nat -> list nat * state;
  permutation_perm :
    forall st n, Permutation (fst (permutation st n)) (seq 0 n)
}.

(** A [test_size] given as a float, kept as the fraction it denotes. *)
Record fraction : Type := { num : nat; den : nat }.

(** [ceil(test_size * n_samples)].  The library computes it in double
    precision; for [test_size = 0.2] and every [n_samples] below 2^50 the
    result is the integer computed here. *)
Definition ceil_mul (f : fraction) (n : nat) : nat :=
  (n * num f + (den f - 1)) / den f.

Section TrainTestSplit.
Context (R : Rng) {A : Type}.

(** [check_random_state]: the global generator for [None], a fresh
    generator for an integer seed. *)
Definition check_random_state (random_state : option nat)
           (global : state R) : state R :=
  match random_state with
  | None => global
  | Some seed => RandomState R seed
  end.

(** [train_test_split(arrays, test_size=f, random_state=rs)] with the
    global generator in state [global]: the pair [(train, test)] or the
    [ValueError] of the size validation ([_validate_shuffle_split]: a
    float [test_size] outside (0, 1), or [n_train == 0], "the resulting
    train set will be empty"), and the global generator afterwards.  The
    indices are those of [ShuffleSplit]: the first [n_test] of the
    permutation for the test part, the next [n_train] for the train
    part. *)
Definition train_test_split (arrays : list A) (test_size : fraction)
           (random_state : option nat) (global : state R)
  : Py.result (list A * list A) * state R :=
  let n_samples := List.length arrays in
  if (num test_size =? 0) || (den test_size <=? num test_size) then
    (Py.Raise (Py.ValueError "test_size should be in the (0, 1) range"),
     global)
  else
    let n_test := ceil_mul test_size n_samples in
    let n_train := n_samples - n_test in
    if n_train =? 0 then
      (Py.Raise (Py.ValueError "the resulting train set will be empty"),
       global)
    else
      let (perm, st') :=
        permutation R (check_random_state random_state global) n_samples in
      let ind_test := firstn n_test perm in
      let ind_train := firstn n_train (skipn n_test perm) in
      (Py.Ok (select arrays ind_train, select arrays ind_test),
       match random_state with None => st' | Some _ => global end).
End TrainTestSplit.

End Sklearn.

Module TfData.

(** [Dataset.shuffle(buffer_size, seed=s)] under [tf.random.set_seed(g)]:
    the order in which the [n] elements come out is fixed by the two seeds,
    the buffer size and the number of the iteration over the dataset
    ([reshuffle_each_iteration] is left at its default), never by the
    elements themselves, and every element comes out once. *)
Record Shuffler : Type := {
  shuffle_order :
    forall (global_seed op_seed buffer_size iteration n : nat), list nat;
  shuffle_order_perm :
    forall g s b it n, Permutation (shuffle_order g s b it n) (seq 0 n)
}.

Section Ops.
Context (T : Shuffler) {A : Type}.

Definition shuffle (global_seed op_seed buffer_size iteration : nat)
           (ds : list A) : list A :=
  select ds (shuffle_order T global_seed op_seed buffer_size iteration
                           (List.length ds)).

(** [ds.enumerate()] *)
Definition enumerate (ds : list A) : list (nat * A) := Py.enumerate ds.
End Ops.

(** A dataset of images before it runs, as far as [Dataset.map] looks at it
    when it traces its function: the elements, and whether [element_spec]
    gives the images a shape of known rank. *)
Record Dataset (A : Type) : Type := {
  elements : list A;
  rank_known : bool
}.
Arguments elements {A} d.
Arguments rank_known {A} d.

(** [ds.concatenate(ds')]: the elements of [ds] then those of [ds'], under
    the most specific shape both specs are compatible with. *)
Definition concatenate {A} (ds ds' : Dataset A) : Dataset A :=
  {| elements := elements ds ++ elements ds';
     rank_known := rank_known ds && rank_known ds' |}.

End TfData.

(** ** [training/prepare_dataset.py] *)

Module PrepareDataset.

Definition SEED : nat := 42.
(** [VAL_RATIO = 0.2] *)
Definition VAL_RATIO : Sklearn.fraction := {| Sklearn.num := 1; Sklearn.den := 5 |}.

Definition PV_LABEL_MAP : list ((string * string) * string) :=
  [ (("corn", "common_rust"), "maize__rust");
    (("corn", "healthy"), "maize__healthy");
    (("tomato", "early_blight"), "tomato__early_blight");
    (("tomato", "healthy"), "tomato__healthy") ].

Definition ALL_CLASSES : list string :=
  [ "cocoa__black_pod"; "cocoa__healthy"; "maize__rust"; "maize__healthy";
    "tomato__early_blight"; "tomato__healthy" ].

(** The [for ... in PV_LABEL_MAP.items()] loop of [match_pv_label]. *)
Fixpoint first_match (nl : string) (items : list ((string * string) * string))
  : option string :=
  match items with
  | [] => None
  | ((keyword, condition), folder) :: rest =>
      if PyStr.contains keyword nl && PyStr.contains condition nl
      then Some folder
      else first_match nl rest
  end.

Definition match_pv_label (name : string) : option string :=
  let nl := PyStr.lower name in
  first_match nl PV_LABEL_MAP.

(** Truth value of a [str | None]. *)
Definition truthy (o : option string) : bool :=
  match o with
  | Some s => negb (String.eqb s EmptyString)
  | None => false
  end.

(** The directories [create_class_dirs] makes, [OUTPUT_DIR/split/cls] as
    the pair [(split, cls)]. *)
Definition class_dirs : list (string * string) :=
  flat_map (fun split => map (fun cls => (split, cls)) ALL_CLASSES)
           ["train"; "val"].

Definition dir_eqb (a b : string * string) : bool :=
  String.eqb (fst a) (fst b) && String.eqb (snd a) (snd b).

(** What [tfds.load("plant_village", ...)] hands to the script: the label
    names and the examples, each an image with its label index. *)
Record PlantVillage (Image : Type) : Type := {
  label_names : list string;
  examples : list (Image * nat)
}.
Arguments label_names {Image} p.
Arguments examples {Image} p.

(** A path of the local data as [glob] returns it: its text, and what the
    file system has there.  [glob] matches names, so a directory called
    [sub.jpg] is returned for [*.jpg] as a file is.  [Unreadable e] is
    anything else that cannot be opened for reading, with the exception
    the attempt raises: a dangling link, a file without read permission. *)
Inductive Kind : Type :=
  | RegularFile
  | Directory
  | Unreadable (e : Py.exn).

Record LocalPath : Type := {
  path_str : string;
  path_kind : Kind
}.

(** [COCOA_DIR]: for a sub-directory name, [None] when it does not exist,
    else what [glob] returns for each pattern. *)
Definition CocoaDir : Type := string -> option (string -> list LocalPath).

Section Extract.
Context {Image : Type}.

(** [idx_to_folder], built over [enumerate(label_names)]. *)
Definition idx_to_folder (names : list string) : list (nat * string) :=
  fold_left
    (fun d '(i, name) =>
       let folder := match_pv_label name in
       if truthy folder then
         match folder with
         | Some f => Py.set Nat.eqb d i f
         | None => d
         end
       else d)
    (Py.enumerate names) [].

(** [{folder: [] for folder in idx_to_folder.values()}] *)
Definition empty_classes (itf : list (nat * string))
  : list (string * list (Image * nat)) :=
  fold_left (fun d folder => Py.set String.eqb d folder [])
            (Py.values itf) [].

(** The scan of the dataset; [count] numbers the kept examples. *)
Fixpoint scan (itf : list (nat * string)) (ds : list (Image * nat))
         (count : nat) (images_by_class : list (string * list (Image * nat)))
  : Py.result (list (string * list (Image * nat))) :=
  match ds with
  | [] => Py.Ok images_by_class
  | (image, label_idx) :: rest =>
      match Py.get Nat.eqb itf label_idx with
      | Some folder =>
          match Py.get String.eqb images_by_class folder with
          | Some l =>
              scan itf rest (S count)
                   (Py.set String.eqb images_by_class folder
                           (l ++ [(image, count)]))
          | None => Py.Raise (Py.KeyError folder)
          end
      | None => scan itf rest count images_by_class
      end
  end.

Definition extract_plantvillage (pv : PlantVillage Image)
  : Py.result (list (string * list (Image * nat))) :=
  let itf := idx_to_folder (label_names pv) in
  scan itf (examples pv) 0 (empty_classes itf).
End Extract.

(** What a written file holds: an image array saved as JPEG, or a copy of
    a source file. *)
Inductive Data (Image : Type) : Type :=
  | Jpeg (image : Image)
  | CopyOf (src : string).
Arguments Jpeg {Image} image.
Arguments CopyOf {Image} src.

(** The file [OUTPUT_DIR/split/cls/name]. *)
Record OutFile (Image : Type) : Type := {
  of_split : string;
  of_class : string;
  of_name : string;
  of_data : Data Image
}.
Arguments of_split {Image} o.
Arguments of_class {Image} o.
Arguments of_name {Image} o.
Arguments of_data {Image} o.

Section Script.
Context (R : Sklearn.Rng) {Image : Type}.

(** What the script reads and changes: NumPy's global generator, the
    directories under [OUTPUT_DIR] and the files written there, in the
    order of writing. *)
Record World : Type := {
  rng : Sklearn.state R;
  dirs : list (string * string);
  files : list (OutFile Image)
}.

Definition M (A : Type) : Type := World -> Py.result A * World.
Definition ret {A} (a : A) : M A := fun w => (Py.Ok a, w).
Definition raise {A} (e : Py.exn) : M A := fun w => (Py.Raise e, w).
Definition mbind {A B} (m : M A) (k : A -> M B) : M B :=
  fun w =>
    match m w with
    | (Py.Ok a, w') => k a w'
    | (Py.Raise e, w') => (Py.Raise e, w')
    end.
Definition seq_ (m : M unit) (k : M unit) : M unit := mbind m (fun _ => k).

Fixpoint for_each {A} (l : list A) (body : A -> M unit) : M unit :=
  match l with
  | [] => ret tt
  | x :: rest => seq_ (body x) (for_each rest body)
  end.

(** [(OUTPUT_DIR / split / cls).mkdir(parents=True, exist_ok=True)] *)
Definition mkdir (d : string * string) : M unit :=
  fun w =>
    (Py.Ok tt,
     {| rng := rng w;
        dirs := if existsb (dir_eqb d) (dirs w) then dirs w
                else dirs w ++ [d];
        files := files w |}).

(** Writing [OUTPUT_DIR/split/cls/name]; the directory has to exist. *)
Definition write_file (split cls name : string) (data : Data Image)
  : M unit :=
  fun w =>
    if existsb (dir_eqb (split, cls)) (dirs w) then
      (Py.Ok tt,
       {| rng := rng w;
          dirs := dirs w;
          files := files w ++ [ {| of_split := split; of_class := cls;
                                   of_name := name; of_data := data |} ] |})
    else
      (Py.Raise (Py.FileNotFoundError (split ++ "/" ++ cls ++ "/" ++ name)%string), w).

(** [shutil.copy2(src, OUTPUT_DIR / split / cls / name)]: the source is
    opened first, which raises on anything but a regular file that can be
    read ([IsADirectoryError] on a directory), then the copy is written. *)
Definition copy2 (src : LocalPath) (split cls name : string) : M unit :=
  match path_kind src with
  | RegularFile => write_file split cls name (CopyOf (path_str src))
  | Directory => raise (Py.IsADirectoryError (path_str src))
  | Unreadable e => raise e
  end.

(** [train_test_split(images, test_size=VAL_RATIO, random_state=SEED)] *)
Definition split_80_20 {A} (images : list A) : M (list A * list A) :=
  fun w =>
    let (r, g) :=
      Sklearn.train_test_split R images VAL_RATIO (Some SEED) (rng w) in
    (r, {| rng := g; dirs := dirs w; files := files w |}).

Definition create_class_dirs : M unit :=
  for_each ["train"; "val"]
    (fun split => for_each ALL_CLASSES (fun cls => mkdir (split, cls))).

Definition save_split (images : list (Image * nat)) (class_name : string)
  : M unit :=
  match images with
  | [] => ret tt
  | _ =>
      mbind (split_80_20 images) (fun '(train_imgs, val_imgs) =>
      for_each [("train", train_imgs); ("val", val_imgs)]
        (fun '(split_name, split_imgs) =>
           for_each split_imgs (fun '(img_array, idx) =>
             write_file split_name class_name
               (class_name ++ "_" ++ PyStr.format_05d idx ++ ".jpg")%string
               (Jpeg img_array))))
  end.

Definition cocoa_mapping : list (string * string) :=
  [ ("cocoa_black_pod", "cocoa__black_pod"); ("healthy", "cocoa__healthy") ].

Definition copy_cocoa_data (cocoa : CocoaDir) : M unit :=
  for_each cocoa_mapping (fun '(src_subdir, cls_name) =>
    match cocoa src_subdir with
    | None => ret tt
    | Some glob =>
        let images := flat_map glob ["*.jpg"; "*.jpeg"; "*.png"] in
        match images with
        | [] => ret tt
        | _ =>
            mbind (split_80_20 images) (fun '(train_imgs, val_imgs) =>
            for_each [("train", train_imgs); ("val", val_imgs)]
              (fun '(split_name, split_imgs) =>
                 for_each (Py.enumerate split_imgs) (fun '(i, img_path) =>
                   copy2 img_path split_name cls_name
                     (cls_name ++ "_" ++ PyStr.format_05d i
                               ++ PyStr.suffix (path_str img_path))%string)))
        end
    end).

(** [np.random.seed(SEED)] and the removal of a previous [OUTPUT_DIR]. *)
Definition reset_output : M unit :=
  fun w => (Py.Ok tt,
            {| rng := Sklearn.RandomState R SEED; dirs := []; files := [] |}).

Definition main (pv : PlantVillage Image) (cocoa : CocoaDir) : M unit :=
   seq_ reset_output
  (seq_ create_class_dirs
  (mbind (fun w => (extract_plantvillage pv, w)) (fun images_by_class =>
   seq_ (for_each images_by_class
           (fun '(class_name, images) => save_split images class_name))
        (copy_cocoa_data cocoa)))).
End Script.

End PrepareDataset.

(** ** [training/train_yolov8_cls.py] *)

Module TrainYolo.

Definition FOLDER_TO_LABEL : list (string * string) :=
  [ ("cocoa__black_pod", "Cocoa:cocoa_black_pod");
    ("cocoa__healthy", "Cocoa:healthy");
    ("maize__rust", "Maize:maize_rust");
    ("maize__healthy", "Maize:healthy");
    ("tomato__early_blight", "Tomato:tomato_early_blight");
    ("tomato__healthy", "Tomato:healthy") ].

(** The fallback branch of [generate_labels], taken when the table has no
    entry for [name]. *)
Definition fallback_label (name : string) : string :=
  match PyStr.split_once "__" name with
  | [crop; condition] =>
      if String.eqb condition "healthy"
      then (PyStr.capitalize crop ++ ":healthy")%string
      else (PyStr.capitalize crop ++ ":" ++ crop ++ "_" ++ condition)%string
  | _ => name
  end.

(** One turn of the loop body: the label for [name]. *)
Definition label_for (name : string) : string :=
  match Py.get String.eqb FOLDER_TO_LABEL name with
  | Some label => label
  | None => fallback_label name
  end.

(** [generate_labels]: the loop appends to [labels], which starts empty. *)
Fixpoint generate_labels_loop (model_names : list string)
         (labels : list string) : list string :=
  match model_names with
  | [] => labels
  | name :: rest => generate_labels_loop rest (labels ++ [label_for name])
  end.

Definition generate_labels (model_names : list string) : list string :=
  generate_labels_loop model_names [].

(** [sorted(keys)] *)
Fixpoint insert_sorted (k : nat) (l : list nat) : list nat :=
  match l with
  | [] => [k]
  | x :: rest => if k <=? x then k :: l else x :: insert_sorted k rest
  end.
Definition sorted (l : list nat) : list nat := fold_right insert_sorted [] l.

(** [[class_names[i] for i in sorted(class_names.keys())]] *)
Fixpoint lookup_all (class_names : list (nat * string)) (keys : list nat)
  : Py.result (list string) :=
  match keys with
  | [] => Py.Ok []
  | i :: rest =>
      match Py.get Nat.eqb class_names i with
      | Some name =>
          names <- lookup_all class_names rest ;; Py.Ok (name :: names)
      | None => Py.Raise (Py.KeyError "class_names")
      end
  end.
Definition ordered_names (class_names : list (nat * string))
  : Py.result (list string) :=
  lookup_all class_names (sorted (Py.keys class_names)).

(** The text written to [labels.txt]. *)
Definition manifest (labels : list string) : string :=
  PyStr.join PyStr.newline labels.

(** What [main] asks of the outside, in order.  A call is recorded when it
    is made, whether it returns or raises. *)
Inductive event : Type :=
  | Train (data : string)
  | Export (weights : string)
  | Mkdir (dir : string)
  | Copy2 (src dst : string)
  | WriteText (dst text : string).

(** The outside of the script: where it is installed ([SCRIPT_DIR], and
    [ASSETS_DIR] for [SCRIPT_DIR.parent / "app" / "src" / "main" /
    "assets"]), the file system it queries, the [ultralytics] calls and the
    file operations.  Each call may change the file system, and returns or
    raises.  [yolo_train] stands for [YOLO(MODEL)] followed by
    [model.train(...)], [yolo_export] for [YOLO(str(best_pt))] followed by
    [best_model.export(...)], which returns the path of the export.
    [shutil.copy2] opens its source first: it raises when there is nothing
    at the source path ([copy2_missing]). *)
Record Host : Type := {
  fs : Type;
  SCRIPT_DIR : string;
  ASSETS_DIR : string;
  path_exists : fs -> string -> bool;
  is_dir : fs -> string -> bool;
  glob_tflite : fs -> string -> list string;
  yolo_train : string -> fs -> Py.outcome unit * fs;
  yolo_export : string -> fs -> Py.outcome string * fs;
  yolo_names : string -> fs -> list (nat * string);
  mkdir_p : string -> fs -> Py.outcome unit * fs;
  copy2 : string -> string -> fs -> Py.outcome unit * fs;
  write_text : string -> string -> fs -> Py.outcome unit * fs;
  copy2_missing :
    forall src dst w,
      path_exists w src = false -> exists text, fst (copy2 src dst w) = Py.Raises text
}.

Section Main.
Context (H : Host).

Definition DATASET_DIR : string := (SCRIPT_DIR H ++ "/datasets/ccmt_cls")%string.
Definition PROJECT : string := (SCRIPT_DIR H ++ "/runs")%string.
Definition NAME : string := "ccmt_cls".

Definition dataset_not_found : Py.exn :=
  Py.FileNotFoundError
    ("Dataset not found at " ++ DATASET_DIR ++ PyStr.newline
       ++ "Run prepare_dataset.py first to create the dataset.")%string.

(** [PROJECT / NAME / "weights" / "best.pt"] *)
Definition best_pt : string := (PROJECT ++ "/" ++ NAME ++ "/weights/best.pt")%string.

Definition best_weights_not_found : Py.exn :=
  Py.FileNotFoundError ("Best weights not found at " ++ best_pt)%string.

Definition no_tflite_found (export_dir : string) : Py.exn :=
  Py.FileNotFoundError ("No .tflite file found in " ++ export_dir)%string.

(** "Find the exported .tflite file": the first [.tflite] file of a
    directory, and the export path itself when it is not a directory,
    whether or not anything is there. *)
Definition locate_tflite (w : fs H) (export_path : string) : Py.result string :=
  if is_dir H w export_path then
    match glob_tflite H w export_path with
    | [] => Py.Raise (no_tflite_found export_path)
    | first :: _ => Py.Ok first
    end
  else Py.Ok export_path.

Definition dst_model : string := (ASSETS_DIR H ++ "/model.tflite")%string.
Definition dst_labels : string := (ASSETS_DIR H ++ "/labels.txt")%string.

(** "Copy to Android assets": the three file operations on [ASSETS_DIR],
    after the events [t] and in the file system [w]. *)
Definition install (tflite_path : string) (labels : list string)
           (t : list event) (w : fs H) : Py.result unit * list event * fs H :=
  let t3 := t ++ [Mkdir (ASSETS_DIR H)] in
  match mkdir_p H (ASSETS_DIR H) w with
  | (Py.Raises text, w3) => (Py.Raise (Py.Propagated "ASSETS_DIR.mkdir" text), t3, w3)
  | (Py.Returns _, w3) =>
      let t4 := t3 ++ [Copy2 tflite_path dst_model] in
      match copy2 H tflite_path dst_model w3 with
      | (Py.Raises text, w4) => (Py.Raise (Py.Propagated "shutil.copy2" text), t4, w4)
      | (Py.Returns _, w4) =>
          let t5 := t4 ++ [WriteText dst_labels (manifest labels)] in
          match write_text H dst_labels (manifest labels) w4 with
          | (Py.Raises text, w5) =>
              (Py.Raise (Py.Propagated "dst_labels.write_text" text), t5, w5)
          | (Py.Returns _, w5) => (Py.Ok tt, t5, w5)
          end
      end
  end.

(** The run: its outcome, what it asked of the outside, and the file
    system afterwards. *)
Definition main (w : fs H) : Py.result unit * list event * fs H :=
  if negb (path_exists H w DATASET_DIR) then
    (Py.Raise dataset_not_found, [], w)
  else
    let t1 := [Train DATASET_DIR] in
    match yolo_train H DATASET_DIR w with
    | (Py.Raises text, w1) => (Py.Raise (Py.Propagated "model.train" text), t1, w1)
    | (Py.Returns _, w1) =>
        if negb (path_exists H w1 best_pt) then
          (Py.Raise best_weights_not_found, t1, w1)
        else
          let t2 := t1 ++ [Export best_pt] in
          match yolo_export H best_pt w1 with
          | (Py.Raises text, w2) =>
              (Py.Raise (Py.Propagated "best_model.export" text), t2, w2)
          | (Py.Returns export_path, w2) =>
              match locate_tflite w2 export_path with
              | Py.Raise e => (Py.Raise e, t2, w2)
              | Py.Ok tflite_path =>
                  match ordered_names (yolo_names H best_pt w2) with
                  | Py.Raise e => (Py.Raise e, t2, w2)
                  | Py.Ok names => install tflite_path (generate_labels names) t2 w2
                  end
              end
          end
    end.
End Main.

End TrainYolo.

(** ** [training/train_mobilenet.py] *)

Module TrainMobilenet.

Definition SEED : nat := 42.
Definition SHUFFLE_BUFFER : nat := 5000.

Definition LABELS : list string :=
  [ "Cocoa:cocoa_black_pod"; "Cocoa:healthy"; "Maize:maize_rust";
    "Maize:healthy"; "Tomato:tomato_early_blight"; "Tomato:healthy" ].

(** The [if]/[elif] chain of the loop that fills [pv_to_leaf]: the
    LeafLens index given to a PlantVillage label name, if any. *)
Definition leaf_index (name : string) : option nat :=
  let nl := PyStr.lower name in
  let has := fun s => PyStr.contains s nl in
  if has "tomato" && has "early" && has "blight" then Some 4
  else if has "tomato" && has "healthy" then Some 5
  else if (has "maize" || has "corn") && (has "rust" || has "common_rust")
       then Some 2
  else if (has "maize" || has "corn") && has "healthy" then Some 3
  else None.

Definition pv_to_leaf (label_names : list string) : list (nat * nat) :=
  fold_left
    (fun d '(i, name) =>
       match leaf_index name with
       | Some leaf => Py.set Nat.eqb d i leaf
       | None => d
       end)
    (Py.enumerate label_names) [].

(** [mapping[k] = v] on a list; the keys stored are positions of
    [label_names], so none is out of range. *)
Fixpoint list_set (l : list nat) (k v : nat) : list nat :=
  match l, k with
  | [], _ => []
  | _ :: rest, 0 => v :: rest
  | x :: rest, S k' => x :: list_set rest k' v
  end.

Definition mapping (label_names : list string) : list nat :=
  fold_left (fun m '(k, v) => list_set m k v)
            (pv_to_leaf label_names)
            (repeat 0 (List.length label_names)).

Section Pipeline.
Context (T : TfData.Shuffler) {Image : Type}.
Context (load_img : string -> Image) (preprocess_image : Image -> Image).

(** [filter_fn]: the label is one of the matched indices. *)
Definition filter_fn (label_names : list string) (x : Image * nat) : bool :=
  existsb (Nat.eqb (snd x)) (Py.keys (pv_to_leaf label_names)).

(** [map_fn]: the example with its LeafLens index. *)
Definition map_fn (label_names : list string) (x : Image * nat)
  : Image * nat :=
  (fst x, nth (snd x) (mapping label_names) 0).

Definition ds_pv (pv : PrepareDataset.PlantVillage Image)
  : list (Image * nat) :=
  map (map_fn (PrepareDataset.label_names pv))
      (filter (filter_fn (PrepareDataset.label_names pv))
              (PrepareDataset.examples pv)).

(** The optional cocoa files, each with its index. *)
Definition cocoa_files (cocoa : PrepareDataset.CocoaDir)
  : list (string * nat) :=
  flat_map
    (fun '(subdir, leaf_idx) =>
       match cocoa subdir with
       | Some glob =>
           map (fun fp => (PrepareDataset.path_str fp, leaf_idx))
               (flat_map glob ["*.jpg"; "*.jpeg"; "*.png"])
       | None => []
       end)
    [("cocoa_black_pod", 0); ("healthy", 1)].

(** The PlantVillage stream as a dataset: [tfds] declares its images with
    the shape (None, None, 3). *)
Definition pv_dataset (pv : PrepareDataset.PlantVillage Image)
  : TfData.Dataset (Image * nat) :=
  {| TfData.elements := ds_pv pv; TfData.rank_known := true |}.

(** [ds_cocoa]: [tf.io.decode_image] returns a tensor of unknown shape (it
    may decode an animated GIF into four dimensions). *)
Definition ds_cocoa (files : list (string * nat)) : TfData.Dataset (Image * nat) :=
  {| TfData.elements := map (fun '(p, l) => (load_img p, l)) files;
     TfData.rank_known := false |}.

Definition preprocess (x : Image * nat) : Image * nat :=
  (preprocess_image (fst x), snd x).

(** [ds.map(preprocess)]: the function is traced on the element spec, and
    [tf.image.resize] raises [ValueError] for an image whose rank is not
    known. *)
Definition map_preprocess (ds : TfData.Dataset (Image * nat))
  : Py.result (TfData.Dataset (Image * nat)) :=
  if TfData.rank_known ds then
    Py.Ok {| TfData.elements := map preprocess (TfData.elements ds);
             TfData.rank_known := true |}
  else Py.Raise (Py.ValueError "'images' contains no shape.").

(** [ds_all] before the shuffle. *)
Definition ds_all (pv : PrepareDataset.PlantVillage Image)
           (cocoa : PrepareDataset.CocoaDir) : Py.result (list (Image * nat)) :=
  let files := cocoa_files cocoa in
  let all :=
    match files with
    | [] => pv_dataset pv
    | _ => TfData.concatenate (pv_dataset pv) (ds_cocoa files)
    end in
  ds <- map_preprocess all ;; Py.Ok (TfData.elements ds).

Definition is_train {A} (ix : nat * A) : bool := negb (fst ix mod 5 =? 0).
Definition is_val {A} (ix : nat * A) : bool := fst ix mod 5 =? 0.
Definition drop_idx {A} (ix : nat * A) : A := snd ix.

(** The elements [ds_train] and [ds_val] yield on the iteration
    numbered [iteration] over the shuffled dataset; batching and
    prefetching regroup them and are left out.  Each of the two pipelines
    iterates the shuffled dataset on its own, so a pass over [ds_train] and
    a pass over [ds_val] are two iterations of it. *)
Definition ds_train {A} (iteration : nat) (ds : list A) : list A :=
  map drop_idx
      (filter is_train
         (TfData.enumerate (TfData.shuffle T SEED SEED SHUFFLE_BUFFER iteration ds))).

Definition ds_val {A} (iteration : nat) (ds : list A) : list A :=
  map drop_idx
      (filter is_val
         (TfData.enumerate (TfData.shuffle T SEED SEED SHUFFLE_BUFFER iteration ds))).
End Pipeline.

(** [export_tflite] writes this text to [labels.txt]. *)
Definition labels_text (labels : list string) : string :=
  PyStr.join PyStr.newline labels.

End TrainMobilenet.

(** * Notions used in the statements *)

(** The body of a loop over [enumerate(names)] that stores [f name] under
    the position of [name] whenever [f] gives a value. *)
Section EnumerateFillStep.
Context {V : Type} (f : string -> option V).

Definition fill_step (d : list (nat * V)) (item : nat * string) : list (nat * V) :=
  match f (snd item) with
  | Some v => Py.set Nat.eqb d (fst item) v
  | None => d
  end.
End EnumerateFillStep.

Section ScriptNotions.
Context (R : Sklearn.Rng) {Image : Type}.
Local Abbreviation World := (PrepareDataset.World R (Image := Image)).
Local Abbreviation M := (PrepareDataset.M R (Image := Image)).
Local Abbreviation OutFile := (PrepareDataset.OutFile Image).
Implicit Types (w : World) (Q : OutFile -> Prop).

(** [w'] is [w] with the files [fs] written after the ones it had. *)
Definition appended (w w' : World) (fs : list (PrepareDataset.OutFile Image)) : Prop :=
  PrepareDataset.rng R w' = PrepareDataset.rng R w /\
  PrepareDataset.dirs R w' = PrepareDataset.dirs R w /\
  PrepareDataset.files R w' = PrepareDataset.files R w ++ fs.

(** A step is uniform when its outcome and the files it writes are fixed
    by the directories that exist: it neither reads the files written
    so far nor the global generator, and changes only the file list. *)
Definition uniform {A} (m : M A) : Prop :=
  forall D, exists r fs, forall w,
    PrepareDataset.dirs R w = D ->
    fst (m w) = r /\ appended w (snd (m w)) fs.

(** A step writes only files with property [Q]. *)
Definition writes_only {A} Q (m : M A) : Prop :=
  forall w, Forall Q (PrepareDataset.files R w) ->
            Forall Q (PrepareDataset.files R (snd (m w))).

(** The world after the seeding, the clean-up and [create_class_dirs]. *)
Definition prepared : World :=
  {| PrepareDataset.rng := Sklearn.RandomState R PrepareDataset.SEED;
     PrepareDataset.dirs := PrepareDataset.class_dirs;
     PrepareDataset.files := [] |}.

(** The part of [main] after [create_class_dirs], on the extracted
    dictionary. *)
Definition save_and_copy (images_by_class : list (string * list (Image * nat)))
           (cocoa : PrepareDataset.CocoaDir) : PrepareDataset.M R unit :=
  PrepareDataset.seq_ R
    (PrepareDataset.for_each R images_by_class
       (fun '(class_name, images) => PrepareDataset.save_split R images class_name))
    (PrepareDataset.copy_cocoa_data R cocoa).
End ScriptNotions.

(** Where a written file may lie: a JPEG from PlantVillage in one of the
    four folders [match_pv_label] knows, a copy of a local file in one of
    the two cocoa folders, and either in [train] or [val]. *)
Definition placed {Image} (o : PrepareDataset.OutFile Image) : Prop :=
  In (PrepareDataset.of_split o) ["train"; "val"] /\
  match PrepareDataset.of_data o with
  | PrepareDataset.Jpeg _ =>
      In (PrepareDataset.of_class o)
         ["maize__rust"; "maize__healthy"; "tomato__early_blight"; "tomato__healthy"]
  | PrepareDataset.CopyOf _ =>
      In (PrepareDataset.of_class o) ["cocoa__black_pod"; "cocoa__healthy"]
  end.

(** The file [save_split] writes for an example. *)
Definition jpeg_file {Image} (split class_name : string) (x : Image * nat)
  : PrepareDataset.OutFile Image :=
  {| PrepareDataset.of_split := split;
     PrepareDataset.of_class := class_name;
     PrepareDataset.of_name :=
       (class_name ++ "_" ++ PyStr.format_05d (snd x) ++ ".jpg")%string;
     PrepareDataset.of_data := PrepareDataset.Jpeg (fst x) |}.

(** The files a call of [save_split] writes into an output tree with the
    directories [D]. *)
Definition split_files (R : Sklearn.Rng) {Image} (D : list (string * string))
           (images : list (Image * nat)) (class_name : string)
  : list (PrepareDataset.OutFile Image) :=
  PrepareDataset.files R
    (snd (PrepareDataset.save_split R images class_name
            {| PrepareDataset.rng := Sklearn.RandomState R PrepareDataset.SEED;
               PrepareDataset.dirs := D;
               PrepareDataset.files := [] |})).

(** The loop of [main] over the extracted classes. *)
Definition save_all (R : Sklearn.Rng) {Image}
           (images_by_class : list (string * list (Image * nat)))
  : PrepareDataset.M R unit :=
  PrepareDataset.for_each R images_by_class
    (fun '(class_name, images) => PrepareDataset.save_split R images class_name).

(** The test [extract_plantvillage] applies to an example: its label index
    names a label that [match_pv_label] maps to a folder. *)
Definition pv_matched {Image} (names : list string) (x : Image * nat) : bool :=
  match nth_error names (snd x) with
  | Some name =>
      match PrepareDataset.match_pv_label name with Some _ => true | None => false end
  | None => false
  end.

(** The character of a line break. *)
Definition line_break : ascii := ascii_of_nat 10.

(** A string that holds no line break. *)
Definition one_line (s : string) : Prop := PyStr.has_char line_break s = false.

(** The examples of class [c] in a labelled stream. *)
Definition class_of (c : nat) (ds : list (nat * nat)) : list (nat * nat) :=
  filter (fun x => snd x =? c) ds.

(** ** Instances, for concrete runs *)

(** A generator whose permutation is the reversed order. *)
Definition reversing_rng : Sklearn.Rng :=
  {| Sklearn.state := nat;
     Sklearn.RandomState := fun seed => seed;
     Sklearn.permutation := fun st n => (rev (seq 0 n), S st);
     Sklearn.permutation_perm :=
       fun _ n => Permutation_sym (Permutation_rev (seq 0 n)) |}.

(** A shuffle that reverses the stream on every iteration. *)
Definition reversing_shuffler : TfData.Shuffler :=
  {| TfData.shuffle_order := fun _ _ _ _ n => rev (seq 0 n);
     TfData.shuffle_order_perm :=
       fun _ _ _ _ n => Permutation_sym (Permutation_rev (seq 0 n)) |}.

(** A shuffle that reverses the stream on the iterations of even number
    and leaves it as it is on the others. *)
Definition alternating_shuffler : TfData.Shuffler :=
  {| TfData.shuffle_order :=
       fun _ _ _ it n => if Nat.even it then rev (seq 0 n) else seq 0 n;
     TfData.shuffle_order_perm :=
       fun _ _ _ it n =>
         match Nat.even it as b
               return Permutation (if b then rev (seq 0 n) else seq 0 n) (seq 0 n)
         with
         | true => Permutation_sym (Permutation_rev (seq 0 n))
         | false => Permutation_refl (seq 0 n)
         end |}.

(** A regular file and a directory of the local data. *)
Definition file_at (path : string) : PrepareDataset.LocalPath :=
  {| PrepareDataset.path_str := path;
     PrepareDataset.path_kind := PrepareDataset.RegularFile |}.
Definition directory_at (path : string) : PrepareDataset.LocalPath :=
  {| PrepareDataset.path_str := path;
     PrepareDataset.path_kind := PrepareDataset.Directory |}.

(** A local cocoa directory with a single image, in [healthy]. *)
Definition one_cocoa_image : PrepareDataset.CocoaDir :=
  fun subdir =>
    if String.eqb subdir "healthy"
    then Some (fun pattern =>
                 if String.eqb pattern "*.jpg" then [file_at "pod_001.jpg"] else [])
    else None.

(** A local cocoa directory whose [healthy] part holds the paths [jpgs]
    under [*.jpg] and [pngs] under [*.png]. *)
Definition healthy_cocoa (jpgs pngs : list PrepareDataset.LocalPath)
  : PrepareDataset.CocoaDir :=
  fun subdir =>
    if String.eqb subdir "healthy"
    then Some (fun pattern =>
                 if String.eqb pattern "*.jpg" then jpgs else
                 if String.eqb pattern "*.png" then pngs else [])
    else None.

(** Hosts whose file system is the list of the paths that exist.  Training
    writes the best weights; the export returns the path [best.tflite] and,
    when [writes_export] holds, puts the file there; [copy2] needs its
    source. *)
Definition listed_copy2 (src dst : string) (w : list string)
  : Py.outcome unit * list string :=
  if existsb (String.eqb src) w then (Py.Returns tt, dst :: w)
  else (Py.Raises "FileNotFoundError: [Errno 2] No such file or directory", w).

Definition listed_host_exporting (writes_export : bool) : TrainYolo.Host :=
  {| TrainYolo.fs := list string;
     TrainYolo.SCRIPT_DIR := "/repo/training";
     TrainYolo.ASSETS_DIR := "/repo/app/src/main/assets";
     TrainYolo.path_exists := fun w p => existsb (String.eqb p) w;
     TrainYolo.is_dir := fun _ _ => false;
     TrainYolo.glob_tflite := fun _ _ => [];
     TrainYolo.yolo_train :=
       fun _ w => (Py.Returns tt, "/repo/training/runs/ccmt_cls/weights/best.pt" :: w);
     TrainYolo.yolo_export :=
       fun _ w => (Py.Returns "best.tflite",
                   if writes_export then "best.tflite" :: w else w);
     TrainYolo.yolo_names :=
       fun _ _ => [(1, "cocoa__healthy"); (0, "cocoa__black_pod")];
     TrainYolo.mkdir_p := fun d w => (Py.Returns tt, d :: w);
     TrainYolo.copy2 := listed_copy2;
     TrainYolo.write_text := fun dst _ w => (Py.Returns tt, dst :: w);
     TrainYolo.copy2_missing :=
       fun src dst w (E : existsb (String.eqb src) w = false) =>
         ex_intro _ "FileNotFoundError: [Errno 2] No such file or directory"
           (@eq_ind_r bool false
              (fun b : bool =>
                 fst (if b then (Py.Returns tt, dst :: w)
                      else (Py.Raises
                              "FileNotFoundError: [Errno 2] No such file or directory",
                            w))
                 = Py.Raises "FileNotFoundError: [Errno 2] No such file or directory")
              eq_refl (existsb (String.eqb src) w) E) |}.

Definition listed_host : TrainYolo.Host := listed_host_exporting true.

(** ** Notions for the further properties *)

(** The exception of [train_test_split] for a class with a single
    example. *)
Definition empty_train_set : Py.exn :=
  Py.ValueError "the resulting train set will be empty".

(** The exception [shutil.copy2] raises on a local path, if any. *)
Definition copy_error (p : PrepareDataset.LocalPath) : option Py.exn :=
  match PrepareDataset.path_kind p with
  | PrepareDataset.RegularFile => None
  | PrepareDataset.Directory => Some (Py.IsADirectoryError (PrepareDataset.path_str p))
  | PrepareDataset.Unreadable e => Some e
  end.

(** The exception of the first path of a list that cannot be copied. *)
Fixpoint first_error (l : list PrepareDataset.LocalPath) : option Py.exn :=
  match l with
  | [] => None
  | p :: rest =>
      match copy_error p with
      | Some e => Some e
      | None => first_error rest
      end
  end.

(** The images [copy_cocoa_data] finds in a sub-directory. *)
Definition cocoa_images (glob : string -> list PrepareDataset.LocalPath)
  : list PrepareDataset.LocalPath :=
  flat_map glob ["*.jpg"; "*.jpeg"; "*.png"].

(** The paths [copy_cocoa_data] finds in the sub-directories it looks
    into. *)
Definition cocoa_paths (cocoa : PrepareDataset.CocoaDir)
  : list PrepareDataset.LocalPath :=
  flat_map (fun entry : string * string =>
              match cocoa (fst entry) with
              | Some glob => cocoa_images glob
              | None => []
              end)
           PrepareDataset.cocoa_mapping.

(** The exceptions a run of [prepare_dataset.py] can end with: the one of
    an empty train set, and the one [shutil.copy2] raises on a local path
    that is not a regular file it can read. *)
Definition split_or_copy_error (cocoa : PrepareDataset.CocoaDir) (e : Py.exn) : Prop :=
  e = empty_train_set \/
  exists p, In p (cocoa_paths cocoa) /\ copy_error p = Some e.

(** An outcome that is a success or one of these exceptions. *)
Definition benign (cocoa : PrepareDataset.CocoaDir) {A} (r : Py.result A) : Prop :=
  match r with
  | Py.Ok _ => True
  | Py.Raise e => split_or_copy_error cocoa e
  end.

(** Reading back the number of a file name: the inverse of [f"{n:05d}"]. *)
Definition parse_05d (s : string) : option nat :=
  option_map Nat.of_uint (NilEmpty.uint_of_string s).

(** The folder of a label index, by the name it stands for. *)
Definition folder_of (names : list string) (label_idx : nat) : option string :=
  match nth_error names label_idx with
  | Some name => PrepareDataset.match_pv_label name
  | None => None
  end.

(** The examples a scan keeps, each with its folder and its number, the
    numbers counting the kept examples from [count] on. *)
Fixpoint tag_kept {Image} (folder : nat -> option string)
         (ds : list (Image * nat)) (count : nat)
  : list (string * (Image * nat)) :=
  match ds with
  | [] => []
  | (image, label_idx) :: rest =>
      match folder label_idx with
      | Some f => (f, (image, count)) :: tag_kept folder rest (S count)
      | None => tag_kept folder rest count
      end
  end.

(** The kept examples of the folder [c]. *)
Definition kept_of {Image} (c : string) (l : list (string * (Image * nat)))
  : list (Image * nat) :=
  map snd (filter (fun t => String.eqb (fst t) c) l).

(** The file [copy_cocoa_data] writes for the [i]-th image of a split. *)
Definition copy_file {Image} (split cls_name : string)
           (x : nat * PrepareDataset.LocalPath)
  : PrepareDataset.OutFile Image :=
  {| PrepareDataset.of_split := split;
     PrepareDataset.of_class := cls_name;
     PrepareDataset.of_name :=
       (cls_name ++ "_" ++ PyStr.format_05d (fst x)
                 ++ PyStr.suffix (PrepareDataset.path_str (snd x)))%string;
     PrepareDataset.of_data := PrepareDataset.CopyOf (PrepareDataset.path_str (snd x)) |}.

(** The numbered paths of a split that are copied: those before the first
    one that cannot be. *)
Fixpoint until_error (l : list (nat * PrepareDataset.LocalPath))
  : list (nat * PrepareDataset.LocalPath) :=
  match l with
  | [] => []
  | x :: rest =>
      match copy_error (snd x) with
      | Some _ => []
      | None => x :: until_error rest
      end
  end.

(** A step of the script that, started with the twelve class directories,
    keeps them and ends in a success or in one of the exceptions of
    [split_or_copy_error]. *)
Definition steady (R : Sklearn.Rng) {Image A : Type} (cocoa : PrepareDataset.CocoaDir)
           (m : PrepareDataset.M R (Image := Image) A) : Prop :=
  forall w, PrepareDataset.dirs R w = PrepareDataset.class_dirs ->
            PrepareDataset.dirs R (snd (m w)) = PrepareDataset.class_dirs /\
            benign cocoa (fst (m w)).

(** The body of the loop of [copy_cocoa_data], for one entry of
    [cocoa_mapping]. *)
Definition copy_class (R : Sklearn.Rng) {Image : Type} (cocoa : PrepareDataset.CocoaDir)
           (entry : string * string) : PrepareDataset.M R (Image := Image) unit :=
  let '(src_subdir, cls_name) := entry in
  match cocoa src_subdir with
  | None => PrepareDataset.ret R tt
  | Some glob =>
      let images := flat_map glob ["*.jpg"; "*.jpeg"; "*.png"] in
      match images with
      | [] => PrepareDataset.ret R tt
      | _ =>
          PrepareDataset.mbind R (PrepareDataset.split_80_20 R images)
            (fun '(train_imgs, val_imgs) =>
             PrepareDataset.for_each R [("train", train_imgs); ("val", val_imgs)]
               (fun '(split_name, split_imgs) =>
                  PrepareDataset.for_each R (Py.enumerate split_imgs)
                    (fun '(i, img_path) =>
                       PrepareDataset.copy2 R img_path split_name cls_name
                         (cls_name ++ "_" ++ PyStr.format_05d i
                                   ++ PyStr.suffix (PrepareDataset.path_str img_path))%string)))
      end
  end.

(** The steps of the YOLO script that do not touch the Android assets. *)
Definition training_only (ev : TrainYolo.event) : Prop :=
  match ev with
  | TrainYolo.Train _ | TrainYolo.Export _ => True
  | _ => False
  end.

(** The files of the class folder [c]. *)
Definition in_class {Image} (c : string) (o : PrepareDataset.OutFile Image) : bool :=
  String.eqb (PrepareDataset.of_class o) c.

(** * Properties *)

(** ** Indexing by a list of positions *)

Section SelectFacts.
Context {A : Type}.
Implicit Types (l : list A) (ix : list nat).

Lemma select_app l ix ix' : select l (ix ++ ix') = select l ix ++ select l ix'.
Proof. unfold select. apply flat_map_app. Qed.

Lemma select_cons_shift x l ix : select (x :: l) (map S ix) = select l ix.
Proof.
  unfold select. induction ix as [|i ix IH]; simpl; [reflexivity|].
  now rewrite IH.
Qed.

Lemma select_all l : select l (seq 0 (List.length l)) = l.
Proof.
  induction l as [|x l IH]; [reflexivity|].
  cbn [List.length seq]. rewrite <- seq_shift.
  change (select (x :: l) (0 :: map S (seq 0 (List.length l))))
    with (x :: select (x :: l) (map S (seq 0 (List.length l)))).
  now rewrite select_cons_shift, IH.
Qed.

Lemma select_Permutation l ix ix' :
  Permutation ix ix' -> Permutation (select l ix) (select l ix').
Proof. intros P. unfold select. now apply Permutation_flat_map. Qed.

Lemma select_length l ix :
  Forall (fun i => i < List.length l) ix ->
  List.length (select l ix) = List.length ix.
Proof.
  induction 1 as [|i ix Hi _ IH]; [reflexivity|].
  unfold select in *. cbn [flat_map]. rewrite length_app, IH.
  destruct (nth_error l i) eqn:E; [reflexivity|].
  apply nth_error_None in E. lia.
Qed.

Lemma select_In l ix x : In x (select l ix) -> In x l.
Proof.
  unfold select. rewrite in_flat_map. intros (i & _ & Hx).
  destruct (nth_error l i) eqn:E; [|contradiction].
  destruct Hx as [<-|[]]. eapply nth_error_In; eauto.
Qed.
End SelectFacts.

Lemma in_firstn_skipn {A} (n : nat) (l : list A) (x : A) :
  In x (firstn n l) \/ In x (skipn n l) -> In x l.
Proof.
  intros H. rewrite <- (firstn_skipn n l). apply in_or_app. exact H.
Qed.

Lemma perm_seq_bound (p : list nat) (n : nat) :
  Permutation p (seq 0 n) -> Forall (fun i => i < n) p.
Proof.
  intros P. apply Forall_forall. intros i Hi.
  apply (Permutation_in _ P), in_seq in Hi. lia.
Qed.

(** ** [train_test_split] *)

Section SplitFacts.
Context (R : Sklearn.Rng) {A : Type}.
Implicit Types (arrays : list A).

  (** With [test_size = 0.2] the test part has [ceil(n / 5)] elements. *)
Lemma ceil_mul_fifth n :
    Sklearn.ceil_mul PrepareDataset.VAL_RATIO n = (n + 4) / 5.
Proof. unfold Sklearn.ceil_mul. simpl. now rewrite Nat.mul_1_r. Qed.

Lemma fifth_lt n : 2 <= n -> (n + 4) / 5 < n.
Proof.
    intros Hn. apply Nat.Div0.div_lt_upper_bound. lia.
Qed.

  (** A seeded call leaves the global generator alone. *)
Lemma train_test_split_seeded_global arrays f seed g :
    snd (Sklearn.train_test_split R arrays f (Some seed) g) = g.
Proof.
    unfold Sklearn.train_test_split.
    destruct (_ || _); [reflexivity|].
    destruct (_ =? 0); [reflexivity|].
    now destruct (Sklearn.permutation R _ _).
Qed.

  (** A seeded call does not read the global generator either. *)
Lemma train_test_split_seeded_result arrays f seed g g' :
    fst (Sklearn.train_test_split R arrays f (Some seed) g) =
    fst (Sklearn.train_test_split R arrays f (Some seed) g').
Proof.
    unfold Sklearn.train_test_split.
    destruct (_ || _); [reflexivity|].
    destruct (_ =? 0); [reflexivity|].
    cbn [Sklearn.check_random_state].
    now destruct (Sklearn.permutation R _ _).
Qed.

  (** One example: the train part would be empty, which the library
      refuses. *)
Lemma train_test_split_single (x : A) seed g :
    Sklearn.train_test_split R [x] PrepareDataset.VAL_RATIO (Some seed) g =
    (Py.Raise (Py.ValueError "the resulting train set will be empty"), g).
Proof. reflexivity. Qed.

  (** Two examples or more: a split comes back, the test part holds
      [ceil(n / 5)] of them and the two parts together are the input. *)
Lemma train_test_split_ok arrays seed g :
    2 <= List.length arrays ->
    exists train test,
      Sklearn.train_test_split R arrays PrepareDataset.VAL_RATIO (Some seed) g
        = (Py.Ok (train, test), g) /\
      List.length test = (List.length arrays + 4) / 5 /\
      List.length train = List.length arrays - (List.length arrays + 4) / 5 /\
      Permutation (train ++ test) arrays.
Proof.
    intros Hn. unfold Sklearn.train_test_split.
    cbn [PrepareDataset.VAL_RATIO Sklearn.num Sklearn.den Nat.eqb Nat.leb orb].
    fold PrepareDataset.VAL_RATIO. rewrite ceil_mul_fifth.
    set (n := List.length arrays) in *.
    pose proof (fifth_lt n Hn) as Hlt.
    destruct (n - (n + 4) / 5 =? 0) eqn:E; [apply Nat.eqb_eq in E; lia|].
    cbn [Sklearn.check_random_state].
    pose proof (Sklearn.permutation_perm R (Sklearn.RandomState R seed) n) as P.
    destruct (Sklearn.permutation R (Sklearn.RandomState R seed) n) as [perm st'].
    cbn [fst] in P.
    assert (Hlen : List.length perm = n)
      by (rewrite (Permutation_length P); apply length_seq).
    assert (Hb : Forall (fun i => i < n) perm) by now apply perm_seq_bound.
    assert (Htrain : firstn (n - (n + 4) / 5) (skipn ((n + 4) / 5) perm)
                     = skipn ((n + 4) / 5) perm).
    { apply firstn_all2. rewrite length_skipn. lia. }
    rewrite Htrain.
    eexists _, _. split; [reflexivity|]. repeat split.
    - rewrite select_length.
      + rewrite length_firstn. lia.
      + apply Forall_forall. intros i Hi.
        assert (Hp : In i perm) by (apply (in_firstn_skipn ((n + 4) / 5)); now left).
        clear Hi. revert i Hp. now apply Forall_forall.
    - rewrite select_length.
      + rewrite length_skipn. lia.
      + apply Forall_forall. intros i Hi.
        assert (Hp : In i perm) by (apply (in_firstn_skipn ((n + 4) / 5)); now right).
        clear Hi. revert i Hp. now apply Forall_forall.
    - rewrite <- select_app.
      rewrite <- (select_all arrays) at 2. apply select_Permutation.
      fold n. rewrite <- P.
      rewrite <- (firstn_skipn ((n + 4) / 5) perm) at 3.
      apply Permutation_app_comm.
Qed.
End SplitFacts.

(** ** Dictionaries *)

Section DictFacts.
Context {K V : Type} (eqb : K -> K -> bool).
Hypothesis eqb_eq : forall a b, eqb a b = true <-> a = b.

Lemma eqb_refl_K k : eqb k k = true.
Proof. now apply eqb_eq. Qed.

Lemma eqb_neq_K a b : a <> b -> eqb a b = false.
Proof.
    intros N. destruct (eqb a b) eqn:E; [|reflexivity].
    apply eqb_eq in E. contradiction.
Qed.

Lemma get_set_same (d : list (K * V)) k v : Py.get eqb (Py.set eqb d k v) k = Some v.
Proof.
    induction d as [|[k' v'] d IH]; simpl.
    - now rewrite eqb_refl_K.
    - destruct (eqb k' k) eqn:E; simpl; rewrite E; [reflexivity|exact IH].
Qed.

Lemma get_set_other (d : list (K * V)) k k' v :
    k <> k' -> Py.get eqb (Py.set eqb d k v) k' = Py.get eqb d k'.
Proof.
    intros N. induction d as [|[k0 v0] d IH]; simpl.
    - now rewrite eqb_neq_K.
    - destruct (eqb k0 k) eqn:E; simpl.
      + apply eqb_eq in E. subst k0. now rewrite eqb_neq_K.
      + now rewrite IH.
Qed.

Lemma get_Some_In (d : list (K * V)) k v : Py.get eqb d k = Some v -> In (k, v) d.
Proof.
    induction d as [|[k0 v0] d IH]; simpl; [discriminate|].
    destruct (eqb k0 k) eqn:E.
    - apply eqb_eq in E. intros [= ->]. left. now subst.
    - intros G. right. now apply IH.
Qed.

Lemma get_None_iff (d : list (K * V)) k : Py.get eqb d k = None <-> ~ In k (Py.keys d).
Proof.
    induction d as [|[k0 v0] d IH]; simpl; [tauto|].
    destruct (eqb k0 k) eqn:E.
    - apply eqb_eq in E. split; [discriminate|]. intros N. exfalso. apply N. now left.
    - rewrite IH. split.
      + intros N [->|I]; [|now apply N]. rewrite eqb_refl_K in E. discriminate.
      + intros N I. apply N. now right.
Qed.

Lemma In_keys_get (d : list (K * V)) k : In k (Py.keys d) -> exists v, Py.get eqb d k = Some v.
Proof.
    intros I. destruct (Py.get eqb d k) eqn:G; [eauto|].
    apply get_None_iff in G. contradiction.
Qed.

  (** Storing under a key leaves the other keys where they are. *)
Lemma keys_set (d : list (K * V)) k v k' :
    In k' (Py.keys (Py.set eqb d k v)) <-> k' = k \/ In k' (Py.keys d).
Proof.
    induction d as [|[k0 v0] d IH]; simpl.
    - intuition congruence.
    - destruct (eqb k0 k) eqn:E; simpl.
      + apply eqb_eq in E. subst k0. intuition congruence.
      + rewrite IH. intuition congruence.
Qed.

Lemma keys_set_present (d : list (K * V)) k v :
    In k (Py.keys d) -> Py.keys (Py.set eqb d k v) = Py.keys d.
Proof.
    induction d as [|[k0 v0] d IH]; simpl; [contradiction|].
    intros I. destruct (eqb k0 k) eqn:E; simpl; [reflexivity|].
    f_equal. apply IH. destruct I as [->|I]; [|exact I].
    rewrite eqb_refl_K in E. discriminate.
Qed.

Lemma values_set (d : list (K * V)) k v v' :
    In v' (Py.values (Py.set eqb d k v)) -> v' = v \/ In v' (Py.values d).
Proof.
    induction d as [|[k0 v0] d IH]; simpl.
    - intuition congruence.
    - destruct (eqb k0 k) eqn:E; simpl; intuition congruence.
Qed.
End DictFacts.

(** The dictionary a loop over [enumerate(names)] fills, storing [f name]
    under the position of [name] whenever [f] gives a value. *)
Section EnumerateFill.
Context {V : Type} (f : string -> option V).

Lemma get_fill names : forall start d i,
  Py.get Nat.eqb (fold_left (fill_step f) (Py.enumerate_from start names) d) i =
  match (if start <=? i then nth_error names (i - start) else None) with
  | Some name =>
      match f name with Some v => Some v | None => Py.get Nat.eqb d i end
  | None => Py.get Nat.eqb d i
  end.
Proof.
  induction names as [|name names IH]; intros start d i; cbn [Py.enumerate_from fold_left].
  - destruct (start <=? i); [|reflexivity]. now destruct (i - start).
  - rewrite IH. change (fill_step f d (start, name)) with
      (match f name with Some v => Py.set Nat.eqb d start v | None => d end).
    destruct (Nat.leb_spec (S start) i) as [L|L].
    + replace (start <=? i) with true by (symmetry; apply Nat.leb_le; lia).
      replace (i - start) with (S (i - S start)) by lia. cbn [nth_error].
      assert (N : start <> i) by lia.
      destruct (nth_error names (i - S start)) as [nm|];
        [destruct (f nm); [reflexivity|]|];
        (destruct (f name); [now rewrite (get_set_other _ Nat.eqb_eq)|reflexivity]).
    + destruct (Nat.leb_spec start i) as [L'|L'].
      * assert (i = start) by lia. subst i. rewrite Nat.sub_diag. cbn [nth_error].
        destruct (f name); [now rewrite (get_set_same _ Nat.eqb_eq)|reflexivity].
      * assert (N : start <> i) by lia.
        destruct (f name); [now rewrite (get_set_other _ Nat.eqb_eq)|reflexivity].
Qed.

Lemma values_fill names : forall start d v,
  In v (Py.values (fold_left (fill_step f) (Py.enumerate_from start names) d)) ->
  In v (Py.values d) \/ exists name, In name names /\ f name = Some v.
Proof.
  induction names as [|name names IH]; intros start d v; cbn [Py.enumerate_from fold_left].
  - now left.
  - intros I. apply IH in I. destruct I as [I|(nm & I & E)].
    + unfold fill_step in I. cbn [fst snd] in I.
      destruct (f name) eqn:E; [|now left].
      apply values_set in I. destruct I as [->|I]; [|now left].
      right. exists name. split; [now left|exact E].
    + right. exists nm. split; [now right|exact E].
Qed.
End EnumerateFill.

(** ** Label matching in [prepare_dataset.py] *)

Lemma first_match_Some nl items folder :
  PrepareDataset.first_match nl items = Some folder ->
  exists keyword condition,
    In ((keyword, condition), folder) items /\
    PyStr.contains keyword nl = true /\ PyStr.contains condition nl = true.
Proof.
  induction items as [|[[k c] f] items IH]; simpl; [discriminate|].
  destruct (PyStr.contains k nl && PyStr.contains c nl) eqn:E.
  - intros [= <-]. apply andb_true_iff in E. exists k, c. intuition.
  - intros M. destruct (IH M) as (k' & c' & I & Hk & Hc).
    exists k', c'. intuition.
Qed.

Lemma first_match_None nl items :
  PrepareDataset.first_match nl items = None <->
  forall keyword condition folder,
    In ((keyword, condition), folder) items ->
    ~ (PyStr.contains keyword nl = true /\ PyStr.contains condition nl = true).
Proof.
  induction items as [|[[k c] f] items IH]; simpl.
  - split; [intros _ ? ? ? []|reflexivity].
  - destruct (PyStr.contains k nl && PyStr.contains c nl) eqn:E.
    + split; [discriminate|]. intros N. exfalso.
      apply andb_true_iff in E. apply (N k c f); [now left|exact E].
    + rewrite IH. split.
      * intros N k' c' f' [[= <- <- <-]|I].
        -- intros [Hk Hc]. rewrite Hk, Hc in E. discriminate.
        -- exact (N k' c' f' I).
      * intros N k' c' f' I. apply (N k' c' f'). now right.
Qed.

(** The folders [match_pv_label] can answer with. *)
Lemma match_pv_label_range name folder :
  PrepareDataset.match_pv_label name = Some folder ->
  In folder ["maize__rust"; "maize__healthy"; "tomato__early_blight"; "tomato__healthy"].
Proof.
  unfold PrepareDataset.match_pv_label. intros M.
  apply first_match_Some in M. destruct M as (k & c & I & _).
  simpl in I. simpl.
  repeat (destruct I as [I|I]; [injection I as _ _ <-; tauto|]).
  contradiction.
Qed.

Lemma match_pv_label_truthy name :
  PrepareDataset.truthy (PrepareDataset.match_pv_label name) =
  match PrepareDataset.match_pv_label name with Some _ => true | None => false end.
Proof.
  destruct (PrepareDataset.match_pv_label name) as [f|] eqn:M; [|reflexivity].
  apply match_pv_label_range in M. simpl in M.
  repeat (destruct M as [<-|M]; [reflexivity|]). contradiction.
Qed.

Lemma In_PV_ALL_CLASSES folder :
  In folder ["maize__rust"; "maize__healthy"; "tomato__early_blight"; "tomato__healthy"] ->
  In folder PrepareDataset.ALL_CLASSES.
Proof. unfold PrepareDataset.ALL_CLASSES. simpl. tauto. Qed.

(** [idx_to_folder] holds, under the position of each label name, the
    folder [match_pv_label] gives it, and nothing for the others. *)
Lemma idx_to_folder_fill names :
  PrepareDataset.idx_to_folder names =
  fold_left (fill_step PrepareDataset.match_pv_label) (Py.enumerate names) [].
Proof.
  unfold PrepareDataset.idx_to_folder, Py.enumerate.
  generalize (@nil (nat * string)) as d. generalize 0 as start.
  induction names as [|name names IH]; intros start d; [reflexivity|].
  cbn [Py.enumerate_from fold_left]. rewrite IH. f_equal.
  unfold fill_step. cbn [fst snd]. rewrite match_pv_label_truthy.
  now destruct (PrepareDataset.match_pv_label name).
Qed.

Lemma get_idx_to_folder names i :
  Py.get Nat.eqb (PrepareDataset.idx_to_folder names) i =
  match nth_error names i with
  | Some name => PrepareDataset.match_pv_label name
  | None => None
  end.
Proof.
  rewrite idx_to_folder_fill. unfold Py.enumerate. rewrite get_fill.
  cbn [Nat.leb Py.get]. rewrite Nat.sub_0_r.
  destruct (nth_error names i) as [name|]; [|reflexivity].
  now destruct (PrepareDataset.match_pv_label name).
Qed.

Lemma values_idx_to_folder names folder :
  In folder (Py.values (PrepareDataset.idx_to_folder names)) ->
  exists name, In name names /\ PrepareDataset.match_pv_label name = Some folder.
Proof.
  rewrite idx_to_folder_fill. intros I.
  apply values_fill in I. destruct I as [[]|I]. exact I.
Qed.

(** ** The scan of [extract_plantvillage] *)

Section ExtractFacts.
Context {Image : Type}.
Implicit Types (ibc : list (string * list (Image * nat))).

Lemma keys_empty_classes_from (l : list string) : forall ibc c,
    In c (Py.keys (fold_left (fun d folder => Py.set String.eqb d folder []) l ibc)) <->
    In c l \/ In c (Py.keys ibc).
Proof.
    induction l as [|f l IH]; intros ibc c; cbn [fold_left].
    - simpl. tauto.
    - rewrite IH, (keys_set _ String.eqb_eq). simpl. intuition congruence.
Qed.

Lemma keys_empty_classes itf c :
    In c (Py.keys (@PrepareDataset.empty_classes Image itf)) <-> In c (Py.values itf).
Proof.
    unfold PrepareDataset.empty_classes. rewrite keys_empty_classes_from.
    simpl. tauto.
Qed.

  (** The scan ends without an error once every folder of [idx_to_folder]
      is a key of [images_by_class], and it keeps the keys. *)
Lemma scan_ok itf (ds : list (Image * nat)) : forall count ibc,
    (forall folder, In folder (Py.values itf) -> In folder (Py.keys ibc)) ->
    exists d, PrepareDataset.scan itf ds count ibc = Py.Ok d /\
              Py.keys d = Py.keys ibc.
Proof.
    induction ds as [|[image label_idx] ds IH]; intros count ibc Hk; cbn [PrepareDataset.scan].
    - eauto.
    - destruct (Py.get Nat.eqb itf label_idx) as [folder|] eqn:G; [|now apply IH].
      apply (get_Some_In _ Nat.eqb_eq) in G.
      assert (I : In folder (Py.keys ibc)).
      { apply Hk. unfold Py.values. apply in_map_iff. now exists (label_idx, folder). }
      destruct (In_keys_get _ String.eqb_eq _ _ I) as [l Gl]. rewrite Gl.
      destruct (IH (S count) (Py.set String.eqb ibc folder (l ++ [(image, count)])))
        as (d & E & Kd).
      + intros f If. rewrite (keys_set_present _ String.eqb_eq) by exact I. now apply Hk.
      + exists d. split; [exact E|].
        now rewrite Kd, (keys_set_present _ String.eqb_eq).
Qed.

  (** Examples whose label index has no folder leave no trace: removing
      them beforehand gives the same result. *)
Lemma scan_filter itf (ds : list (Image * nat)) : forall count ibc,
    PrepareDataset.scan itf
      (filter (fun x => match Py.get Nat.eqb itf (snd x) with
                        | Some _ => true | None => false end) ds) count ibc =
    PrepareDataset.scan itf ds count ibc.
Proof.
    induction ds as [|[image label_idx] ds IH]; intros count ibc; [reflexivity|].
    cbn [filter snd PrepareDataset.scan].
    destruct (Py.get Nat.eqb itf label_idx) as [folder|] eqn:G.
    - cbn [PrepareDataset.scan]. rewrite G.
      destruct (Py.get String.eqb ibc folder); [apply IH|reflexivity].
    - apply IH.
Qed.

Lemma extract_plantvillage_ok (pv : PrepareDataset.PlantVillage Image) :
    exists d, PrepareDataset.extract_plantvillage pv = Py.Ok d /\
      forall c, In c (Py.keys d) ->
        exists name, In name (PrepareDataset.label_names pv) /\
                     PrepareDataset.match_pv_label name = Some c.
Proof.
    unfold PrepareDataset.extract_plantvillage.
    destruct (scan_ok (PrepareDataset.idx_to_folder (PrepareDataset.label_names pv))
                (PrepareDataset.examples pv) 0
                (PrepareDataset.empty_classes
                   (PrepareDataset.idx_to_folder (PrepareDataset.label_names pv))))
      as (d & E & Kd).
    - intros f If. now apply keys_empty_classes.
    - exists d. split; [exact E|]. intros c Ic. rewrite Kd in Ic.
      apply keys_empty_classes in Ic. now apply values_idx_to_folder.
Qed.
End ExtractFacts.

(** ** Runs of [prepare_dataset.py] *)

Section ScriptFacts.
Context (R : Sklearn.Rng) {Image : Type}.
Local Abbreviation World := (PrepareDataset.World R (Image := Image)).
Local Abbreviation M := (PrepareDataset.M R (Image := Image)).
Implicit Types (w : World).

Lemma appended_refl w : appended R w w [].
Proof. unfold appended. now rewrite app_nil_r. Qed.

Lemma appended_trans w w' w'' fs fs' :
  appended R w w' fs -> appended R w' w'' fs' -> appended R w w'' (fs ++ fs').
Proof.
  unfold appended. intros (A1 & A2 & A3) (B1 & B2 & B3).
  rewrite B1, B2, B3, A1, A2, A3, app_assoc. auto.
Qed.

Lemma uniform_ret {A} (a : A) : uniform R (Image := Image) (PrepareDataset.ret R a).
Proof. intros D. exists (Py.Ok a), []. intros w _. split; [reflexivity|apply appended_refl]. Qed.

Lemma uniform_bind {A B} (m : M A) (k : A -> M B) :
  uniform R (Image := Image) m ->
  (forall a, uniform R (Image := Image) (k a)) ->
  uniform R (Image := Image) (PrepareDataset.mbind R m k).
Proof.
  intros Hm Hk D. destruct (Hm D) as (r & fs & Hr).
  destruct r as [a|e].
  - destruct (Hk a D) as (r' & fs' & Hr'). exists r', (fs ++ fs').
    intros w Hw. destruct (Hr w Hw) as [E Ap]. unfold PrepareDataset.mbind.
    destruct (m w) as [r0 w0]. cbn [fst snd] in *. subst r0.
    assert (Hw0 : PrepareDataset.dirs R w0 = D) by (destruct Ap as (_ & -> & _); exact Hw).
    destruct (Hr' w0 Hw0) as [E' Ap']. split; [exact E'|].
    eapply appended_trans; eauto.
  - exists (Py.Raise e), fs. intros w Hw. destruct (Hr w Hw) as [E Ap].
    unfold PrepareDataset.mbind. destruct (m w) as [r0 w0]. cbn [fst snd] in *.
    subst r0. split; [reflexivity|exact Ap].
Qed.

Lemma uniform_for_each {A} (l : list A) (body : A -> M unit) :
  (forall x, uniform R (Image := Image) (body x)) ->
  uniform R (Image := Image) (PrepareDataset.for_each R l body).
Proof.
  intros Hb. induction l as [|x l IH]; cbn [PrepareDataset.for_each].
  - apply uniform_ret.
  - unfold PrepareDataset.seq_. apply uniform_bind; [apply Hb|intros _; exact IH].
Qed.

Lemma uniform_write_file split cls name data :
  uniform R (Image := Image) (PrepareDataset.write_file R split cls name data).
Proof.
  intros D. unfold PrepareDataset.write_file.
  destruct (existsb (PrepareDataset.dir_eqb (split, cls)) D) eqn:E.
  - eexists (Py.Ok tt), [_]. intros w <-. rewrite E. cbn. unfold appended. cbn. auto.
  - eexists (Py.Raise _), []. intros w <-. rewrite E. cbn [fst snd].
    split; [reflexivity|apply appended_refl].
Qed.

Lemma uniform_raise {A} e : uniform R (Image := Image) (PrepareDataset.raise R (A := A) e).
Proof.
  intros D. exists (Py.Raise e), []. intros w _.
  split; [reflexivity|apply appended_refl].
Qed.

Lemma uniform_copy2 src split cls name :
  uniform R (Image := Image) (PrepareDataset.copy2 R src split cls name).
Proof.
  unfold PrepareDataset.copy2.
  destruct (PrepareDataset.path_kind src);
    [apply uniform_write_file|apply uniform_raise|apply uniform_raise].
Qed.

Lemma uniform_split_80_20 {A} (images : list A) :
  uniform R (Image := Image) (PrepareDataset.split_80_20 R images).
Proof.
  intros D.
  exists (fst (Sklearn.train_test_split R images PrepareDataset.VAL_RATIO
                 (Some PrepareDataset.SEED) (Sklearn.RandomState R 0))), [].
  intros w _. unfold PrepareDataset.split_80_20.
  pose proof (train_test_split_seeded_global R images PrepareDataset.VAL_RATIO
                PrepareDataset.SEED (PrepareDataset.rng R w)) as G.
  pose proof (train_test_split_seeded_result R images PrepareDataset.VAL_RATIO
                PrepareDataset.SEED (PrepareDataset.rng R w) (Sklearn.RandomState R 0)) as F.
  destruct (Sklearn.train_test_split R images _ _ (PrepareDataset.rng R w)) as [r g].
  cbn [fst snd] in *. subst g. split; [exact F|].
  unfold appended. cbn. now rewrite app_nil_r.
Qed.

Lemma uniform_save_split images class_name :
  uniform R (Image := Image) (PrepareDataset.save_split R images class_name).
Proof.
  unfold PrepareDataset.save_split. destruct images as [|x images].
  - apply uniform_ret.
  - apply uniform_bind; [apply uniform_split_80_20|].
    intros [train_imgs val_imgs]. apply uniform_for_each.
    intros [split_name split_imgs]. apply uniform_for_each.
    intros [img_array idx]. apply uniform_write_file.
Qed.

Lemma uniform_copy_cocoa_data cocoa :
  uniform R (Image := Image) (PrepareDataset.copy_cocoa_data R cocoa).
Proof.
  unfold PrepareDataset.copy_cocoa_data. apply uniform_for_each.
  intros [src_subdir cls_name]. destruct (cocoa src_subdir) as [glob|]; [|apply uniform_ret].
  destruct (flat_map glob _) as [|p images] eqn:E; [apply uniform_ret|].
  apply uniform_bind; [apply uniform_split_80_20|].
  intros [train_imgs val_imgs]. apply uniform_for_each.
  intros [split_name split_imgs]. apply uniform_for_each.
  intros [i img_path]. apply uniform_copy2.
Qed.
End ScriptFacts.

Section WriteFacts.
Context (R : Sklearn.Rng) {Image : Type}.
Local Abbreviation World := (PrepareDataset.World R (Image := Image)).
Local Abbreviation M := (PrepareDataset.M R (Image := Image)).
Local Abbreviation OutFile := (PrepareDataset.OutFile Image).
Implicit Types (w : World) (Q : OutFile -> Prop).

Lemma writes_only_ret {A} Q (a : A) : writes_only R Q (PrepareDataset.ret R a).
Proof. intros w Hw. exact Hw. Qed.

Lemma writes_only_bind {A B} Q (m : M A) (k : A -> M B) :
  writes_only R Q m -> (forall a, writes_only R Q (k a)) ->
  writes_only R Q (PrepareDataset.mbind R m k).
Proof.
  intros Hm Hk w Hw. unfold PrepareDataset.mbind.
  specialize (Hm w Hw). destruct (m w) as [[a|e] w']; cbn [snd] in *.
  - now apply Hk.
  - exact Hm.
Qed.

Lemma writes_only_for_each {A} Q (l : list A) (body : A -> M unit) :
  (forall x, In x l -> writes_only R Q (body x)) ->
  writes_only R Q (PrepareDataset.for_each R l body).
Proof.
  induction l as [|x l IH]; intros Hb; cbn [PrepareDataset.for_each].
  - apply writes_only_ret.
  - unfold PrepareDataset.seq_. apply writes_only_bind.
    + apply Hb. now left.
    + intros _. apply IH. intros y Hy. apply Hb. now right.
Qed.

Lemma writes_only_write_file Q split cls name data :
  Q {| PrepareDataset.of_split := split; PrepareDataset.of_class := cls;
       PrepareDataset.of_name := name; PrepareDataset.of_data := data |} ->
  writes_only R Q (PrepareDataset.write_file R split cls name data).
Proof.
  intros HQ w Hw. unfold PrepareDataset.write_file.
  destruct (existsb _ _); cbn; [|exact Hw].
  apply Forall_app. split; [exact Hw|]. now constructor.
Qed.

Lemma writes_only_copy2 Q src split cls name :
  Q {| PrepareDataset.of_split := split; PrepareDataset.of_class := cls;
       PrepareDataset.of_name := name;
       PrepareDataset.of_data := PrepareDataset.CopyOf (PrepareDataset.path_str src) |} ->
  writes_only R Q (PrepareDataset.copy2 R src split cls name).
Proof.
  intros HQ. unfold PrepareDataset.copy2.
  destruct (PrepareDataset.path_kind src); [now apply writes_only_write_file| |];
    intros w Hw; exact Hw.
Qed.

Lemma writes_only_split_80_20 {A} Q (images : list A) :
  writes_only R Q (PrepareDataset.split_80_20 R images).
Proof.
  intros w Hw. unfold PrepareDataset.split_80_20.
  destruct (Sklearn.train_test_split R images _ _ _). exact Hw.
Qed.

Lemma writes_only_mkdir Q d : writes_only R Q (PrepareDataset.mkdir R d).
Proof. intros w Hw. exact Hw. Qed.

(** [save_split] writes JPEG files into the [train] and [val] folders of
    its own class. *)
Lemma writes_only_save_split Q images class_name :
  (forall split name image, In split ["train"; "val"] ->
     Q {| PrepareDataset.of_split := split; PrepareDataset.of_class := class_name;
          PrepareDataset.of_name := name;
          PrepareDataset.of_data := PrepareDataset.Jpeg image |}) ->
  writes_only R Q (PrepareDataset.save_split R images class_name).
Proof.
  intros HQ. unfold PrepareDataset.save_split. destruct images as [|x images].
  - apply writes_only_ret.
  - apply writes_only_bind; [apply writes_only_split_80_20|].
    intros [train_imgs val_imgs]. apply writes_only_for_each.
    intros [split_name split_imgs] Hs. apply writes_only_for_each.
    intros [img_array idx] _. apply writes_only_write_file. apply HQ.
    simpl in Hs. simpl. destruct Hs as [[= <- _]|[[= <- _]|[]]]; auto.
Qed.

(** [copy_cocoa_data] writes copies into the folders of the two cocoa
    classes. *)
Lemma writes_only_copy_cocoa_data Q cocoa :
  (forall split cls name src,
     In split ["train"; "val"] -> In cls ["cocoa__black_pod"; "cocoa__healthy"] ->
     Q {| PrepareDataset.of_split := split; PrepareDataset.of_class := cls;
          PrepareDataset.of_name := name;
          PrepareDataset.of_data := PrepareDataset.CopyOf src |}) ->
  writes_only R Q (PrepareDataset.copy_cocoa_data R cocoa).
Proof.
  intros HQ. unfold PrepareDataset.copy_cocoa_data. apply writes_only_for_each.
  intros [src_subdir cls_name] Hc. destruct (cocoa src_subdir) as [glob|]; [|apply writes_only_ret].
  destruct (flat_map glob _) as [|p images]; [apply writes_only_ret|].
  apply writes_only_bind; [apply writes_only_split_80_20|].
  intros [train_imgs val_imgs]. apply writes_only_for_each.
  intros [split_name split_imgs] Hs. apply writes_only_for_each.
  intros [i img_path] _. apply writes_only_copy2. apply HQ.
  - simpl in Hs. simpl. destruct Hs as [[= <- _]|[[= <- _]|[]]]; auto.
  - unfold PrepareDataset.cocoa_mapping in Hc. simpl in Hc. simpl.
    destruct Hc as [[= _ <-]|[[= _ <-]|[]]]; auto.
Qed.
End WriteFacts.

(** ** The whole run of [prepare_dataset.py] *)

Section MainFacts.
Context (R : Sklearn.Rng) {Image : Type}.
Local Abbreviation World := (PrepareDataset.World R (Image := Image)).

Lemma main_unfold pv cocoa (w : World) :
  PrepareDataset.main R pv cocoa w =
  match PrepareDataset.extract_plantvillage pv with
  | Py.Ok images_by_class => save_and_copy R (Image := Image) images_by_class cocoa (prepared R)
  | Py.Raise e => (Py.Raise e, (prepared R))
  end.
Proof. reflexivity. Qed.

Lemma uniform_save_and_copy d cocoa :
  uniform R (Image := Image) (save_and_copy R (Image := Image) d cocoa).
Proof.
  unfold save_and_copy, PrepareDataset.seq_. apply uniform_bind.
  - apply uniform_for_each. intros [c imgs]. apply uniform_save_split.
  - intros _. apply uniform_copy_cocoa_data.
Qed.

(** Every run ends with the twelve class directories and only with files
    that lie where [placed] says. *)
Lemma main_world pv cocoa (w : World) :
  let w' := snd (PrepareDataset.main R pv cocoa w) in
  PrepareDataset.dirs R w' = PrepareDataset.class_dirs /\
  Forall placed (PrepareDataset.files R w').
Proof.
  rewrite main_unfold.
  destruct (extract_plantvillage_ok pv) as (d & E & Hd). rewrite E.
  split.
  - destruct (uniform_save_and_copy d cocoa PrepareDataset.class_dirs) as (r & fs & Hu).
    destruct (Hu (prepared R) eq_refl) as (_ & _ & Hdirs & _). exact Hdirs.
  - assert (Hw : writes_only R placed (save_and_copy R (Image := Image) d cocoa)).
    { unfold save_and_copy, PrepareDataset.seq_. apply writes_only_bind.
      - apply writes_only_for_each. intros [c imgs] Hc.
        apply writes_only_save_split. intros split name image Hs.
        split; [exact Hs|]. cbn [PrepareDataset.of_data PrepareDataset.of_class].
        destruct (Hd c) as (nm & _ & Hm).
        + unfold Py.keys. apply in_map_iff. now exists (c, imgs).
        + eapply match_pv_label_range; eauto.
      - intros _. apply writes_only_copy_cocoa_data. intros split cls name src Hs Hc.
        split; [exact Hs|exact Hc]. }
    apply Hw. constructor.
Qed.
End MainFacts.

Lemma class_dirs_spec split cls :
  In (split, cls) PrepareDataset.class_dirs <->
  In split ["train"; "val"] /\ In cls PrepareDataset.ALL_CLASSES.
Proof.
  unfold PrepareDataset.class_dirs. rewrite in_flat_map. split.
  - intros (s & Hs & Hin). apply in_map_iff in Hin.
    destruct Hin as (c & [= <- <-] & Hc). auto.
  - intros [Hs Hc]. exists split. split; [exact Hs|].
    apply in_map_iff. now exists cls.
Qed.

Lemma placed_in_ALL_CLASSES {Image} (o : PrepareDataset.OutFile Image) :
  placed o ->
  In (PrepareDataset.of_split o, PrepareDataset.of_class o) PrepareDataset.class_dirs.
Proof.
  intros [Hs Hc]. apply class_dirs_spec. split; [exact Hs|].
  destruct (PrepareDataset.of_data o).
  - now apply In_PV_ALL_CLASSES.
  - unfold PrepareDataset.ALL_CLASSES. simpl in *. tauto.
Qed.

(** C9.  Class folder names are unique and drawn from a fixed closed set of
    six: [ALL_CLASSES] holds six pairwise distinct names;
    [create_class_dirs], run on an empty output tree, creates exactly the
    folders [split/cls] for the two splits and these six classes; and every
    file a run of [main] writes, whether extracted from PlantVillage or
    copied from the local cocoa data, lies in one of these folders. *)
Theorem class_folders_closed_set :
  NoDup PrepareDataset.ALL_CLASSES /\
  List.length PrepareDataset.ALL_CLASSES = 6 /\
  (forall (R : Sklearn.Rng) (Image : Type) g (fs : list (PrepareDataset.OutFile Image)) d,
      In d (PrepareDataset.dirs R
              (snd (PrepareDataset.create_class_dirs R
                      {| PrepareDataset.rng := g; PrepareDataset.dirs := [];
                         PrepareDataset.files := fs |}))) <->
      In (fst d) ["train"; "val"] /\ In (snd d) PrepareDataset.ALL_CLASSES) /\
  (forall (R : Sklearn.Rng) (Image : Type) (pv : PrepareDataset.PlantVillage Image)
          cocoa (w : PrepareDataset.World R),
      let w' := snd (PrepareDataset.main R pv cocoa w) in
      Forall (fun d => In (snd d) PrepareDataset.ALL_CLASSES) (PrepareDataset.dirs R w') /\
      Forall (fun o => In (PrepareDataset.of_class o) PrepareDataset.ALL_CLASSES)
             (PrepareDataset.files R w')).
Proof.
  split; [|split; [reflexivity|split]].
  - unfold PrepareDataset.ALL_CLASSES.
    repeat (constructor; [simpl; intuition discriminate|]). constructor.
  - intros R Image g fs [split cls].
    change (PrepareDataset.dirs R (snd (PrepareDataset.create_class_dirs R _)))
      with PrepareDataset.class_dirs.
    apply class_dirs_spec.
  - intros R Image pv cocoa w w'. subst w'.
    destruct (main_world R pv cocoa w) as [Hd Hf]. split.
    + rewrite Hd. apply Forall_forall. intros [s c] Hin.
      apply class_dirs_spec in Hin. tauto.
    + eapply Forall_impl; [|exact Hf]. intros o Ho.
      apply placed_in_ALL_CLASSES, class_dirs_spec in Ho. tauto.
Qed.

(** C10.  For every input string, [match_pv_label] returns [None] or one of
    the four non-cocoa classes, each of which it does return for the
    PlantVillage name of that class; it never returns a cocoa class.  So the
    extraction of the public dataset has no cocoa key, and in a run of
    [main] the files in the cocoa folders are copies of local files, never
    images extracted from PlantVillage. *)
Theorem match_pv_label_never_cocoa :
  (forall name,
      In (PrepareDataset.match_pv_label name)
         [None; Some "maize__rust"; Some "maize__healthy";
          Some "tomato__early_blight"; Some "tomato__healthy"]) /\
  (forall name,
      PrepareDataset.match_pv_label name <> Some "cocoa__black_pod" /\
      PrepareDataset.match_pv_label name <> Some "cocoa__healthy") /\
  (PrepareDataset.match_pv_label "Corn___Common_rust" = Some "maize__rust" /\
   PrepareDataset.match_pv_label "Corn___healthy" = Some "maize__healthy" /\
   PrepareDataset.match_pv_label "Tomato___Early_blight" = Some "tomato__early_blight" /\
   PrepareDataset.match_pv_label "Tomato___healthy" = Some "tomato__healthy" /\
   PrepareDataset.match_pv_label "Cocoa___healthy" = None) /\
  (forall (Image : Type) (pv : PrepareDataset.PlantVillage Image),
      exists d, PrepareDataset.extract_plantvillage pv = Py.Ok d /\
        Forall (fun c => c <> "cocoa__black_pod" /\ c <> "cocoa__healthy") (Py.keys d)) /\
  (forall (R : Sklearn.Rng) (Image : Type) (pv : PrepareDataset.PlantVillage Image)
          cocoa (w : PrepareDataset.World R),
      Forall (fun o =>
                In (PrepareDataset.of_class o) ["cocoa__black_pod"; "cocoa__healthy"] ->
                exists src, PrepareDataset.of_data o = PrepareDataset.CopyOf src)
             (PrepareDataset.files R (snd (PrepareDataset.main R pv cocoa w)))).
Proof.
  assert (Hrange : forall name f, PrepareDataset.match_pv_label name = Some f ->
                     f <> "cocoa__black_pod" /\ f <> "cocoa__healthy").
  { intros name f M. apply match_pv_label_range in M. simpl in M.
    repeat (destruct M as [<-|M]; [split; discriminate|]). contradiction. }
  repeat split.
  - intros name. destruct (PrepareDataset.match_pv_label name) as [f|] eqn:M.
    + apply match_pv_label_range in M. simpl in M. simpl.
      repeat (destruct M as [<-|M]; [tauto|]). contradiction.
    + now left.
  - intros M. now destruct (Hrange _ _ M).
  - intros M. now destruct (Hrange _ _ M).
  - intros Image pv. destruct (extract_plantvillage_ok pv) as (d & E & Hd).
    exists d. split; [exact E|]. apply Forall_forall. intros c Hc.
    destruct (Hd c Hc) as (name & _ & M). exact (Hrange _ _ M).
  - intros R Image pv cocoa w.
    destruct (main_world R pv cocoa w) as [_ Hf].
    eapply Forall_impl; [|exact Hf]. intros o [_ Ho] Hc.
    destruct (PrepareDataset.of_data o) as [img|src]; [|eauto].
    exfalso. simpl in Ho, Hc.
    repeat (destruct Ho as [Ho|Ho]; [rewrite <- Ho in Hc; intuition discriminate|]).
    contradiction.
Qed.

(** ** Unmatched labels *)

Lemma get_pv_to_leaf names i :
  Py.get Nat.eqb (TrainMobilenet.pv_to_leaf names) i =
  match nth_error names i with
  | Some name => TrainMobilenet.leaf_index name
  | None => None
  end.
Proof.
  unfold TrainMobilenet.pv_to_leaf.
  assert (E : forall l d,
             fold_left (fun d '(i, name) =>
                          match TrainMobilenet.leaf_index name with
                          | Some leaf => Py.set Nat.eqb d i leaf
                          | None => d
                          end) l d =
             fold_left (fill_step TrainMobilenet.leaf_index) l d).
  { induction l as [|[j nm] l IH]; intros d; [reflexivity|apply IH]. }
  rewrite E. unfold Py.enumerate. rewrite get_fill.
  cbn [Nat.leb Py.get]. rewrite Nat.sub_0_r.
  destruct (nth_error names i) as [name|]; [|reflexivity].
  now destruct (TrainMobilenet.leaf_index name).
Qed.

Lemma filter_fn_spec {Image} names (x : Image * nat) :
  TrainMobilenet.filter_fn names x =
  match Py.get Nat.eqb (TrainMobilenet.pv_to_leaf names) (snd x) with
  | Some _ => true
  | None => false
  end.
Proof.
  unfold TrainMobilenet.filter_fn. generalize (TrainMobilenet.pv_to_leaf names) as d.
  induction d as [|[k v] d IH]; [reflexivity|].
  cbn [Py.keys map fst existsb Py.get]. rewrite Nat.eqb_sym.
  destruct (k =? snd x); [reflexivity|exact IH].
Qed.

(** C7.  Label matching is by keyword containment, and a source label that
    matches no keyword pair is dropped silently: [match_pv_label] answers
    [None] exactly for the names that contain no pair of [PV_LABEL_MAP];
    [extract_plantvillage] never raises and returns what it returns on the
    dataset without the examples of unmatched labels; the mapping of
    [train_mobilenet.py] has an entry for a label index exactly when its
    chain of tests gives the name an index, and [filter_fn] removes the
    examples of the other labels, so [ds_pv] is the same without them. *)
Theorem unmatched_labels_dropped :
  (forall name,
      PrepareDataset.match_pv_label name = None <->
      forall keyword condition folder,
        In ((keyword, condition), folder) PrepareDataset.PV_LABEL_MAP ->
        ~ (PyStr.contains keyword (PyStr.lower name) = true /\
           PyStr.contains condition (PyStr.lower name) = true)) /\
  PrepareDataset.match_pv_label "Apple___Apple_scab" = None /\
  (forall (Image : Type) (pv : PrepareDataset.PlantVillage Image),
      (exists d, PrepareDataset.extract_plantvillage pv = Py.Ok d) /\
      PrepareDataset.extract_plantvillage pv =
      PrepareDataset.extract_plantvillage
        {| PrepareDataset.label_names := PrepareDataset.label_names pv;
           PrepareDataset.examples :=
             filter (pv_matched (PrepareDataset.label_names pv))
                    (PrepareDataset.examples pv) |}) /\
  (forall names i,
      Py.get Nat.eqb (TrainMobilenet.pv_to_leaf names) i =
      match nth_error names i with
      | Some name => TrainMobilenet.leaf_index name
      | None => None
      end) /\
  (forall (Image : Type) names (x : Image * nat),
      TrainMobilenet.filter_fn names x =
      match Py.get Nat.eqb (TrainMobilenet.pv_to_leaf names) (snd x) with
      | Some _ => true
      | None => false
      end) /\
  (forall (Image : Type) (pv : PrepareDataset.PlantVillage Image),
      TrainMobilenet.ds_pv pv =
      TrainMobilenet.ds_pv
        {| PrepareDataset.label_names := PrepareDataset.label_names pv;
           PrepareDataset.examples :=
             filter (TrainMobilenet.filter_fn (PrepareDataset.label_names pv))
                    (PrepareDataset.examples pv) |}).
Proof.
  split; [|split; [reflexivity|split; [|split; [|split]]]].
  - intros name. unfold PrepareDataset.match_pv_label. apply first_match_None.
  - intros Image pv. split.
    + destruct (extract_plantvillage_ok pv) as (d & E & _). eauto.
    + unfold PrepareDataset.extract_plantvillage.
      cbn [PrepareDataset.label_names PrepareDataset.examples].
      rewrite <- (scan_filter _ (PrepareDataset.examples pv)). f_equal.
      apply filter_ext. intros x. unfold pv_matched.
      rewrite get_idx_to_folder.
      now destruct (nth_error (PrepareDataset.label_names pv) (snd x)).
  - exact get_pv_to_leaf.
  - intros Image names x. apply filter_fn_spec.
  - intros Image pv. unfold TrainMobilenet.ds_pv.
    cbn [PrepareDataset.label_names PrepareDataset.examples]. f_equal.
    generalize (PrepareDataset.examples pv) as l.
    induction l as [|x l IH]; [reflexivity|]. cbn [filter].
    destruct (TrainMobilenet.filter_fn _ x) eqn:E; [|exact IH].
    cbn [filter]. rewrite E. now f_equal.
Qed.

(** ** Labels for the class names *)

Lemma generate_labels_loop_map names : forall labels,
  TrainYolo.generate_labels_loop names labels =
  labels ++ map TrainYolo.label_for names.
Proof.
  induction names as [|name names IH]; intros labels; cbn [TrainYolo.generate_labels_loop map].
  - now rewrite app_nil_r.
  - now rewrite IH, <- app_assoc.
Qed.

Lemma generate_labels_map names :
  TrainYolo.generate_labels names = map TrainYolo.label_for names.
Proof. unfold TrainYolo.generate_labels. now rewrite generate_labels_loop_map. Qed.

(** The table says what the fallback rule says. *)
Lemma table_agrees_with_fallback :
  Forall (fun entry => TrainYolo.fallback_label (fst entry) = snd entry)
         TrainYolo.FOLDER_TO_LABEL.
Proof. repeat constructor. Qed.

Lemma label_for_fallback name : TrainYolo.label_for name = TrainYolo.fallback_label name.
Proof.
  unfold TrainYolo.label_for.
  destruct (Py.get String.eqb TrainYolo.FOLDER_TO_LABEL name) as [label|] eqn:G;
    [|reflexivity].
  apply (get_Some_In _ String.eqb_eq) in G.
  pose proof table_agrees_with_fallback as T.
  rewrite Forall_forall in T. symmetry. exact (T _ G).
Qed.

(** C6.  The lookup table and the fallback rule agree: for every folder
    name [crop__condition] of [FOLDER_TO_LABEL], the entry of the table is
    what the fallback computes (the capitalized crop, then [:healthy] for
    the condition [healthy] and [:crop_condition] otherwise), so
    [generate_labels] gives the same list as the fallback rule alone,
    whether or not the lookup succeeds. *)
Theorem table_matches_fallback :
  (forall name label,
      Py.get String.eqb TrainYolo.FOLDER_TO_LABEL name = Some label ->
      TrainYolo.fallback_label name = label /\
      exists crop condition,
        PyStr.split_once "__" name = [crop; condition] /\
        label = if String.eqb condition "healthy"
                then (PyStr.capitalize crop ++ ":healthy")%string
                else (PyStr.capitalize crop ++ ":" ++ crop ++ "_" ++ condition)%string) /\
  (forall names,
      TrainYolo.generate_labels names = map TrainYolo.fallback_label names).
Proof.
  split.
  - intros name label G. apply (get_Some_In _ String.eqb_eq) in G.
    unfold TrainYolo.FOLDER_TO_LABEL in G. simpl in G.
    repeat (destruct G as [[= <- <-]|G];
            [split; [reflexivity|eexists _, _; split; reflexivity]|]).
    contradiction.
  - intros names. rewrite generate_labels_map. apply map_ext.
    exact label_for_fallback.
Qed.

(** A use of C6 on the six folder names. *)
Lemma table_matches_fallback_witness :
  TrainYolo.fallback_label "maize__rust" = "Maize:maize_rust" /\
  exists crop condition,
    PyStr.split_once "__" "maize__rust" = [crop; condition] /\
    "Maize:maize_rust" =
      if String.eqb condition "healthy"
      then (PyStr.capitalize crop ++ ":healthy")%string
      else (PyStr.capitalize crop ++ ":" ++ crop ++ "_" ++ condition)%string.
Proof.
  apply (proj1 table_matches_fallback "maize__rust" "Maize:maize_rust").
  reflexivity.
Defined.

(** ** The lines of the label manifest *)

Lemma has_char_app c (a b : string) :
  PyStr.has_char c (a ++ b)%string = PyStr.has_char c a || PyStr.has_char c b.
Proof.
  induction a as [|x a IH]; [reflexivity|]. cbn [String.append PyStr.has_char].
  now rewrite IH, orb_assoc.
Qed.

Lemma has_char_drop c n : forall s,
  PyStr.has_char c s = false -> PyStr.has_char c (PyStr.drop n s) = false.
Proof.
  induction n as [|n IH]; intros s Hs; [exact Hs|].
  destruct s as [|x s]; [reflexivity|]. cbn [PyStr.drop]. apply IH.
  cbn [PyStr.has_char] in Hs. now apply orb_false_iff in Hs.
Qed.

Lemma has_char_split_once c sep : forall s,
  PyStr.has_char c s = false ->
  Forall (fun part => PyStr.has_char c part = false) (PyStr.split_once sep s).
Proof.
  induction s as [|x s IH]; intros Hs.
  - cbn [PyStr.split_once]. destruct (PyStr.startswith sep ""); repeat constructor.
    now apply has_char_drop.
  - cbn [PyStr.split_once]. destruct (PyStr.startswith sep (String x s)).
    + repeat constructor. now apply has_char_drop.
    + cbn [PyStr.has_char] in Hs. apply orb_false_iff in Hs. destruct Hs as [Hx Hs].
      specialize (IH Hs).
      assert (Hxs : PyStr.has_char c (String x s) = false)
        by (cbn [PyStr.has_char]; now rewrite Hx, Hs).
      destruct (PyStr.split_once sep s) as [|before [|after [|? ?]]];
        try (repeat constructor; exact Hxs).
      inversion IH as [|? ? Hb Hrest]; subst. inversion Hrest as [|? ? Ha _]; subst.
      repeat constructor; [|exact Ha]. cbn [PyStr.has_char]. now rewrite Hx, Hb.
Qed.

Lemma lower_char_line_break a :
  Ascii.eqb (PyStr.lower_char a) line_break = Ascii.eqb a line_break.
Proof. destruct a as [[] [] [] [] [] [] [] []]; reflexivity. Qed.

Lemma upper_char_line_break a :
  Ascii.eqb (PyStr.upper_char a) line_break = Ascii.eqb a line_break.
Proof. destruct a as [[] [] [] [] [] [] [] []]; reflexivity. Qed.

Lemma one_line_lower s : one_line s -> one_line (PyStr.lower s).
Proof.
  unfold one_line. induction s as [|x s IH]; [trivial|].
  cbn [PyStr.lower PyStr.map_chars PyStr.has_char]. rewrite lower_char_line_break.
  intros H. apply orb_false_iff in H. destruct H as [-> Hs]. exact (IH Hs).
Qed.

Lemma one_line_capitalize s : one_line s -> one_line (PyStr.capitalize s).
Proof.
  unfold one_line. destruct s as [|x s]; [trivial|].
  cbn [PyStr.capitalize PyStr.has_char]. rewrite upper_char_line_break.
  intros H. apply orb_false_iff in H. destruct H as [-> Hs].
  exact (one_line_lower s Hs).
Qed.

Lemma one_line_label_for name : one_line name -> one_line (TrainYolo.label_for name).
Proof.
  intros Hn. rewrite label_for_fallback. unfold TrainYolo.fallback_label.
  pose proof (has_char_split_once line_break "__" name Hn) as Hp.
  destruct (PyStr.split_once "__" name) as [|crop [|condition [|? ?]]]; try exact Hn.
  inversion Hp as [|? ? Hcrop Hrest]; subst. inversion Hrest as [|? ? Hcond _]; subst.
  pose proof (one_line_capitalize crop Hcrop) as Hcap. unfold one_line in *.
  destruct (String.eqb condition "healthy"); repeat rewrite has_char_app;
    rewrite ?Hcap, ?Hcrop, ?Hcond; reflexivity.
Qed.

Lemma split_char_one_line s :
  one_line s -> PyStr.split_char line_break s = [s].
Proof.
  unfold one_line. induction s as [|x s IH]; [reflexivity|].
  cbn [PyStr.has_char PyStr.split_char]. intros H. apply orb_false_iff in H.
  destruct H as [-> Hs]. now rewrite (IH Hs).
Qed.

Lemma split_char_line s rest :
  one_line s ->
  PyStr.split_char line_break (s ++ PyStr.newline ++ rest)%string =
  s :: PyStr.split_char line_break rest.
Proof.
  unfold one_line. induction s as [|x s IH].
  - reflexivity.
  - cbn [PyStr.has_char]. intros H. apply orb_false_iff in H. destruct H as [Hx Hs].
    cbn [String.append PyStr.split_char]. rewrite Hx. now rewrite (IH Hs).
Qed.

(** Read back line by line, the manifest gives the labels it was written
    from. *)
Lemma lines_of_manifest labels :
  labels <> [] -> Forall one_line labels ->
  PyStr.split_char line_break (TrainYolo.manifest labels) = labels.
Proof.
  unfold TrainYolo.manifest. intros Hne H.
  destruct labels as [|p rest]; [contradiction|]. clear Hne.
  revert p H. induction rest as [|q rest IH]; intros p H.
  - apply split_char_one_line. now inversion H.
  - change (PyStr.join PyStr.newline (p :: q :: rest))
      with (p ++ PyStr.newline ++ PyStr.join PyStr.newline (q :: rest))%string.
    inversion H as [|? ? Hp Hrest]; subst.
    rewrite split_char_line by exact Hp. now rewrite IH.
Qed.

(** ** The class names in index order *)

Lemma keys_enumerate_from {A} (l : list A) : forall start,
  Py.keys (Py.enumerate_from start l) = seq start (List.length l).
Proof.
  induction l as [|x l IH]; intros start; [reflexivity|].
  cbn [Py.enumerate_from Py.keys map fst List.length seq]. f_equal. apply IH.
Qed.

Lemma get_enumerate_from {A} (l : list A) : forall start i,
  Py.get Nat.eqb (Py.enumerate_from start l) (start + i) = nth_error l i.
Proof.
  induction l as [|x l IH]; intros start i; cbn [Py.enumerate_from Py.get].
  - now destruct i.
  - destruct i as [|i].
    + now rewrite Nat.add_0_r, Nat.eqb_refl.
    + replace (start =? start + S i) with false by (symmetry; apply Nat.eqb_neq; lia).
      rewrite <- Nat.add_succ_comm. apply IH.
Qed.

Lemma sorted_seq n : forall start, TrainYolo.sorted (seq start n) = seq start n.
Proof.
  unfold TrainYolo.sorted. induction n as [|n IH]; intros start; [reflexivity|].
  cbn [seq fold_right]. rewrite IH. destruct n as [|n]; [reflexivity|].
  cbn [seq TrainYolo.insert_sorted].
  now replace (start <=? S start) with true by (symmetry; apply Nat.leb_le; lia).
Qed.

Lemma skipn_nth_error {A} (x : A) : forall n l,
  nth_error l n = Some x -> skipn n l = x :: skipn (S n) l.
Proof.
  induction n as [|n IH]; intros [|y l] E; try discriminate.
  - now injection E as ->.
  - cbn [skipn]. now apply IH.
Qed.

Lemma lookup_all_enumerate (l : list string) : forall n start,
  start + n <= List.length l ->
  TrainYolo.lookup_all (Py.enumerate l) (seq start n) = Py.Ok (firstn n (skipn start l)).
Proof.
  induction n as [|n IH]; intros start Hle; [reflexivity|].
  cbn [seq TrainYolo.lookup_all].
  pose proof (get_enumerate_from l 0 start) as G. cbn [Nat.add] in G.
  unfold Py.enumerate at 1. rewrite G.
  destruct (nth_error l start) as [name|] eqn:E;
    [|apply nth_error_None in E; lia].
  rewrite IH by lia. cbn [Py.bind].
  now rewrite (skipn_nth_error name start l E).
Qed.

(** For a model whose names are [{0: l[0], 1: l[1], ...}] the ordered
    names are [l]. *)
Lemma ordered_names_enumerate (l : list string) :
  TrainYolo.ordered_names (Py.enumerate l) = Py.Ok l.
Proof.
  unfold TrainYolo.ordered_names, Py.enumerate at 2.
  rewrite keys_enumerate_from, sorted_seq, lookup_all_enumerate by lia.
  now rewrite skipn_O, firstn_all.
Qed.

Lemma insert_sorted_Permutation k l : Permutation (TrainYolo.insert_sorted k l) (k :: l).
Proof.
  induction l as [|x l IH]; cbn [TrainYolo.insert_sorted]; [reflexivity|].
  destruct (k <=? x); [reflexivity|]. rewrite IH. apply perm_swap.
Qed.

Lemma sorted_Permutation l : Permutation (TrainYolo.sorted l) l.
Proof.
  unfold TrainYolo.sorted. induction l as [|k l IH]; cbn [fold_right]; [reflexivity|].
  rewrite insert_sorted_Permutation. now constructor.
Qed.

Lemma insert_sorted_Sorted k l :
  StronglySorted le l -> StronglySorted le (TrainYolo.insert_sorted k l).
Proof.
  induction 1 as [|x l Hs IH Hx]; cbn [TrainYolo.insert_sorted].
  - repeat constructor.
  - destruct (Nat.leb_spec k x) as [L|L].
    + constructor; [now constructor|]. constructor; [exact L|].
      eapply Forall_impl; [|exact Hx]. intros y Hy. cbn in Hy. lia.
    + constructor; [exact IH|].
      apply (Permutation_Forall (Permutation_sym (insert_sorted_Permutation k l))).
      constructor; [lia|exact Hx].
Qed.

Lemma sorted_Sorted l : StronglySorted le (TrainYolo.sorted l).
Proof.
  unfold TrainYolo.sorted. induction l as [|k l IH]; cbn [fold_right]; [constructor|].
  now apply insert_sorted_Sorted.
Qed.

Lemma lookup_all_present class_names keys :
  (forall k, In k keys -> In k (Py.keys class_names)) ->
  exists names,
    TrainYolo.lookup_all class_names keys = Py.Ok names /\
    map Some names = map (Py.get Nat.eqb class_names) keys.
Proof.
  induction keys as [|k keys IH]; intros Hk; cbn [TrainYolo.lookup_all map].
  - exists []. split; reflexivity.
  - destruct (In_keys_get _ Nat.eqb_eq class_names k) as [name G];
      [apply Hk; now left|].
    destruct IH as (names & E & Hm); [intros k' Hk'; apply Hk; now right|].
    rewrite G, E. cbn [Py.bind]. exists (name :: names). split; [reflexivity|].
    cbn [map]. now rewrite Hm.
Qed.

Lemma ordered_names_lookup (class_names : list (nat * string)) :
  exists names,
    TrainYolo.ordered_names class_names = Py.Ok names /\
    map Some names =
      map (Py.get Nat.eqb class_names) (TrainYolo.sorted (Py.keys class_names)) /\
    List.length names = List.length class_names.
Proof.
  unfold TrainYolo.ordered_names.
  destruct (lookup_all_present class_names (TrainYolo.sorted (Py.keys class_names)))
    as (names & E & Hm).
  - intros k Hk. now apply (Permutation_in _ (sorted_Permutation _)) in Hk.
  - exists names. split; [exact E|split; [exact Hm|]].
    apply (f_equal (@List.length _)) in Hm. rewrite !length_map in Hm.
    rewrite Hm, (Permutation_length (sorted_Permutation _)).
    unfold Py.keys. apply length_map.
Qed.

Lemma StronglySorted_le_seq n : forall start, StronglySorted le (seq start n).
Proof.
  induction n as [|n IH]; intros start; cbn [seq]; constructor; [apply IH|].
  apply Forall_forall. intros i Hi. apply in_seq in Hi. lia.
Qed.

(** Two sorted lists with the same elements are the same list. *)
Lemma StronglySorted_le_unique (l1 : list nat) : forall l2,
  StronglySorted le l1 -> StronglySorted le l2 -> Permutation l1 l2 -> l1 = l2.
Proof.
  induction l1 as [|a l1 IH]; intros l2 S1 S2 P.
  - apply Permutation_nil in P. now subst.
  - destruct l2 as [|b l2]; [apply Permutation_sym, Permutation_nil in P; discriminate|].
    inversion S1 as [|? ? S1' F1]; subst. inversion S2 as [|? ? S2' F2]; subst.
    assert (Hab : a = b).
    { assert (Hb : In b (a :: l1))
        by (apply (Permutation_in _ (Permutation_sym P)); now left).
      assert (Ha : In a (b :: l2)) by (apply (Permutation_in _ P); now left).
      rewrite Forall_forall in F1, F2.
      destruct Hb as [Hb|Hb]; [exact Hb|]. destruct Ha as [Ha|Ha]; [now symmetry|].
      apply F1 in Hb. apply F2 in Ha. lia. }
    subst b. f_equal. apply IH; [exact S1'|exact S2'|].
    now apply Permutation_cons_inv in P.
Qed.

Lemma sorted_of_range l n : Permutation l (seq 0 n) -> TrainYolo.sorted l = seq 0 n.
Proof.
  intros P. apply StronglySorted_le_unique.
  - apply sorted_Sorted.
  - apply StronglySorted_le_seq.
  - now rewrite sorted_Permutation.
Qed.

(** The names of a model with the classes [0 .. n-1] come out in index
    order, in whatever order its dictionary holds them. *)
Lemma ordered_names_by_index (class_names : list (nat * string)) n :
  Permutation (Py.keys class_names) (seq 0 n) ->
  exists names,
    TrainYolo.ordered_names class_names = Py.Ok names /\
    List.length names = n /\
    forall i, i < n -> nth_error names i = Py.get Nat.eqb class_names i.
Proof.
  intros P. destruct (ordered_names_lookup class_names) as (names & E & Hm & Hlen).
  exists names. rewrite (sorted_of_range _ n P) in Hm.
  assert (Hn : List.length names = n).
  { apply (f_equal (@List.length _)) in Hm. now rewrite !length_map, length_seq in Hm. }
  split; [exact E|split; [exact Hn|]]. intros i Hi.
  apply (f_equal (fun l => nth_error l i)) in Hm.
  rewrite !nth_error_map, nth_error_seq in Hm.
  replace (i <? n) with true in Hm by (symmetry; now apply Nat.ltb_lt).
  cbn [option_map Nat.add] in Hm.
  destruct (nth_error names i) as [name|] eqn:En.
  - cbn [option_map] in Hm. now injection Hm.
  - apply nth_error_None in En. lia.
Qed.

Lemma ordered_names_values (class_names : list (nat * string)) names :
  TrainYolo.ordered_names class_names = Py.Ok names ->
  forall name, In name names -> In name (Py.values class_names).
Proof.
  intros E name Hin.
  destruct (ordered_names_lookup class_names) as (names' & E' & Hm & _).
  rewrite E in E'. injection E' as <-.
  assert (Hs : In (Some name) (map Some names)) by now apply in_map.
  rewrite Hm in Hs. apply in_map_iff in Hs. destruct Hs as (k & G & _).
  apply (get_Some_In _ Nat.eqb_eq) in G.
  unfold Py.values. apply in_map_iff. now exists (k, name).
Qed.

(** C2, as the code has it.  For every list of class names,
    [generate_labels] returns a list of the same length whose i-th element
    is the label of the i-th class name, and [main] hands it the names of
    the model in index order: for a model with the classes [0 .. n-1], in
    whatever order its dictionary holds them, the i-th name is the name of
    class i.  For at least one class and class names that hold no line
    break, the manifest written with a line break between the labels has
    exactly one line per class, line i being the label of class i; so has
    the manifest [main] writes for such a model.  The same holds for the
    six fixed labels [train_mobilenet.py] writes. *)
Theorem generate_labels_order :
  (forall names,
      List.length (TrainYolo.generate_labels names) = List.length names /\
      forall i, nth_error (TrainYolo.generate_labels names) i =
                option_map TrainYolo.label_for (nth_error names i)) /\
  (forall class_names n,
      Permutation (Py.keys class_names) (seq 0 n) ->
      exists names,
        TrainYolo.ordered_names class_names = Py.Ok names /\
        List.length names = n /\
        forall i, i < n -> nth_error names i = Py.get Nat.eqb class_names i) /\
  (forall names,
      names <> [] -> Forall one_line names ->
      let lines := PyStr.split_char line_break
                     (TrainYolo.manifest (TrainYolo.generate_labels names)) in
      List.length lines = List.length names /\
      forall i, nth_error lines i = option_map TrainYolo.label_for (nth_error names i)) /\
  (forall class_names n,
      0 < n -> Permutation (Py.keys class_names) (seq 0 n) ->
      Forall one_line (Py.values class_names) ->
      exists names,
        TrainYolo.ordered_names class_names = Py.Ok names /\
        let lines := PyStr.split_char line_break
                       (TrainYolo.manifest (TrainYolo.generate_labels names)) in
        List.length lines = n /\
        forall i, i < n ->
          nth_error lines i =
          option_map TrainYolo.label_for (Py.get Nat.eqb class_names i)) /\
  (PyStr.split_char line_break (TrainMobilenet.labels_text TrainMobilenet.LABELS)
     = TrainMobilenet.LABELS /\
   List.length TrainMobilenet.LABELS = 6).
Proof.
  assert (Hmap : forall names,
             List.length (TrainYolo.generate_labels names) = List.length names /\
             forall i, nth_error (TrainYolo.generate_labels names) i =
                       option_map TrainYolo.label_for (nth_error names i)).
  { intros names. rewrite generate_labels_map. split; [apply length_map|].
    intros i. apply nth_error_map. }
  assert (Hlines : forall names,
             names <> [] -> Forall one_line names ->
             PyStr.split_char line_break
               (TrainYolo.manifest (TrainYolo.generate_labels names)) =
             TrainYolo.generate_labels names).
  { intros names Hne Hone. apply lines_of_manifest.
    - rewrite generate_labels_map. destruct names; [contradiction|discriminate].
    - rewrite generate_labels_map. apply Forall_map.
      eapply Forall_impl; [|exact Hone]. exact one_line_label_for. }
  split; [exact Hmap|split; [exact ordered_names_by_index|split; [|split]]].
  - intros names Hne Hone lines. subst lines.
    rewrite Hlines by assumption. exact (Hmap names).
  - intros class_names n Hn P Hone.
    destruct (ordered_names_by_index class_names n P) as (names & E & Hlen & Hnth).
    exists names. split; [exact E|]. cbn zeta. rewrite Hlines.
    + destruct (Hmap names) as [Hl Hi]. split; [congruence|].
      intros i Hlt. now rewrite Hi, Hnth.
    + intros ->. simpl in Hlen. lia.
    + apply Forall_forall. intros name Hin.
      rewrite Forall_forall in Hone. apply Hone.
      now apply (ordered_names_values class_names names E).
  - split; reflexivity.
Qed.

(** C2 on a model of three classes whose dictionary is not in index
    order. *)
Lemma generate_labels_order_witness :
  let class_names := [(2, "maize__rust"); (0, "cocoa__black_pod"); (1, "cocoa__healthy")] in
  exists names,
    TrainYolo.ordered_names class_names = Py.Ok names /\
    let lines := PyStr.split_char line_break
                   (TrainYolo.manifest (TrainYolo.generate_labels names)) in
    List.length lines = 3 /\
    forall i, i < 3 ->
      nth_error lines i = option_map TrainYolo.label_for (Py.get Nat.eqb class_names i).
Proof.
  intros class_names.
  apply (proj1 (proj2 (proj2 (proj2 generate_labels_order))) class_names 3).
  - lia.
  - apply perm_trans with [0; 2; 1]; [apply perm_swap|].
    apply perm_skip, perm_swap.
  - repeat constructor.
Defined.

(** C2 as stated, for every list of class names, fails: a class name that
    holds a line break gives one class and two lines. *)
Lemma manifest_lines_not_class_count :
  let names := [("pod" ++ PyStr.newline ++ "rot")%string] in
  let lines := PyStr.split_char line_break
                 (TrainYolo.manifest (TrainYolo.generate_labels names)) in
  List.length names = 1 /\ lines = ["pod"; "rot"] /\
  ~ (forall names',
       List.length (PyStr.split_char line_break
                      (TrainYolo.manifest (TrainYolo.generate_labels names'))) =
       List.length names').
Proof.
  intros names lines. split; [reflexivity|split; [reflexivity|]].
  intros H. specialize (H names). discriminate H.
Qed.

(** ** The missing dataset directory *)

Lemma lookup_all_raises class_names keys e :
  TrainYolo.lookup_all class_names keys = Py.Raise e -> exists key, e = Py.KeyError key.
Proof.
  induction keys as [|k keys IH]; cbn [TrainYolo.lookup_all]; [discriminate|].
  destruct (Py.get Nat.eqb class_names k); [|intros [= <-]; eauto].
  destruct (TrainYolo.lookup_all class_names keys); cbn [Py.bind]; [discriminate|].
  intros [= ->]. now apply IH.
Qed.

(** The part of [main] after the export: the model file is located, the
    names are read and the assets are written.  Its trace continues [t],
    and it ends in a success, in the error of a directory without a
    [.tflite] file, or in an exception out of a file operation. *)
Lemma yolo_after_export (H : TrainYolo.Host) (w2 : TrainYolo.fs H)
      (export_path : string) (t : list TrainYolo.event) :
  let run :=
    match TrainYolo.locate_tflite H w2 export_path with
    | Py.Raise e => (Py.Raise e, t, w2)
    | Py.Ok tflite_path =>
        match TrainYolo.ordered_names
                (TrainYolo.yolo_names H (TrainYolo.best_pt H) w2) with
        | Py.Raise e => (Py.Raise e, t, w2)
        | Py.Ok names =>
            TrainYolo.install H tflite_path (TrainYolo.generate_labels names) t w2
        end
    end in
  (exists later, snd (fst run) = t ++ later) /\
  (fst (fst run) = Py.Ok tt \/
   fst (fst run) = Py.Raise (TrainYolo.no_tflite_found export_path) \/
   exists call text, fst (fst run) = Py.Raise (Py.Propagated call text)).
Proof.
  cbn zeta. unfold TrainYolo.locate_tflite, TrainYolo.install.
  destruct (ordered_names_lookup
              (TrainYolo.yolo_names H (TrainYolo.best_pt H) w2)) as (names & En & _).
  assert (Hnil : exists later : list TrainYolo.event, t = t ++ later)
    by (exists []; now rewrite app_nil_r).
  destruct (TrainYolo.is_dir H w2 export_path);
    [destruct (TrainYolo.glob_tflite H w2 export_path) as [|first rest]|];
    [cbn [fst snd]; split; [exact Hnil|auto]| |];
    rewrite En;
    (destruct (TrainYolo.mkdir_p H _ _) as [[[]|text3] w3];
     [destruct (TrainYolo.copy2 H _ _ _) as [[[]|text4] w4];
      [destruct (TrainYolo.write_text H _ _ _) as [[[]|text5] w5]|]|]);
    cbn [fst snd]; rewrite <- ?app_assoc; (split; [eauto|eauto 6]).
Qed.

Lemma yolo_main_cases (H : TrainYolo.Host) (w : TrainYolo.fs H) :
  (TrainYolo.path_exists H w (TrainYolo.DATASET_DIR H) = false ->
   TrainYolo.main H w = (Py.Raise (TrainYolo.dataset_not_found H), [], w)) /\
  (TrainYolo.path_exists H w (TrainYolo.DATASET_DIR H) = true ->
   fst (fst (TrainYolo.main H w)) <> Py.Raise (TrainYolo.dataset_not_found H) /\
   exists later,
     snd (fst (TrainYolo.main H w)) = TrainYolo.Train (TrainYolo.DATASET_DIR H) :: later).
Proof.
  unfold TrainYolo.main. split; intros E; rewrite E; cbn [negb]; [reflexivity|].
  destruct (TrainYolo.yolo_train H _ w) as [[[]|text1] w1];
    [|cbn [fst snd]; split; [discriminate|eauto]].
  destruct (negb (TrainYolo.path_exists H w1 _)).
  { cbn [fst snd]. split; [|eauto]. intros Hc.
    injection Hc. intros. discriminate. }
  destruct (TrainYolo.yolo_export H _ w1) as [[export_path|text2] w2];
    [|cbn [fst snd]; split; [discriminate|cbn; eauto]].
  pose proof (yolo_after_export H w2 export_path
                ([TrainYolo.Train (TrainYolo.DATASET_DIR H)]
                   ++ [TrainYolo.Export (TrainYolo.best_pt H)])) as Ha.
  cbn zeta in Ha. destruct Ha as [[later Ht] Hr]. split.
  - destruct Hr as [Hr|[Hr|(call & text & Hr)]]; rewrite Hr; discriminate.
  - rewrite Ht. cbn [app]. eauto.
Qed.

(** C8.  [main] of the YOLO script fails on a missing dataset directory: if
    [DATASET_DIR] does not exist it raises [FileNotFoundError] having
    trained, exported and written nothing; if it exists that error is not
    raised and the first thing the run does is the training. *)
Theorem yolo_main_dataset_check (H : TrainYolo.Host) (w : TrainYolo.fs H) :
  if TrainYolo.path_exists H w (TrainYolo.DATASET_DIR H)
  then
    fst (fst (TrainYolo.main H w)) <> Py.Raise (TrainYolo.dataset_not_found H) /\
    exists later,
      snd (fst (TrainYolo.main H w)) = TrainYolo.Train (TrainYolo.DATASET_DIR H) :: later
  else
    TrainYolo.main H w = (Py.Raise (TrainYolo.dataset_not_found H), [], w).
Proof.
  destruct (yolo_main_cases H w) as [Hmissing Hpresent].
  destruct (TrainYolo.path_exists H w (TrainYolo.DATASET_DIR H)); auto.
Qed.

(** The two cases on [listed_host]: nothing exists, and the dataset
    directory exists. *)
Example yolo_main_without_dataset :
  TrainYolo.main listed_host [] =
  (Py.Raise (TrainYolo.dataset_not_found listed_host), [], []).
Proof. reflexivity. Qed.

Example yolo_main_with_dataset :
  fst (TrainYolo.main listed_host ["/repo/training/datasets/ccmt_cls"]) =
  (Py.Ok tt,
   [ TrainYolo.Train "/repo/training/datasets/ccmt_cls";
     TrainYolo.Export "/repo/training/runs/ccmt_cls/weights/best.pt";
     TrainYolo.Mkdir "/repo/app/src/main/assets";
     TrainYolo.Copy2 "best.tflite" "/repo/app/src/main/assets/model.tflite";
     TrainYolo.WriteText "/repo/app/src/main/assets/labels.txt"
       ("Cocoa:cocoa_black_pod" ++ PyStr.newline ++ "Cocoa:healthy")%string ]).
Proof. reflexivity. Qed.

(** ** The shuffled modulo-5 split of [train_mobilenet.py] *)

Section ShuffleFacts.
Context (T : TfData.Shuffler) {A : Type}.
Implicit Types (ds : list A).

Lemma shuffle_Permutation g s b it ds :
  Permutation (TfData.shuffle T g s b it ds) ds.
Proof.
  unfold TfData.shuffle. rewrite <- (select_all ds) at 3.
  apply select_Permutation, TfData.shuffle_order_perm.
Qed.

Lemma map_snd_enumerate_from (l : list A) : forall start,
  map snd (Py.enumerate_from start l) = l.
Proof.
  induction l as [|x l IH]; intros start; [reflexivity|].
  cbn [Py.enumerate_from map snd]. now rewrite IH.
Qed.

Lemma filter_split_Permutation {B} (p : B -> bool) (l : list B) :
  Permutation (filter (fun x => negb (p x)) l ++ filter p l) l.
Proof.
  induction l as [|x l IH]; [reflexivity|]. cbn [filter].
  destruct (p x); cbn [negb app].
  - rewrite <- Permutation_middle. now constructor.
  - now constructor.
Qed.

(** On one iteration order, [is_train] and [is_val] share out the stream. *)
Lemma train_val_Permutation it ds :
  Permutation (TrainMobilenet.ds_train T it ds ++ TrainMobilenet.ds_val T it ds) ds.
Proof.
  unfold TrainMobilenet.ds_train, TrainMobilenet.ds_val, TfData.enumerate, Py.enumerate.
  rewrite <- map_app.
  set (sh := TfData.shuffle T _ _ _ it ds).
  transitivity (map (@TrainMobilenet.drop_idx A) (Py.enumerate_from 0 sh)).
  - apply Permutation_map.
    exact (filter_split_Permutation (@TrainMobilenet.is_val A) (Py.enumerate_from 0 sh)).
  - unfold TrainMobilenet.drop_idx.
    change (fun ix : nat * A => snd ix) with (@snd nat A).
    rewrite map_snd_enumerate_from. apply shuffle_Permutation.
Qed.

(** Quotients and remainders by 5, spelled out for [lia]. *)
Ltac div5 :=
  repeat match goal with
         | |- context [?a / 5] =>
             let q := fresh "q" in let r := fresh "r" in
             pose proof (Nat.div_mod_eq a 5);
             pose proof (Nat.mod_upper_bound a 5 ltac:(discriminate));
             set (q := a / 5) in *; set (r := a mod 5) in *; clearbody q r
         | H : context [?a mod 5] |- _ =>
             let q := fresh "q" in let r := fresh "r" in
             pose proof (Nat.div_mod_eq a 5);
             pose proof (Nat.mod_upper_bound a 5 ltac:(discriminate));
             set (q := a / 5) in *; set (r := a mod 5) in *; clearbody q r
         end.

(** Among the positions [start .. start + n - 1], those divisible by 5. *)
Lemma count_is_val (l : list A) : forall start,
  List.length (filter (@TrainMobilenet.is_val A) (Py.enumerate_from start l)) =
  (start + List.length l + 4) / 5 - (start + 4) / 5.
Proof.
  induction l as [|x l IH]; intros start; cbn [Py.enumerate_from filter List.length].
  - rewrite Nat.add_0_r. lia.
  - unfold TrainMobilenet.is_val at 1. cbn [fst].
    specialize (IH (S start)).
    assert (Hmono : (S start + 4) / 5 <= (S start + List.length l + 4) / 5)
      by (apply Nat.Div0.div_le_mono; lia).
    replace (start + S (List.length l) + 4) with (S start + List.length l + 4) by lia.
    destruct (Nat.eqb_spec (start mod 5) 0) as [E|E]; cbn [List.length]; rewrite IH.
    + assert ((S start + 4) / 5 = S ((start + 4) / 5)) by (clear IH Hmono; div5; lia).
      lia.
    + assert ((S start + 4) / 5 = (start + 4) / 5) by (clear IH Hmono; div5; lia).
      lia.
Qed.

(** The validation stream holds [ceil(N / 5)] of the [N] elements. *)
Lemma ds_val_length it ds :
  List.length (TrainMobilenet.ds_val T it ds) = (List.length ds + 4) / 5.
Proof.
  unfold TrainMobilenet.ds_val, TfData.enumerate, Py.enumerate.
  rewrite length_map, count_is_val.
  rewrite (Permutation_length (shuffle_Permutation _ _ _ it ds)).
  change ((0 + 4) / 5) with 0. cbn [Nat.add]. apply Nat.sub_0_r.
Qed.
End ShuffleFacts.

(** Seven examples under the reversing shuffle: positions 0 and 5 of the
    reversed stream go to validation, the five others to training. *)
Example mobilenet_split_of_seven :
  TrainMobilenet.ds_val reversing_shuffler 0 [10; 11; 12; 13; 14; 15; 16] = [16; 11] /\
  TrainMobilenet.ds_train reversing_shuffler 0 [10; 11; 12; 13; 14; 15; 16]
    = [15; 14; 13; 12; 10].
Proof. split; reflexivity. Qed.

(** ** The split of one class in [prepare_dataset.py] *)

Section SaveSplitFacts.
Context (R : Sklearn.Rng) {Image : Type}.
Local Abbreviation World := (PrepareDataset.World R (Image := Image)).
Implicit Types (w : World) (images : list (Image * nat)).

Lemma write_jpegs split class_name (l : list (Image * nat)) : forall w,
  existsb (PrepareDataset.dir_eqb (split, class_name)) (PrepareDataset.dirs R w) = true ->
  PrepareDataset.for_each R l
    (fun '(img_array, idx) =>
       PrepareDataset.write_file R split class_name
         (class_name ++ "_" ++ PyStr.format_05d idx ++ ".jpg")%string
         (PrepareDataset.Jpeg img_array)) w =
  (Py.Ok tt,
   {| PrepareDataset.rng := PrepareDataset.rng R w;
      PrepareDataset.dirs := PrepareDataset.dirs R w;
      PrepareDataset.files :=
        PrepareDataset.files R w ++ map (jpeg_file split class_name) l |}).
Proof.
  induction l as [|[img idx] l IH]; intros [g D fs] HD; cbn [PrepareDataset.for_each map].
  - unfold PrepareDataset.ret. cbn. now rewrite app_nil_r.
  - unfold PrepareDataset.seq_, PrepareDataset.mbind, PrepareDataset.write_file at 1.
    cbn [PrepareDataset.dirs PrepareDataset.rng PrepareDataset.files] in *.
    rewrite HD. rewrite IH by exact HD.
    cbn [PrepareDataset.dirs PrepareDataset.rng PrepareDataset.files].
    now rewrite <- app_assoc.
Qed.

(** Two examples or more: [save_split] writes every example once, the
    [ceil(n / 5)] validation examples under [val] and the others under
    [train]. *)
Lemma save_split_partition images class_name w :
  2 <= List.length images ->
  existsb (PrepareDataset.dir_eqb ("train", class_name)) (PrepareDataset.dirs R w) = true ->
  existsb (PrepareDataset.dir_eqb ("val", class_name)) (PrepareDataset.dirs R w) = true ->
  exists train_imgs val_imgs,
    Permutation (train_imgs ++ val_imgs) images /\
    List.length val_imgs = (List.length images + 4) / 5 /\
    PrepareDataset.save_split R images class_name w =
    (Py.Ok tt,
     {| PrepareDataset.rng := PrepareDataset.rng R w;
        PrepareDataset.dirs := PrepareDataset.dirs R w;
        PrepareDataset.files :=
          PrepareDataset.files R w
            ++ map (jpeg_file "train" class_name) train_imgs
            ++ map (jpeg_file "val" class_name) val_imgs |}).
Proof.
  intros Hn Htrain Hval.
  destruct (train_test_split_ok R images PrepareDataset.SEED (PrepareDataset.rng R w) Hn)
    as (train_imgs & val_imgs & Hsplit & Hlen & _ & Hperm).
  exists train_imgs, val_imgs. split; [exact Hperm|split; [exact Hlen|]].
  unfold PrepareDataset.save_split. destruct images as [|x images]; [simpl in Hn; lia|].
  unfold PrepareDataset.mbind at 1, PrepareDataset.split_80_20. rewrite Hsplit.
  cbn [PrepareDataset.for_each]. unfold PrepareDataset.seq_, PrepareDataset.mbind.
  destruct w as [g D fs]. cbn [PrepareDataset.dirs PrepareDataset.rng PrepareDataset.files] in *.
  rewrite write_jpegs by exact Htrain.
  cbn [PrepareDataset.dirs PrepareDataset.rng PrepareDataset.files].
  rewrite write_jpegs by exact Hval.
  cbn [PrepareDataset.dirs PrepareDataset.rng PrepareDataset.files PrepareDataset.ret].
  now rewrite <- app_assoc.
Qed.

(** What a call of [save_split] writes is [split_files] of its
    arguments, whatever was written before and whatever state the global
    generator is in. *)
Lemma save_split_appends images class_name w :
  appended R w (snd (PrepareDataset.save_split R images class_name w))
           (split_files R (PrepareDataset.dirs R w) images class_name).
Proof.
  destruct (uniform_save_split R images class_name (PrepareDataset.dirs R w))
    as (r & fs & Hu).
  unfold split_files.
  destruct (Hu {| PrepareDataset.rng := Sklearn.RandomState R PrepareDataset.SEED;
                  PrepareDataset.dirs := PrepareDataset.dirs R w;
                  PrepareDataset.files := [] |} eq_refl) as (_ & _ & _ & Hfs).
  cbn [PrepareDataset.files app] in Hfs. rewrite Hfs.
  now destruct (Hu w eq_refl).
Qed.
End SaveSplitFacts.

(** ** Claims on the split *)

(** C1.  Re-running the split with the same seed and the same input gives
    the same partition.  The seed is 42 in both scripts.  In
    [prepare_dataset.py] the seeded [train_test_split] does not depend on
    the state of the global generator; a run of [main] ends the same from
    whatever state it starts in; and [save_split] on the same examples
    gives the same outcome and writes the same files in any two states
    with the same directories.  In [train_mobilenet.py] the train and
    validation streams of an iteration depend on the shuffle only through
    the order it draws for the seeds 42, the buffer size 5000 and that
    iteration. *)
Theorem split_deterministic :
  (PrepareDataset.SEED = 42 /\ TrainMobilenet.SEED = 42) /\
  (forall (R : Sklearn.Rng) (A : Type) (images : list A) g1 g2,
      fst (Sklearn.train_test_split R images PrepareDataset.VAL_RATIO
             (Some PrepareDataset.SEED) g1) =
      fst (Sklearn.train_test_split R images PrepareDataset.VAL_RATIO
             (Some PrepareDataset.SEED) g2)) /\
  (forall (R : Sklearn.Rng) (Image : Type) (pv : PrepareDataset.PlantVillage Image)
          cocoa (w1 w2 : PrepareDataset.World R),
      PrepareDataset.main R pv cocoa w1 = PrepareDataset.main R pv cocoa w2) /\
  (forall (R : Sklearn.Rng) (Image : Type) (images : list (Image * nat)) class_name
          (w1 w2 : PrepareDataset.World R),
      PrepareDataset.dirs R w1 = PrepareDataset.dirs R w2 ->
      fst (PrepareDataset.save_split R images class_name w1) =
      fst (PrepareDataset.save_split R images class_name w2) /\
      exists fs,
        PrepareDataset.files R (snd (PrepareDataset.save_split R images class_name w1))
          = PrepareDataset.files R w1 ++ fs /\
        PrepareDataset.files R (snd (PrepareDataset.save_split R images class_name w2))
          = PrepareDataset.files R w2 ++ fs) /\
  (forall (T1 T2 : TfData.Shuffler) (A : Type) it (ds : list A),
      TfData.shuffle_order T1 42 42 5000 it (List.length ds) =
      TfData.shuffle_order T2 42 42 5000 it (List.length ds) ->
      TrainMobilenet.ds_train T1 it ds = TrainMobilenet.ds_train T2 it ds /\
      TrainMobilenet.ds_val T1 it ds = TrainMobilenet.ds_val T2 it ds).
Proof.
  split; [split; reflexivity|]. split; [|split; [|split]].
  - intros R A images g1 g2. apply train_test_split_seeded_result.
  - intros R Image pv cocoa w1 w2. now rewrite !main_unfold.
  - intros R Image images class_name w1 w2 HD.
    destruct (uniform_save_split R images class_name (PrepareDataset.dirs R w1))
      as (r & fs & Hu).
    destruct (Hu w1 eq_refl) as (E1 & _ & _ & F1).
    destruct (Hu w2 (eq_sym HD)) as (E2 & _ & _ & F2).
    split; [congruence|]. exists fs. split; assumption.
  - intros T1 T2 A it ds Hord.
    unfold TrainMobilenet.ds_train, TrainMobilenet.ds_val, TfData.shuffle.
    change TrainMobilenet.SEED with 42. change TrainMobilenet.SHUFFLE_BUFFER with 5000.
    rewrite Hord. split; reflexivity.
Qed.

(** C1 on three tomato images, saved from a fresh state and from a state
    in which the generator has been used and a file is already there. *)
Lemma split_deterministic_witness :
  let images := [(10, 0); (11, 1); (12, 2)] in
  let w1 := {| PrepareDataset.rng := (0 : Sklearn.state reversing_rng);
               PrepareDataset.dirs := PrepareDataset.class_dirs;
               PrepareDataset.files := [] |} in
  let w2 := {| PrepareDataset.rng := (7 : Sklearn.state reversing_rng);
               PrepareDataset.dirs := PrepareDataset.class_dirs;
               PrepareDataset.files := [jpeg_file "val" "maize__rust" (99, 5)] |} in
  fst (PrepareDataset.save_split reversing_rng images "tomato__healthy" w1) =
  fst (PrepareDataset.save_split reversing_rng images "tomato__healthy" w2) /\
  exists fs,
    PrepareDataset.files reversing_rng
      (snd (PrepareDataset.save_split reversing_rng images "tomato__healthy" w1))
      = PrepareDataset.files reversing_rng w1 ++ fs /\
    PrepareDataset.files reversing_rng
      (snd (PrepareDataset.save_split reversing_rng images "tomato__healthy" w2))
      = PrepareDataset.files reversing_rng w2 ++ fs.
Proof.
  intros images w1 w2.
  apply (proj1 (proj2 (proj2 (proj2 split_deterministic))) reversing_rng nat images
               "tomato__healthy" w1 w2).
  reflexivity.
Defined.

(** C4, on the input where the code departs from it.  A class with exactly
    one example is not split: [train_test_split] refuses a train part that
    would be empty, so [save_split] raises [ValueError] and writes
    nothing, and so does a run of [main] whose PlantVillage data has a
    single tomato image, or whose local cocoa directory has a single
    image.  (For two examples or more [save_split_partition] gives the
    partition the claim states.) *)
Theorem single_example_class_aborts :
  (forall (R : Sklearn.Rng) (Image : Type) (x : Image * nat) class_name
          (w : PrepareDataset.World R),
      fst (PrepareDataset.save_split R [x] class_name w) =
        Py.Raise (Py.ValueError "the resulting train set will be empty") /\
      PrepareDataset.files R (snd (PrepareDataset.save_split R [x] class_name w)) =
        PrepareDataset.files R w) /\
  (forall (R : Sklearn.Rng) (Image : Type) (image : Image)
          (w : PrepareDataset.World R),
      let run :=
        PrepareDataset.main R
          {| PrepareDataset.label_names := ["Tomato___healthy"];
             PrepareDataset.examples := [(image, 0)] |}
          (fun _ => None) w in
      fst run = Py.Raise (Py.ValueError "the resulting train set will be empty") /\
      PrepareDataset.files R (snd run) = []) /\
  (forall (R : Sklearn.Rng) (Image : Type) (w : PrepareDataset.World R (Image := Image)),
      let run :=
        PrepareDataset.main R
          {| PrepareDataset.label_names := []; PrepareDataset.examples := [] |}
          one_cocoa_image w in
      fst run = Py.Raise (Py.ValueError "the resulting train set will be empty") /\
      PrepareDataset.files R (snd run) = []).
Proof.
  split; [|split].
  - intros R Image x class_name w. split; reflexivity.
  - intros R Image image w run. subst run. split; reflexivity.
  - intros R Image w run. subst run. split; reflexivity.
Qed.

Section SaveAllFacts.
Context (R : Sklearn.Rng) {Image : Type}.
Local Abbreviation World := (PrepareDataset.World R (Image := Image)).

(** A completed loop over the classes has written one block per class. *)
Lemma save_all_blocks (items : list (string * list (Image * nat))) : forall (w : World),
  fst (save_all R items w) = Py.Ok tt ->
  PrepareDataset.dirs R (snd (save_all R items w)) = PrepareDataset.dirs R w /\
  PrepareDataset.files R (snd (save_all R items w)) =
  PrepareDataset.files R w ++
  flat_map (fun '(class_name, images) =>
              split_files R (PrepareDataset.dirs R w) images class_name) items.
Proof.
  unfold save_all.
  induction items as [|[c images] items IH]; intros w Hok; cbn [PrepareDataset.for_each flat_map].
  - cbn. now rewrite app_nil_r.
  - unfold PrepareDataset.seq_, PrepareDataset.mbind in *.
    cbn [PrepareDataset.for_each] in Hok. unfold PrepareDataset.seq_, PrepareDataset.mbind in Hok.
    pose proof (save_split_appends R images c w) as (_ & Hd & Hf).
    destruct (PrepareDataset.save_split R images c w) as [[[]|e] w1]; cbn [snd] in *;
      [|discriminate].
    destruct (IH w1 Hok) as [Hd' Hf']. rewrite Hd', Hf', Hd, Hf.
    split; [reflexivity|]. now rewrite <- app_assoc.
Qed.
End SaveAllFacts.

(** C3, as the code has it.  In [prepare_dataset.py] the split is made
    class by class: a completed loop over the classes has written, after
    what was there, one block of files per class in the order of the
    classes, and the block of a class is fixed by its own examples, its
    name, the seed and the directories, and lies in the folders of that
    class. *)
Theorem split_per_class_prepare_dataset :
  (forall (R : Sklearn.Rng) (Image : Type) D (images : list (Image * nat)) class_name,
      Forall (fun o => PrepareDataset.of_class o = class_name)
             (split_files R D images class_name)) /\
  (forall (R : Sklearn.Rng) (Image : Type)
          (images_by_class : list (string * list (Image * nat)))
          (w : PrepareDataset.World R),
      fst (save_all R images_by_class w) = Py.Ok tt ->
      PrepareDataset.files R (snd (save_all R images_by_class w)) =
      PrepareDataset.files R w ++
      flat_map (fun '(class_name, images) =>
                  split_files R (PrepareDataset.dirs R w) images class_name)
               images_by_class).
Proof.
  split.
  - intros R Image D images class_name. unfold split_files.
    apply (writes_only_save_split R (fun o => PrepareDataset.of_class o = class_name)).
    + reflexivity.
    + constructor.
  - intros R Image items w Hok. now apply save_all_blocks.
Qed.

(** C3 on two classes of three and two images. *)
Lemma split_per_class_prepare_dataset_witness :
  let items := [("maize__rust", [(10, 0); (11, 1); (12, 3)]);
                ("tomato__healthy", [(20, 2); (21, 4)])] in
  let w := {| PrepareDataset.rng := (0 : Sklearn.state reversing_rng);
              PrepareDataset.dirs := PrepareDataset.class_dirs;
              PrepareDataset.files := [] |} in
  PrepareDataset.files reversing_rng (snd (save_all reversing_rng items w)) =
  PrepareDataset.files reversing_rng w ++
  flat_map (fun '(class_name, images) =>
              split_files reversing_rng (PrepareDataset.dirs reversing_rng w)
                          images class_name) items.
Proof.
  intros items w.
  apply (proj2 split_per_class_prepare_dataset reversing_rng nat items w).
  reflexivity.
Defined.

(** ** The split of [train_mobilenet.py] is not made per class *)

Lemma select_map_seq {B} (g : nat -> B) n (ix : list nat) :
  Forall (fun i => i < n) ix -> select (map g (seq 0 n)) ix = map g ix.
Proof.
  induction 1 as [|i ix Hi _ IH]; [reflexivity|].
  unfold select in *. cbn [flat_map map]. rewrite IH.
  rewrite nth_error_map, nth_error_seq.
  now replace (i <? n) with true by (symmetry; apply Nat.ltb_lt; exact Hi).
Qed.

(** C3 as stated fails on [train_mobilenet.py], whatever order the shuffle
    draws.  The streams [[(7, 0)]] and [[(8, 1)]] each send their only
    example to validation; in the stream [[(7, 0); (8, 1)]], which has the
    same example of class 0 as the first and the same of class 1 as the
    second, one of the two goes to training.  So there is no shuffle for
    which the validation examples of a class depend on the examples of
    that class alone. *)
Lemma mobilenet_split_not_per_class :
  ~ exists T : TfData.Shuffler,
      forall it (ds1 ds2 : list (nat * nat)) c,
        class_of c ds1 = class_of c ds2 ->
        class_of c (TrainMobilenet.ds_val T it ds1) =
        class_of c (TrainMobilenet.ds_val T it ds2).
Proof.
  intros (T & Hp).
  pose proof (TfData.shuffle_order_perm T 42 42 5000 0 1) as P1.
  apply Permutation_sym, Permutation_length_1_inv in P1.
  pose proof (TfData.shuffle_order_perm T 42 42 5000 0 2) as P2.
  apply Permutation_sym, Permutation_length_2_inv in P2.
  pose proof (Hp 0 [(7, 0)] [(7, 0); (8, 1)] 0 eq_refl) as H0.
  pose proof (Hp 0 [(8, 1)] [(7, 0); (8, 1)] 1 eq_refl) as H1.
  unfold TrainMobilenet.ds_val, TfData.shuffle in H0, H1.
  change TrainMobilenet.SEED with 42 in H0, H1.
  change TrainMobilenet.SHUFFLE_BUFFER with 5000 in H0, H1.
  cbn [List.length] in H0, H1. rewrite P1 in H0, H1.
  destruct P2 as [P2|P2]; rewrite P2 in H0, H1.
  - vm_compute in H1. discriminate H1.
  - vm_compute in H0. discriminate H0.
Qed.

(** C5 as stated fails on [train_mobilenet.py], whatever order the shuffle
    draws.  Take eleven examples and give class 1 to the one the shuffle
    puts second, class 0 to the ten others: the three validation positions
    0, 5 and 10 all hold class 0, three of ten where a fifth is two. *)
Lemma mobilenet_val_fraction_not_per_class :
  ~ exists T : TfData.Shuffler,
      forall it (ds : list (nat * nat)) c,
        10 <= List.length (class_of c ds) ->
        let n := List.length (class_of c ds) in
        let v := List.length (class_of c (TrainMobilenet.ds_val T it ds)) in
        v = n / 5 \/ v = (n + 4) / 5.
Proof.
  intros (T & Hp).
  pose proof (TfData.shuffle_order_perm T 42 42 5000 0 11) as P.
  remember (TfData.shuffle_order T 42 42 5000 0 11) as ord eqn:Eord.
  pose proof (perm_seq_bound ord 11 P) as Hb.
  assert (Hnd : NoDup ord) by (apply (Permutation_NoDup (Permutation_sym P)), seq_NoDup).
  pose proof (Permutation_length P) as Hlen. rewrite length_seq in Hlen.
  destruct ord as [|x0 [|x1 [|x2 [|x3 [|x4 [|x5 [|x6 [|x7 [|x8 [|x9 [|x10 [|? ?]]]]]]]]]]]];
    try discriminate Hlen. clear Hlen.
  set (g := fun j => (j, if j =? x1 then 1 else 0)).
  set (ds := map g (seq 0 11)).
  assert (Hc : List.length (class_of 0 ds) = 10).
  { assert (Hx1 : x1 < 11)
      by (inversion Hb as [|? ? _ Hb']; inversion Hb' as [|? ? Hx _]; exact Hx).
    subst ds g. clear -Hx1.
    do 11 (destruct x1 as [|x1]; [reflexivity|]). lia. }
  specialize (Hp 0 ds 0). rewrite Hc in Hp. specialize (Hp ltac:(lia)).
  cbn zeta in Hp.
  assert (Hv : class_of 0 (TrainMobilenet.ds_val T 0 ds) = [g x0; g x5; g x10]).
  { unfold TrainMobilenet.ds_val, TfData.shuffle.
    change TrainMobilenet.SEED with 42. change TrainMobilenet.SHUFFLE_BUFFER with 5000.
    change (List.length ds) with 11. rewrite <- Eord.
    unfold ds. rewrite select_map_seq by exact Hb.
    cbn [map TfData.enumerate Py.enumerate Py.enumerate_from].
    cbn [filter TrainMobilenet.is_val fst Nat.modulo Nat.divmod Nat.eqb snd Nat.sub].
    cbn [map TrainMobilenet.drop_idx snd].
    assert (Hne : x0 <> x1 /\ x5 <> x1 /\ x10 <> x1).
    { inversion Hnd as [|? ? Hn0 Hnd']; subst.
      inversion Hnd' as [|? ? Hn1 _]; subst. cbn [In] in Hn0, Hn1. intuition. }
    destruct Hne as (N0 & N4 & N9).
    unfold class_of, g. cbn [filter snd].
    apply Nat.eqb_neq in N0, N4, N9. now rewrite N0, N4, N9. }
  rewrite Hv in Hp. cbn in Hp. destruct Hp; discriminate.
Qed.

(** C5, as the code has it.  In [prepare_dataset.py], for a class with at
    least 10 examples the split comes back and its validation part has
    [ceil(n / 5)] of the [n] examples, the rest being the train part.  In
    [train_mobilenet.py] the validation stream has [ceil(N / 5)] of the [N]
    elements of the whole stream. *)
Theorem val_fraction_per_class_prepare_dataset :
  (forall (R : Sklearn.Rng) (A : Type) (images : list A) g,
      10 <= List.length images ->
      exists train_imgs val_imgs,
        Sklearn.train_test_split R images PrepareDataset.VAL_RATIO
          (Some PrepareDataset.SEED) g = (Py.Ok (train_imgs, val_imgs), g) /\
        List.length train_imgs + List.length val_imgs = List.length images /\
        List.length val_imgs = (List.length images + 4) / 5 /\
        List.length images <= 5 * List.length val_imgs < List.length images + 5) /\
  (forall (T : TfData.Shuffler) (A : Type) it (ds : list A),
      List.length (TrainMobilenet.ds_val T it ds) = (List.length ds + 4) / 5).
Proof.
  split.
  - intros R A images g Hn.
    destruct (train_test_split_ok R images PrepareDataset.SEED g ltac:(lia))
      as (train_imgs & val_imgs & Hsplit & Hval & Htrain & _).
    exists train_imgs, val_imgs. split; [exact Hsplit|].
    rewrite Htrain, Hval. set (n := List.length images) in *.
    pose proof (fifth_lt n ltac:(lia)).
    pose proof (Nat.div_mod_eq (n + 4) 5).
    pose proof (Nat.mod_upper_bound (n + 4) 5 ltac:(discriminate)).
    repeat split; lia.
  - intros T A it ds. apply ds_val_length.
Qed.

(** C5 on a class of twelve examples: nine go to training, three to
    validation. *)
Lemma val_fraction_per_class_prepare_dataset_witness :
  let images := seq 100 12 in
  exists train_imgs val_imgs,
    Sklearn.train_test_split reversing_rng images PrepareDataset.VAL_RATIO
      (Some PrepareDataset.SEED) 0 = (Py.Ok (train_imgs, val_imgs), 0) /\
    List.length train_imgs + List.length val_imgs = List.length images /\
    List.length val_imgs = (List.length images + 4) / 5 /\
    List.length images <= 5 * List.length val_imgs < List.length images + 5.
Proof.
  intros images.
  apply (proj1 val_fraction_per_class_prepare_dataset reversing_rng nat images 0).
  vm_compute. lia.
Defined.

(** * Further properties of the scripts *)

(** ** The outcome of [save_split] *)

Lemma save_split_ok_iff (R : Sklearn.Rng) (Image : Type)
      (images : list (Image * nat)) (class_name : string)
      (w : PrepareDataset.World R) :
  existsb (PrepareDataset.dir_eqb ("train", class_name)) (PrepareDataset.dirs R w) = true ->
  existsb (PrepareDataset.dir_eqb ("val", class_name)) (PrepareDataset.dirs R w) = true ->
  fst (PrepareDataset.save_split R images class_name w) = Py.Ok tt <->
  List.length images <> 1.
Proof.
  intros Htrain Hval. destruct images as [|x [|y images]].
  - split; [discriminate|reflexivity].
  - split; [discriminate|]. intros Hne. now contradiction Hne.
  - destruct (save_split_partition R (x :: y :: images) class_name w)
      as (tr & va & _ & _ & E); [simpl; lia|exact Htrain|exact Hval|].
    rewrite E. split; [discriminate|reflexivity].
Qed.

(** X1.  [save_split], called for a class whose two folders exist, completes
    exactly when the class does not have a single example.  With two
    examples or more it writes every example once: first the train files,
    then the validation files, [ceil(n / 5)] of them, and the images
    written are the images given. *)
Theorem save_split_outcome (R : Sklearn.Rng) (Image : Type)
        (images : list (Image * nat)) (class_name : string)
        (w : PrepareDataset.World R) :
  existsb (PrepareDataset.dir_eqb ("train", class_name)) (PrepareDataset.dirs R w) = true ->
  existsb (PrepareDataset.dir_eqb ("val", class_name)) (PrepareDataset.dirs R w) = true ->
  (fst (PrepareDataset.save_split R images class_name w) = Py.Ok tt <->
   List.length images <> 1) /\
  (2 <= List.length images ->
   exists train_imgs val_imgs,
     PrepareDataset.files R (snd (PrepareDataset.save_split R images class_name w)) =
       PrepareDataset.files R w
         ++ map (jpeg_file "train" class_name) train_imgs
         ++ map (jpeg_file "val" class_name) val_imgs /\
     Permutation (train_imgs ++ val_imgs) images /\
     List.length val_imgs = (List.length images + 4) / 5 /\
     List.length train_imgs + List.length val_imgs = List.length images).
Proof.
  intros Htrain Hval. split.
  - now apply save_split_ok_iff.
  - intros Hn.
    destruct (save_split_partition R images class_name w Hn Htrain Hval)
      as (tr & va & Hperm & Hlen & E).
    exists tr, va. rewrite E. cbn [snd PrepareDataset.files].
    split; [reflexivity|split; [exact Hperm|split; [exact Hlen|]]].
    rewrite <- length_app. now apply Permutation_length.
Qed.

(** [save_split_outcome] on three images of a class, in the prepared
    output tree. *)
Lemma save_split_outcome_witness :
  let images := [(10, 0); (11, 1); (12, 2)] in
  let w := prepared reversing_rng (Image := nat) in
  fst (PrepareDataset.save_split reversing_rng images "maize__rust" w) = Py.Ok tt <->
  List.length images <> 1.
Proof.
  intros images w.
  apply (proj1 (save_split_outcome reversing_rng nat images "maize__rust" w
                  eq_refl eq_refl)).
Defined.

(** ** How a run of [prepare_dataset.py] can end *)

Lemma class_dir_exists split cls :
  In split ["train"; "val"] -> In cls PrepareDataset.ALL_CLASSES ->
  existsb (PrepareDataset.dir_eqb (split, cls)) PrepareDataset.class_dirs = true.
Proof.
  intros Hs Hc. apply existsb_exists. exists (split, cls). split.
  - now apply class_dirs_spec.
  - unfold PrepareDataset.dir_eqb. cbn [fst snd]. now rewrite !String.eqb_refl.
Qed.

Section SteadyFacts.
Context (R : Sklearn.Rng) {Image : Type} (cocoa : PrepareDataset.CocoaDir).
Local Abbreviation M := (PrepareDataset.M R (Image := Image)).

Lemma steady_ret {A} (a : A) : steady R (Image := Image) cocoa (PrepareDataset.ret R a).
Proof. intros w Hw. split; [exact Hw|exact I]. Qed.

(** Sequencing, with what is known of the value the first step returns. *)
Lemma steady_bind {A B} (P : A -> Prop) (m : M A) (k : A -> M B) :
  steady R cocoa m ->
  (forall w a, fst (m w) = Py.Ok a -> P a) ->
  (forall a, P a -> steady R (Image := Image) cocoa (k a)) ->
  steady R (Image := Image) cocoa (PrepareDataset.mbind R m k).
Proof.
  intros Hm HP Hk w Hw. unfold PrepareDataset.mbind.
  destruct (Hm w Hw) as [Hd Hb]. specialize (HP w).
  destruct (m w) as [[a|e] w']; cbn [fst snd] in *.
  - apply Hk; [now apply HP|exact Hd].
  - split; assumption.
Qed.

Lemma steady_for_each {A} (l : list A) (body : A -> M unit) :
  (forall x, In x l -> steady R (Image := Image) cocoa (body x)) ->
  steady R (Image := Image) cocoa (PrepareDataset.for_each R l body).
Proof.
  induction l as [|x l IH]; intros Hb; cbn [PrepareDataset.for_each].
  - apply steady_ret.
  - unfold PrepareDataset.seq_. apply (steady_bind (fun _ => True)).
    + apply Hb. now left.
    + trivial.
    + intros _ _. apply IH. intros y Hy. apply Hb. now right.
Qed.

Lemma steady_write_file split cls name data :
  In split ["train"; "val"] -> In cls PrepareDataset.ALL_CLASSES ->
  steady R (Image := Image) cocoa (PrepareDataset.write_file R split cls name data).
Proof.
  intros Hs Hc [g D fs] Hw. cbn [PrepareDataset.dirs] in Hw. subst D.
  unfold PrepareDataset.write_file. cbn [PrepareDataset.dirs].
  rewrite class_dir_exists by assumption. cbn. split; [reflexivity|exact I].
Qed.

Lemma steady_copy2 src split cls name :
  In split ["train"; "val"] -> In cls PrepareDataset.ALL_CLASSES ->
  In src (cocoa_paths cocoa) ->
  steady R (Image := Image) cocoa (PrepareDataset.copy2 R src split cls name).
Proof.
  intros Hs Hc Hsrc. unfold PrepareDataset.copy2.
  destruct (PrepareDataset.path_kind src) eqn:Ek; [now apply steady_write_file| |];
    intros w Hw; (split; [exact Hw|]); cbn; right; exists src;
    (split; [exact Hsrc|]); unfold copy_error; now rewrite Ek.
Qed.

Lemma steady_split_80_20 {A} (images : list A) :
  steady R (Image := Image) cocoa (PrepareDataset.split_80_20 R images).
Proof.
  intros w Hw. unfold PrepareDataset.split_80_20, Sklearn.train_test_split.
  cbn [PrepareDataset.VAL_RATIO Sklearn.num Sklearn.den Nat.eqb Nat.leb orb].
  destruct (_ =? 0); [split; [exact Hw|now left]|].
  destruct (Sklearn.permutation R _ _). cbn. split; [exact Hw|exact I].
Qed.

(** The two parts of a split that comes back hold the elements given. *)
Lemma split_80_20_parts {A} (images train_imgs val_imgs : list A)
      (w : PrepareDataset.World R (Image := Image)) :
  fst (PrepareDataset.split_80_20 R images w) = Py.Ok (train_imgs, val_imgs) ->
  Permutation (train_imgs ++ val_imgs) images.
Proof.
  intros E. destruct images as [|x [|y images]].
  - discriminate E.
  - discriminate E.
  - destruct (train_test_split_ok R (x :: y :: images) PrepareDataset.SEED
                (PrepareDataset.rng R w)) as (tr & va & Hs & _ & _ & P);
      [simpl; lia|].
    unfold PrepareDataset.split_80_20 in E. rewrite Hs in E. cbn [fst] in E.
    now injection E as <- <-.
Qed.

Lemma steady_save_split images class_name :
  In class_name PrepareDataset.ALL_CLASSES ->
  steady R (Image := Image) cocoa (PrepareDataset.save_split R images class_name).
Proof.
  intros Hc. unfold PrepareDataset.save_split. destruct images as [|x images].
  - apply steady_ret.
  - apply (steady_bind (fun _ => True)); [apply steady_split_80_20|trivial|].
    intros [train_imgs val_imgs] _. apply steady_for_each.
    intros [split_name split_imgs] Hs. apply steady_for_each.
    intros [img_array idx] _. apply steady_write_file; [|exact Hc].
    simpl in Hs. simpl. destruct Hs as [[= <- _]|[[= <- _]|[]]]; auto.
Qed.

Lemma steady_copy_cocoa_data :
  steady R (Image := Image) cocoa (PrepareDataset.copy_cocoa_data R cocoa).
Proof.
  unfold PrepareDataset.copy_cocoa_data. apply steady_for_each.
  intros [src_subdir cls_name] Hm.
  destruct (cocoa src_subdir) as [glob|] eqn:Hg; [|apply steady_ret].
  destruct (flat_map glob _) as [|p images] eqn:Ei; [apply steady_ret|].
  assert (Hpaths : forall q, In q (p :: images) -> In q (cocoa_paths cocoa)).
  { intros q Hq. unfold cocoa_paths. apply in_flat_map.
    exists (src_subdir, cls_name). split; [exact Hm|]. cbn [fst].
    rewrite Hg. unfold cocoa_images. now rewrite Ei. }
  apply (steady_bind (fun parts => Permutation (fst parts ++ snd parts) (p :: images)));
    [apply steady_split_80_20| |].
  - intros w [train_imgs val_imgs] E. now apply split_80_20_parts with (w := w).
  - intros [train_imgs val_imgs] P. cbn [fst snd] in P. apply steady_for_each.
    intros [split_name split_imgs] Hs. apply steady_for_each.
    intros [i img_path] Hi. apply steady_copy2.
    + simpl in Hs. simpl. destruct Hs as [[= <- _]|[[= <- _]|[]]]; auto.
    + unfold PrepareDataset.cocoa_mapping in Hm. simpl in Hm.
      unfold PrepareDataset.ALL_CLASSES. simpl.
      destruct Hm as [[= _ <-]|[[= _ <-]|[]]]; auto.
    + apply Hpaths. apply (Permutation_in _ P). apply in_or_app.
      assert (Hin : In img_path split_imgs).
      { apply (in_map snd) in Hi. cbn [snd] in Hi. unfold Py.enumerate in Hi.
        now rewrite map_snd_enumerate_from in Hi. }
      simpl in Hs. destruct Hs as [[= _ <-]|[[= _ <-]|[]]]; auto.
Qed.
End SteadyFacts.

(** X2.  A run of [main] never stops on a missing directory or a missing key:
    whatever the dataset and the local cocoa directory hold, it completes,
    or stops with the [ValueError] of an empty train set, or stops in
    [shutil.copy2] with the exception of a local cocoa path that cannot be
    copied, [IsADirectoryError] when the path is a directory. *)
Theorem main_ends_benign (R : Sklearn.Rng) (Image : Type)
        (pv : PrepareDataset.PlantVillage Image) (cocoa : PrepareDataset.CocoaDir)
        (w : PrepareDataset.World R) :
  fst (PrepareDataset.main R pv cocoa w) = Py.Ok tt \/
  fst (PrepareDataset.main R pv cocoa w) = Py.Raise empty_train_set \/
  exists p e,
    In p (cocoa_paths cocoa) /\
    copy_error p = Some e /\
    (PrepareDataset.path_kind p = PrepareDataset.Directory ->
     e = Py.IsADirectoryError (PrepareDataset.path_str p)) /\
    fst (PrepareDataset.main R pv cocoa w) = Py.Raise e.
Proof.
  rewrite main_unfold.
  destruct (extract_plantvillage_ok pv) as (d & E & Hd). rewrite E.
  assert (Hs : steady R cocoa (save_and_copy R (Image := Image) d cocoa)).
  { unfold save_and_copy, PrepareDataset.seq_.
    apply (steady_bind R cocoa (fun _ => True)); [|trivial|].
    - apply steady_for_each. intros [c imgs] Hc. apply steady_save_split.
      destruct (Hd c) as (nm & _ & Hm).
      + unfold Py.keys. apply in_map_iff. now exists (c, imgs).
      + apply In_PV_ALL_CLASSES. eapply match_pv_label_range; eauto.
    - intros _ _. apply steady_copy_cocoa_data. }
  destruct (Hs (prepared R) eq_refl) as [_ Hb].
  destruct (fst (save_and_copy R d cocoa (prepared R))) as [[]|e]; [now left|right].
  cbn in Hb. destruct Hb as [->|(p & Hin & He)]; [now left|right].
  exists p, e. split; [exact Hin|split; [exact He|split; [|reflexivity]]].
  intros Hk. unfold copy_error in He. rewrite Hk in He. now injection He.
Qed.

(** [main_ends_benign] on a [healthy] directory that holds an image and a
    directory called [sub.jpg]: the image is copied, then the run stops in
    [shutil.copy2]. *)
Example main_stops_on_directory :
  let run :=
    PrepareDataset.main reversing_rng (Image := nat)
      {| PrepareDataset.label_names := []; PrepareDataset.examples := [] |}
      (healthy_cocoa [file_at "a.jpg"; directory_at "sub.jpg"] [])
      (prepared reversing_rng) in
  fst run = Py.Raise (Py.IsADirectoryError "sub.jpg") /\
  PrepareDataset.files reversing_rng (snd run) =
    [copy_file "train" "cocoa__healthy" (0, file_at "a.jpg")].
Proof. split; reflexivity. Qed.

(** ** When a run of [prepare_dataset.py] completes *)

Lemma first_error_None (l : list PrepareDataset.LocalPath) :
  first_error l = None <-> Forall (fun p => copy_error p = None) l.
Proof.
  induction l as [|p l IH]; cbn [first_error].
  - split; [constructor|reflexivity].
  - destruct (copy_error p) eqn:E.
    + split; [discriminate|]. intros H. inversion H; congruence.
    + rewrite IH. split; [now constructor|]. intros H. now inversion H.
Qed.

(** The paths that can be copied are the regular files. *)
Lemma Forall_copy_error (l : list PrepareDataset.LocalPath) :
  Forall (fun p => copy_error p = None) l <->
  Forall (fun p => PrepareDataset.path_kind p = PrepareDataset.RegularFile) l.
Proof.
  split; apply Forall_impl; intros p; unfold copy_error;
    destruct (PrepareDataset.path_kind p); congruence.
Qed.

Lemma first_error_app (l1 l2 : list PrepareDataset.LocalPath) :
  first_error (l1 ++ l2) =
  match first_error l1 with Some e => Some e | None => first_error l2 end.
Proof.
  induction l1 as [|p l1 IH]; cbn [app first_error]; [reflexivity|].
  now destruct (copy_error p).
Qed.

Section CompletionFacts.
Context (R : Sklearn.Rng) {Image : Type}.
Local Abbreviation World := (PrepareDataset.World R (Image := Image)).
Local Abbreviation M := (PrepareDataset.M R (Image := Image)).

Lemma uniform_dirs {A} (m : M A) (w : World) :
  uniform R m -> PrepareDataset.dirs R (snd (m w)) = PrepareDataset.dirs R w.
Proof.
  intros Hu. destruct (Hu (PrepareDataset.dirs R w)) as (r & fs & H).
  now destruct (H w eq_refl) as (_ & _ & Hd & _).
Qed.

Lemma uniform_result {A} (m : M A) (w1 w2 : World) :
  uniform R m -> PrepareDataset.dirs R w1 = PrepareDataset.dirs R w2 ->
  fst (m w1) = fst (m w2).
Proof.
  intros Hu Hd. destruct (Hu (PrepareDataset.dirs R w1)) as (r & fs & H).
  destruct (H w1 eq_refl) as [E1 _]. destruct (H w2 (eq_sym Hd)) as [E2 _].
  congruence.
Qed.

(** A loop of uniform steps completes exactly when each step, run on its
    own, completes. *)
Lemma for_each_ok_iff {A} (l : list A) (body : A -> M unit) :
  (forall x, uniform R (body x)) ->
  forall w : World,
    fst (PrepareDataset.for_each R l body w) = Py.Ok tt <->
    forall x, In x l -> fst (body x w) = Py.Ok tt.
Proof.
  intros Hu. induction l as [|x l IH]; intros w; cbn [PrepareDataset.for_each].
  - split; [intros _ ? []|reflexivity].
  - unfold PrepareDataset.seq_, PrepareDataset.mbind.
    pose proof (uniform_dirs (body x) w (Hu x)) as Hd.
    destruct (body x w) as [[[]|e] w1] eqn:E; cbn [snd] in Hd.
    + rewrite IH. split.
      * intros H y [<-|Hy]; [now rewrite E|].
        rewrite <- (uniform_result (body y) w1 w (Hu y) Hd). now apply H.
      * intros H y Hy. rewrite (uniform_result (body y) w1 w (Hu y) Hd).
        apply H. now right.
    + cbn [fst]. split; [discriminate|]. intros H.
      specialize (H x (or_introl eq_refl)). rewrite E in H. exact H.
Qed.

Lemma copy_cocoa_data_loop cocoa :
  PrepareDataset.copy_cocoa_data R (Image := Image) cocoa =
  PrepareDataset.for_each R PrepareDataset.cocoa_mapping (copy_class R cocoa).
Proof. reflexivity. Qed.

Lemma uniform_copy_class cocoa entry : uniform R (Image := Image) (copy_class R cocoa entry).
Proof.
  destruct entry as [src_subdir cls_name]. unfold copy_class.
  destruct (cocoa src_subdir) as [glob|]; [|apply uniform_ret].
  destruct (flat_map glob _) as [|p images] eqn:E; [apply uniform_ret|].
  apply uniform_bind; [apply uniform_split_80_20|].
  intros [train_imgs val_imgs]. apply uniform_for_each.
  intros [split_name split_imgs]. apply uniform_for_each.
  intros [i img_path]. apply uniform_copy2.
Qed.

(** The loop over the paths of one split, its folder existing: the paths
    before the first one that cannot be copied are copied, and the loop
    stops there with the exception of that one. *)
Lemma copy_loop split cls_name (l : list PrepareDataset.LocalPath) : forall start,
  forall w : World,
  existsb (PrepareDataset.dir_eqb (split, cls_name)) (PrepareDataset.dirs R w) = true ->
  PrepareDataset.for_each R (Py.enumerate_from start l)
    (fun '(i, img_path) =>
       PrepareDataset.copy2 R img_path split cls_name
         (cls_name ++ "_" ++ PyStr.format_05d i
                   ++ PyStr.suffix (PrepareDataset.path_str img_path))%string) w =
  (match first_error l with
   | Some e => Py.Raise e
   | None => Py.Ok tt
   end,
   {| PrepareDataset.rng := PrepareDataset.rng R w;
      PrepareDataset.dirs := PrepareDataset.dirs R w;
      PrepareDataset.files :=
        PrepareDataset.files R w
          ++ map (copy_file split cls_name) (until_error (Py.enumerate_from start l)) |}).
Proof.
  induction l as [|[path kind] l IH]; intros start [g D fs] HD;
    cbn [Py.enumerate_from PrepareDataset.for_each first_error until_error map snd].
  - unfold PrepareDataset.ret. cbn. now rewrite app_nil_r.
  - unfold PrepareDataset.seq_, PrepareDataset.mbind, PrepareDataset.copy2 at 1.
    unfold copy_error at 1 2.
    cbn [PrepareDataset.dirs PrepareDataset.rng PrepareDataset.files
         PrepareDataset.path_kind PrepareDataset.path_str] in *.
    destruct kind.
    + unfold PrepareDataset.write_file at 1. cbn [PrepareDataset.dirs].
      rewrite HD. rewrite IH by exact HD.
      cbn [PrepareDataset.dirs PrepareDataset.rng PrepareDataset.files map].
      now rewrite <- app_assoc.
    + unfold PrepareDataset.raise. cbn [map]. now rewrite app_nil_r.
    + unfold PrepareDataset.raise. cbn [map]. now rewrite app_nil_r.
Qed.

(** A sub-directory with two paths or more: the split comes back, and the
    paths are copied, those of [train] first, up to the first one that
    cannot be, where the step stops. *)
Lemma copy_class_run cocoa src_subdir cls_name glob (w : World) :
  cocoa src_subdir = Some glob ->
  2 <= List.length (cocoa_images glob) ->
  existsb (PrepareDataset.dir_eqb ("train", cls_name)) (PrepareDataset.dirs R w) = true ->
  existsb (PrepareDataset.dir_eqb ("val", cls_name)) (PrepareDataset.dirs R w) = true ->
  exists train_imgs val_imgs,
    Permutation (train_imgs ++ val_imgs) (cocoa_images glob) /\
    List.length val_imgs = (List.length (cocoa_images glob) + 4) / 5 /\
    copy_class R cocoa (src_subdir, cls_name) w =
    (match first_error (train_imgs ++ val_imgs) with
     | Some e => Py.Raise e
     | None => Py.Ok tt
     end,
     {| PrepareDataset.rng := PrepareDataset.rng R w;
        PrepareDataset.dirs := PrepareDataset.dirs R w;
        PrepareDataset.files :=
          PrepareDataset.files R w
            ++ map (copy_file "train" cls_name) (until_error (Py.enumerate train_imgs))
            ++ match first_error train_imgs with
               | Some _ => []
               | None =>
                   map (copy_file "val" cls_name) (until_error (Py.enumerate val_imgs))
               end |}).
Proof.
  intros Hg Hn Htrain Hval. unfold cocoa_images in *.
  destruct (train_test_split_ok R _ PrepareDataset.SEED (PrepareDataset.rng R w) Hn)
    as (train_imgs & val_imgs & Hsplit & Hlen & _ & Hperm).
  exists train_imgs, val_imgs. split; [exact Hperm|split; [exact Hlen|]].
  unfold copy_class. rewrite Hg.
  destruct (flat_map glob _) as [|p images] eqn:E; [simpl in Hn; lia|].
  unfold PrepareDataset.mbind at 1, PrepareDataset.split_80_20. rewrite Hsplit.
  cbn [PrepareDataset.for_each]. unfold PrepareDataset.seq_, PrepareDataset.mbind.
  destruct w as [g D fs]. cbn [PrepareDataset.dirs PrepareDataset.rng PrepareDataset.files] in *.
  unfold Py.enumerate. rewrite copy_loop by exact Htrain.
  cbn [PrepareDataset.dirs PrepareDataset.rng PrepareDataset.files].
  rewrite first_error_app.
  destruct (first_error train_imgs) as [e|].
  - now rewrite app_nil_r.
  - rewrite copy_loop by exact Hval.
    cbn [PrepareDataset.dirs PrepareDataset.rng PrepareDataset.files PrepareDataset.ret].
    destruct (first_error val_imgs) as [e|]; now rewrite <- app_assoc.
Qed.
End CompletionFacts.

Lemma copy_class_ok_iff (R : Sklearn.Rng) (Image : Type)
      (cocoa : PrepareDataset.CocoaDir) (src_subdir cls_name : string)
      (w : PrepareDataset.World R (Image := Image)) :
  existsb (PrepareDataset.dir_eqb ("train", cls_name)) (PrepareDataset.dirs R w) = true ->
  existsb (PrepareDataset.dir_eqb ("val", cls_name)) (PrepareDataset.dirs R w) = true ->
  let images := match cocoa src_subdir with
                | Some glob => cocoa_images glob
                | None => []
                end in
  fst (copy_class R cocoa (src_subdir, cls_name) w) = Py.Ok tt <->
  List.length images <> 1 /\ Forall (fun p => copy_error p = None) images.
Proof.
  intros Htrain Hval. cbn zeta. destruct (cocoa src_subdir) as [glob|] eqn:Hg.
  - destruct (cocoa_images glob) as [|p [|q images]] eqn:Ei.
    + unfold copy_class, cocoa_images in *. rewrite Hg, Ei.
      split; [intros _; split; [discriminate|constructor]|reflexivity].
    + unfold copy_class, cocoa_images in *. rewrite Hg, Ei.
      split; [discriminate|]. intros [Hne _]. now contradiction Hne.
    + destruct (copy_class_run R cocoa src_subdir cls_name glob w Hg)
        as (tr & va & P & _ & E); [rewrite Ei; simpl; lia|exact Htrain|exact Hval|].
      rewrite E, Ei in *. cbn [fst].
      assert (Hf : first_error (tr ++ va) = None <->
                   Forall (fun p => copy_error p = None) (p :: q :: images)).
      { rewrite first_error_None. split; apply Permutation_Forall;
          [exact P|apply Permutation_sym, P]. }
      destruct (first_error (tr ++ va)) as [e|].
      * split; [discriminate|]. intros [_ H]. apply Hf in H. discriminate H.
      * split; [|reflexivity]. intros _. split; [simpl; lia|now apply Hf].
  - unfold copy_class. rewrite Hg. split; [|reflexivity].
    intros _. split; [discriminate|constructor].
Qed.

(** X3.  The copy of one cocoa class, the body of the loop of
    [copy_cocoa_data], its two folders existing.  An absent or
    empty source directory is skipped and nothing is written.  Otherwise
    the step completes exactly when the directory does not hold a single
    path and every path found can be copied, being a regular file that can
    be read.  With two paths or more the paths are split, [ceil(n / 5)] of
    them for [val], and copied under numbers from 0 in each split, those of
    [train] first; at the first path that cannot be copied the step stops
    with its exception, [IsADirectoryError] for a directory, the copies
    made before staying in place. *)
Theorem copy_class_outcome (R : Sklearn.Rng) (Image : Type)
        (cocoa : PrepareDataset.CocoaDir) (src_subdir cls_name : string)
        (w : PrepareDataset.World R (Image := Image)) :
  existsb (PrepareDataset.dir_eqb ("train", cls_name)) (PrepareDataset.dirs R w) = true ->
  existsb (PrepareDataset.dir_eqb ("val", cls_name)) (PrepareDataset.dirs R w) = true ->
  let images := match cocoa src_subdir with
                | Some glob => cocoa_images glob
                | None => []
                end in
  let run := copy_class R cocoa (src_subdir, cls_name) w in
  (images = [] -> run = (Py.Ok tt, w)) /\
  (fst run = Py.Ok tt <->
   List.length images <> 1 /\
   Forall (fun p => PrepareDataset.path_kind p = PrepareDataset.RegularFile) images) /\
  (2 <= List.length images ->
   exists train_imgs val_imgs,
     Permutation (train_imgs ++ val_imgs) images /\
     List.length val_imgs = (List.length images + 4) / 5 /\
     fst run =
       match first_error (train_imgs ++ val_imgs) with
       | Some e => Py.Raise e
       | None => Py.Ok tt
       end /\
     PrepareDataset.files R (snd run) =
       PrepareDataset.files R w
         ++ map (copy_file "train" cls_name) (until_error (Py.enumerate train_imgs))
         ++ match first_error train_imgs with
            | Some _ => []
            | None =>
                map (copy_file "val" cls_name) (until_error (Py.enumerate val_imgs))
            end) /\
  (forall p, PrepareDataset.path_kind p = PrepareDataset.Directory ->
             copy_error p = Some (Py.IsADirectoryError (PrepareDataset.path_str p))) /\
  PrepareDataset.copy_cocoa_data R (Image := Image) cocoa =
    PrepareDataset.for_each R PrepareDataset.cocoa_mapping (copy_class R cocoa).
Proof.
  intros Htrain Hval images run.
  pose proof (copy_class_ok_iff R Image cocoa src_subdir cls_name w Htrain Hval) as Hi.
  cbn zeta in Hi. rewrite Forall_copy_error in Hi. subst images run.
  assert (Hdir : forall p, PrepareDataset.path_kind p = PrepareDataset.Directory ->
            copy_error p = Some (Py.IsADirectoryError (PrepareDataset.path_str p)))
    by (intros p Hk; unfold copy_error; now rewrite Hk).
  destruct (cocoa src_subdir) as [glob|] eqn:Hg.
  - split; [|split; [exact Hi|split; [|split; [exact Hdir|reflexivity]]]].
    + intros He. unfold copy_class. rewrite Hg. unfold cocoa_images in He.
      now rewrite He.
    + intros Hn.
      destruct (copy_class_run R cocoa src_subdir cls_name glob w Hg Hn Htrain Hval)
        as (tr & va & Hperm & Hlen & E).
      exists tr, va. rewrite E. cbn [fst snd PrepareDataset.files]. auto.
  - split; [|split; [exact Hi|split; [|split; [exact Hdir|reflexivity]]]].
    + intros _. unfold copy_class. now rewrite Hg.
    + simpl. lia.
Qed.

(** [copy_class_outcome] on a [healthy] directory with three images, and
    with an image and a directory. *)
Lemma copy_class_outcome_witness :
  let w := prepared reversing_rng (Image := nat) in
  let entry := ("healthy", "cocoa__healthy") in
  let images := [file_at "a.jpg"; file_at "b.jpg"; file_at "c.png"] in
  let mixed := [file_at "a.jpg"; directory_at "sub.jpg"] in
  (fst (copy_class reversing_rng
          (healthy_cocoa [file_at "a.jpg"; file_at "b.jpg"] [file_at "c.png"]) entry w)
     = Py.Ok tt <->
   List.length images <> 1 /\
   Forall (fun p => PrepareDataset.path_kind p = PrepareDataset.RegularFile) images) /\
  (fst (copy_class reversing_rng
          (healthy_cocoa [file_at "a.jpg"; directory_at "sub.jpg"] []) entry w)
     = Py.Ok tt <->
   List.length mixed <> 1 /\
   Forall (fun p => PrepareDataset.path_kind p = PrepareDataset.RegularFile) mixed).
Proof.
  intros w entry images mixed. split.
  - apply (proj1 (proj2 (copy_class_outcome reversing_rng nat
                           (healthy_cocoa [file_at "a.jpg"; file_at "b.jpg"]
                                          [file_at "c.png"])
                           "healthy" "cocoa__healthy" w eq_refl eq_refl))).
  - apply (proj1 (proj2 (copy_class_outcome reversing_rng nat
                           (healthy_cocoa [file_at "a.jpg"; directory_at "sub.jpg"] [])
                           "healthy" "cocoa__healthy" w eq_refl eq_refl))).
Defined.

(** X4.  A run of [main] completes exactly when no class has a single example
    and every local cocoa path can be copied: none of the lists extracted
    from PlantVillage and none of the local cocoa directories holds
    exactly one item, and every path found there is a regular file that
    can be read, not a directory under an image name. *)
Theorem main_completes_iff (R : Sklearn.Rng) (Image : Type)
        (pv : PrepareDataset.PlantVillage Image) (cocoa : PrepareDataset.CocoaDir)
        (w : PrepareDataset.World R) images_by_class :
  PrepareDataset.extract_plantvillage pv = Py.Ok images_by_class ->
  (fst (PrepareDataset.main R pv cocoa w) = Py.Ok tt <->
   (forall class_name images,
       In (class_name, images) images_by_class -> List.length images <> 1) /\
   (forall src_subdir glob,
       In src_subdir ["cocoa_black_pod"; "healthy"] ->
       cocoa src_subdir = Some glob ->
       List.length (cocoa_images glob) <> 1 /\
       Forall (fun p => PrepareDataset.path_kind p = PrepareDataset.RegularFile)
              (cocoa_images glob))).
Proof.
  intros E. rewrite main_unfold, E.
  destruct (extract_plantvillage_ok pv) as (d & E' & Hd).
  rewrite E in E'. injection E' as <-.
  unfold save_and_copy, PrepareDataset.seq_, PrepareDataset.mbind.
  set (loop := PrepareDataset.for_each R images_by_class _).
  assert (Hloop : uniform R loop)
    by (apply uniform_for_each; intros [c imgs]; apply uniform_save_split).
  pose proof (uniform_dirs R loop (prepared R) Hloop) as Hdirs.
  assert (Hok : fst (loop (prepared R)) = Py.Ok tt <->
                forall class_name images,
                  In (class_name, images) images_by_class -> List.length images <> 1).
  { subst loop. rewrite for_each_ok_iff
      by (intros [c imgs]; apply uniform_save_split).
    split.
    - intros H c imgs Hin. specialize (H (c, imgs) Hin). cbn beta iota in H.
      apply (save_split_ok_iff R Image imgs c (prepared R)); [| |exact H];
        apply class_dir_exists; simpl; auto;
        destruct (Hd c) as (nm & _ & Hm);
        try (unfold Py.keys; apply in_map_iff; now exists (c, imgs));
        apply In_PV_ALL_CLASSES; eapply match_pv_label_range; eauto.
    - intros H [c imgs] Hin.
      apply (save_split_ok_iff R Image imgs c (prepared R)); [| |now apply (H c)];
        apply class_dir_exists; simpl; auto;
        destruct (Hd c) as (nm & _ & Hm);
        try (unfold Py.keys; apply in_map_iff; now exists (c, imgs));
        apply In_PV_ALL_CLASSES; eapply match_pv_label_range; eauto. }
  pose proof Forall_copy_error as Hreg.
  destruct (loop (prepared R)) as [[[]|e] w1]; cbn [fst snd] in *.
  - rewrite copy_cocoa_data_loop, for_each_ok_iff by (apply uniform_copy_class).
    assert (Hcls : forall sub cls, In (sub, cls) PrepareDataset.cocoa_mapping ->
              existsb (PrepareDataset.dir_eqb ("train", cls)) (PrepareDataset.dirs R w1) = true /\
              existsb (PrepareDataset.dir_eqb ("val", cls)) (PrepareDataset.dirs R w1) = true).
    { intros sub cls Hin. rewrite Hdirs. cbn [prepared PrepareDataset.dirs].
      unfold PrepareDataset.cocoa_mapping in Hin. simpl in Hin.
      destruct Hin as [[= _ <-]|[[= _ <-]|[]]]; split; reflexivity. }
    split.
    + intros H. split; [now apply Hok|]. intros sub glob Hsub Hg.
      assert (Hin : exists cls, In (sub, cls) PrepareDataset.cocoa_mapping).
      { simpl in Hsub. destruct Hsub as [<-|[<-|[]]]; eexists; simpl; eauto. }
      destruct Hin as [cls Hin]. destruct (Hcls sub cls Hin) as [Ht Hv].
      pose proof (copy_class_ok_iff R Image cocoa sub cls w1 Ht Hv) as Ho.
      cbn zeta in Ho. rewrite Hg in Ho. rewrite <- Hreg. apply Ho.
      exact (H (sub, cls) Hin).
    + intros [_ H] [sub cls] Hin. destruct (Hcls sub cls Hin) as [Ht Hv].
      pose proof (copy_class_ok_iff R Image cocoa sub cls w1 Ht Hv) as Ho.
      cbn zeta in Ho. apply Ho. destruct (cocoa sub) as [glob|] eqn:Hg;
        [|split; [simpl; lia|constructor]].
      rewrite Hreg. apply (H sub glob); [|exact Hg].
      unfold PrepareDataset.cocoa_mapping in Hin. simpl in Hin. simpl.
      destruct Hin as [[= <- _]|[[= <- _]|[]]]; auto.
  - split; [discriminate|]. intros [H _]. apply Hok in H. discriminate H.
Qed.

(** [main_completes_iff] on a dataset of three examples, two of them
    tomato leaves, and a local [healthy] directory of two images. *)
Lemma main_completes_iff_witness :
  let pv := {| PrepareDataset.label_names := ["Tomato___healthy"; "Apple___Apple_scab"];
               PrepareDataset.examples := [(5, 0); (6, 1); (7, 0)] |} in
  let cocoa := healthy_cocoa [file_at "a.jpg"; file_at "b.jpg"] [] in
  let extracted := [("tomato__healthy", [(5, 0); (7, 1)])] in
  fst (PrepareDataset.main reversing_rng (Image := nat) pv cocoa (prepared reversing_rng))
    = Py.Ok tt <->
  (forall class_name (images : list (nat * nat)),
      In (class_name, images) extracted -> List.length images <> 1) /\
  (forall src_subdir glob,
      In src_subdir ["cocoa_black_pod"; "healthy"] ->
      cocoa src_subdir = Some glob ->
      List.length (cocoa_images glob) <> 1 /\
      Forall (fun p => PrepareDataset.path_kind p = PrepareDataset.RegularFile)
             (cocoa_images glob)).
Proof.
  intros pv cocoa extracted.
  apply (main_completes_iff reversing_rng nat pv cocoa (prepared reversing_rng) extracted).
  reflexivity.
Defined.

(** ** What [extract_plantvillage] collects *)

Section ExtractContent.
Context {Image : Type}.
Implicit Types (ds : list (Image * nat)) (ibc : list (string * list (Image * nat))).

Lemma get_empty_classes_from (l : list string) : forall ibc c,
  Py.get String.eqb (fold_left (fun d folder => Py.set String.eqb d folder []) l ibc) c =
  if existsb (String.eqb c) l then Some [] else Py.get String.eqb ibc c.
Proof.
  induction l as [|f l IH]; intros ibc c; cbn [fold_left existsb]; [reflexivity|].
  rewrite IH. destruct (existsb (String.eqb c) l); [now rewrite orb_true_r|].
  rewrite orb_false_r. destruct (String.eqb_spec c f) as [->|N].
  - apply (get_set_same _ String.eqb_eq).
  - apply (get_set_other _ String.eqb_eq). congruence.
Qed.

Lemma tag_kept_ext (f g : nat -> option string) ds :
  (forall i, f i = g i) -> forall count, tag_kept f ds count = tag_kept g ds count.
Proof.
  intros Hfg. induction ds as [|[image label_idx] ds IH]; intros count; [reflexivity|].
  cbn [tag_kept]. rewrite Hfg. destruct (g label_idx); [f_equal|]; apply IH.
Qed.

(** The scan adds to each list the kept examples of its folder, in the
    order of the dataset. *)
Lemma scan_kept itf ds : forall count ibc d,
  PrepareDataset.scan itf ds count ibc = Py.Ok d ->
  forall c,
    Py.get String.eqb d c =
    option_map (fun l => l ++ kept_of c (tag_kept (Py.get Nat.eqb itf) ds count))
               (Py.get String.eqb ibc c).
Proof.
  induction ds as [|[image label_idx] ds IH]; intros count ibc d;
    cbn [PrepareDataset.scan tag_kept].
  - intros [= <-] c. unfold kept_of. cbn.
    destruct (Py.get String.eqb ibc c); cbn; [now rewrite app_nil_r|reflexivity].
  - destruct (Py.get Nat.eqb itf label_idx) as [folder|]; [|apply IH].
    destruct (Py.get String.eqb ibc folder) as [l|] eqn:Gl; [|discriminate].
    intros Hs c. rewrite (IH _ _ _ Hs c). unfold kept_of. cbn [filter fst].
    destruct (String.eqb_spec folder c) as [->|N].
    + rewrite (get_set_same _ String.eqb_eq), Gl. cbn [option_map map snd].
      now rewrite <- app_assoc.
    + now rewrite (get_set_other _ String.eqb_eq) by exact N.
Qed.

Lemma tag_kept_images (f : nat -> option string) c ds : forall count,
  map fst (kept_of c (tag_kept f ds count)) =
  map fst (filter (fun x => match f (snd x) with
                            | Some folder => String.eqb folder c
                            | None => false
                            end) ds).
Proof.
  unfold kept_of.
  induction ds as [|[image label_idx] ds IH]; intros count; [reflexivity|].
  cbn [tag_kept filter snd]. destruct (f label_idx) as [folder|]; [|apply IH].
  cbn [filter fst]. destruct (String.eqb folder c); [|apply IH].
  cbn [map fst snd]. f_equal. apply IH.
Qed.

Lemma tag_kept_numbers (f : nat -> option string) ds : forall count,
  map (fun t => snd (snd t)) (tag_kept f ds count) =
  seq count (List.length (tag_kept f ds count)).
Proof.
  induction ds as [|[image label_idx] ds IH]; intros count; [reflexivity|].
  cbn [tag_kept]. destruct (f label_idx); [|apply IH].
  cbn [map snd List.length seq]. f_equal. apply IH.
Qed.

Lemma tag_kept_length (f : nat -> option string) ds : forall count,
  List.length (tag_kept f ds count) =
  List.length (filter (fun x => match f (snd x) with Some _ => true | None => false end) ds).
Proof.
  induction ds as [|[image label_idx] ds IH]; intros count; [reflexivity|].
  cbn [tag_kept filter snd]. destruct (f label_idx); [|apply IH].
  cbn [List.length]. f_equal. apply IH.
Qed.
End ExtractContent.

Lemma StronglySorted_seq n : forall start, StronglySorted lt (seq start n).
Proof.
  induction n as [|n IH]; intros start; cbn [seq]; constructor; [apply IH|].
  apply Forall_forall. intros i Hi. apply in_seq in Hi. lia.
Qed.

Lemma StronglySorted_map_filter {B} (g : B -> nat) (p : B -> bool) (l : list B) :
  StronglySorted lt (map g l) -> StronglySorted lt (map g (filter p l)).
Proof.
  induction l as [|x l IH]; cbn [map filter]; [trivial|].
  intros Hs. inversion Hs as [|? ? Hl Hx]; subst.
  destruct (p x); [|now apply IH].
  cbn [map]. constructor; [now apply IH|].
  rewrite Forall_forall in *. intros i Hi. apply Hx.
  apply in_map_iff in Hi. destruct Hi as (y & <- & Hy).
  apply in_map. apply filter_In in Hy. tauto.
Qed.

Lemma StronglySorted_lt_NoDup (l : list nat) : StronglySorted lt l -> NoDup l.
Proof.
  induction 1 as [|x l _ IH Hx]; constructor; [|exact IH].
  intros Hin. rewrite Forall_forall in Hx. specialize (Hx x Hin). lia.
Qed.

(** X5.  [extract_plantvillage] gives each class exactly the images of the
    dataset whose label name [match_pv_label] maps to that class, in the
    order of the dataset, and tags them with strictly increasing numbers,
    all below the number of images kept. *)
Theorem extract_plantvillage_content (Image : Type)
        (pv : PrepareDataset.PlantVillage Image) :
  exists images_by_class,
    PrepareDataset.extract_plantvillage pv = Py.Ok images_by_class /\
    forall class_name images,
      Py.get String.eqb images_by_class class_name = Some images ->
      map fst images =
        map fst (filter (fun x =>
                           match folder_of (PrepareDataset.label_names pv) (snd x) with
                           | Some folder => String.eqb folder class_name
                           | None => false
                           end) (PrepareDataset.examples pv)) /\
      StronglySorted lt (map snd images) /\
      Forall (fun idx =>
                idx < List.length (filter (pv_matched (PrepareDataset.label_names pv))
                                          (PrepareDataset.examples pv)))
             (map snd images).
Proof.
  destruct (extract_plantvillage_ok pv) as (d & E & _). exists d. split; [exact E|].
  intros c images G. unfold PrepareDataset.extract_plantvillage in E.
  set (names := PrepareDataset.label_names pv) in *.
  set (ds := PrepareDataset.examples pv) in *.
  pose proof (scan_kept _ _ _ _ _ E c) as Hc. rewrite G in Hc.
  unfold PrepareDataset.empty_classes in Hc. rewrite get_empty_classes_from in Hc.
  destruct (existsb _ _); [|discriminate]. cbn [option_map app] in Hc.
  injection Hc as ->.
  rewrite (tag_kept_ext _ (folder_of names) ds)
    by (intros i; unfold folder_of; apply get_idx_to_folder).
  pose proof (tag_kept_numbers (folder_of names) ds 0) as Hnum.
  assert (Hsnd : map snd (kept_of c (tag_kept (folder_of names) ds 0)) =
                 map (fun t => snd (snd t))
                     (filter (fun t => String.eqb (fst t) c)
                             (tag_kept (folder_of names) ds 0)))
    by (unfold kept_of; now rewrite map_map).
  split; [apply tag_kept_images|split].
  - rewrite Hsnd. apply StronglySorted_map_filter. rewrite Hnum.
    apply StronglySorted_seq.
  - rewrite Hsnd. apply Forall_forall. intros idx Hin.
    apply in_map_iff in Hin. destruct Hin as (t & <- & Ht).
    apply filter_In in Ht. destruct Ht as [Ht _].
    apply (in_map (fun t => snd (snd t))) in Ht. rewrite Hnum in Ht.
    apply in_seq in Ht. rewrite tag_kept_length in Ht.
    replace (filter (pv_matched names) ds)
      with (filter (fun x => match folder_of names (snd x) with
                             | Some _ => true | None => false end) ds); [lia|].
    apply filter_ext. intros x. unfold pv_matched, folder_of.
    now destruct (nth_error names (snd x)).
Qed.

(** ** The names of the files [save_split] writes *)

Lemma uint_of_string_zeros k s :
  NilEmpty.uint_of_string (PyStr.zeros k ++ s)%string =
  option_map (fun d => Nat.iter k Decimal.D0 d) (NilEmpty.uint_of_string s).
Proof.
  induction k as [|k IH]; cbn [PyStr.zeros String.append Nat.iter].
  - now destruct (NilEmpty.uint_of_string s).
  - cbn [NilEmpty.uint_of_string]. rewrite IH.
    now destruct (NilEmpty.uint_of_string s).
Qed.

Lemma of_uint_zeros k d : Nat.of_uint (Nat.iter k Decimal.D0 d) = Nat.of_uint d.
Proof. induction k as [|k IH]; [reflexivity|]. cbn [Nat.iter]. exact IH. Qed.

(** The number can be read back from its five-digit form. *)
Lemma parse_format_05d n : parse_05d (PyStr.format_05d n) = Some n.
Proof.
  unfold parse_05d, PyStr.format_05d. rewrite uint_of_string_zeros, NilEmpty.usu.
  cbn [option_map]. now rewrite of_uint_zeros, DecimalNat.Unsigned.of_to.
Qed.

Lemma format_05d_inj n m : PyStr.format_05d n = PyStr.format_05d m -> n = m.
Proof.
  intros E. apply (f_equal parse_05d) in E. rewrite !parse_format_05d in E.
  now injection E.
Qed.

Lemma append_cancel_l (a x y : string) : (a ++ x = a ++ y)%string -> x = y.
Proof. induction a as [|c a IH]; cbn [String.append]; [trivial|]. intros [= E]. auto. Qed.

Lemma length_append_string (x y : string) :
  String.length (x ++ y)%string = String.length x + String.length y.
Proof.
  induction x as [|c x IH]; cbn [String.append String.length]; [reflexivity|].
  now rewrite IH.
Qed.

Lemma append_cancel_r (b x y : string) : (x ++ b = y ++ b)%string -> x = y.
Proof.
  revert y. induction x as [|c x IH]; intros [|c' y] E; cbn [String.append] in E.
  - reflexivity.
  - apply (f_equal String.length) in E. cbn [String.length] in E.
    rewrite length_append_string in E. lia.
  - apply (f_equal String.length) in E. cbn [String.length] in E.
    rewrite length_append_string in E. lia.
  - injection E as -> E. f_equal. now apply IH.
Qed.

Lemma jpeg_name_inj {Image} split c (x y : Image * nat) :
  PrepareDataset.of_name (jpeg_file split c x) = PrepareDataset.of_name (jpeg_file split c y) ->
  snd x = snd y.
Proof.
  cbn [jpeg_file PrepareDataset.of_name]. intros E.
  apply append_cancel_l, append_cancel_l, append_cancel_r in E.
  now apply format_05d_inj.
Qed.

Lemma NoDup_jpeg_names {Image} split c (l : list (Image * nat)) :
  NoDup (map snd l) ->
  NoDup (map (fun o => (PrepareDataset.of_split o, PrepareDataset.of_name o))
             (map (jpeg_file split c) l)).
Proof.
  induction l as [|x l IH]; cbn [map]; intros Hnd; [constructor|].
  inversion Hnd as [|? ? Hx Hl]; subst. constructor; [|now apply IH].
  intros Hin. apply Hx. rewrite map_map in Hin. apply in_map_iff in Hin.
  destruct Hin as (y & E & Hy). injection E as E.
  assert (Ei : snd y = snd x) by (apply (jpeg_name_inj split c); exact E).
  rewrite <- Ei. now apply in_map.
Qed.

(** X6.  [save_split] never writes two files of the same name into a folder:
    for examples with distinct tags, as [extract_plantvillage] gives them,
    the files of one call differ in their split or in their name. *)
Theorem save_split_names_distinct (R : Sklearn.Rng) (Image : Type)
        (images : list (Image * nat)) (class_name : string)
        (w : PrepareDataset.World R) :
  existsb (PrepareDataset.dir_eqb ("train", class_name)) (PrepareDataset.dirs R w) = true ->
  existsb (PrepareDataset.dir_eqb ("val", class_name)) (PrepareDataset.dirs R w) = true ->
  NoDup (map snd images) ->
  exists written,
    PrepareDataset.files R (snd (PrepareDataset.save_split R images class_name w)) =
      PrepareDataset.files R w ++ written /\
    NoDup (map (fun o => (PrepareDataset.of_split o, PrepareDataset.of_name o)) written).
Proof.
  intros Htrain Hval Hnd. destruct images as [|x [|y images]].
  - exists []. split; [cbn; now rewrite app_nil_r|constructor].
  - exists []. split; [cbn; now rewrite app_nil_r|constructor].
  - destruct (save_split_partition R (x :: y :: images) class_name w)
      as (tr & va & Hperm & _ & E); [simpl; lia|exact Htrain|exact Hval|].
    rewrite E. cbn [snd PrepareDataset.files]. eexists. split; [reflexivity|].
    assert (Hnd' : NoDup (map snd (tr ++ va))).
    { eapply Permutation_NoDup; [|exact Hnd].
      apply Permutation_map, Permutation_sym, Hperm. }
    rewrite map_app in Hnd'. rewrite map_app.
    apply NoDup_app; [apply NoDup_jpeg_names; eapply NoDup_app_remove_r; eauto
                      |apply NoDup_jpeg_names; eapply NoDup_app_remove_l; eauto|].
    intros [s n] H1 H2. rewrite map_map in H1, H2.
    apply in_map_iff in H1, H2.
    destruct H1 as (a & E1 & _). destruct H2 as (b & E2 & _).
    rewrite <- E2 in E1. cbn in E1. discriminate E1.
Qed.

(** [save_split_names_distinct] on three tagged images. *)
Lemma save_split_names_distinct_witness :
  let images := [(10, 0); (11, 1); (12, 2)] in
  let w := prepared reversing_rng (Image := nat) in
  exists written,
    PrepareDataset.files reversing_rng
      (snd (PrepareDataset.save_split reversing_rng images "maize__rust" w)) =
      PrepareDataset.files reversing_rng w ++ written /\
    NoDup (map (fun o => (PrepareDataset.of_split o, PrepareDataset.of_name o)) written).
Proof.
  intros images w.
  apply (save_split_names_distinct reversing_rng nat images "maize__rust" w
           eq_refl eq_refl).
  repeat constructor; simpl; intuition discriminate.
Defined.

(** ** The label rule of [generate_labels] on every folder name *)

Lemma split_once_absent sep s :
  PyStr.contains sep s = false -> PyStr.split_once sep s = [s].
Proof.
  induction s as [|c s IH]; cbn [PyStr.contains PyStr.split_once]; intros H;
    apply orb_false_iff in H; destruct H as [Hs Hc]; rewrite Hs; [reflexivity|].
  now rewrite (IH Hc).
Qed.

Lemma split_once_first crop condition :
  PyStr.contains "__" (crop ++ "_")%string = false ->
  PyStr.split_once "__" (crop ++ "__" ++ condition)%string = [crop; condition].
Proof.
  induction crop as [|c crop IH]; intros H.
  - reflexivity.
  - cbn [String.append PyStr.contains] in H. apply orb_false_iff in H.
    destruct H as [Hs Hc].
    change (String c crop ++ "__" ++ condition)%string
      with (String c (crop ++ "__" ++ condition)).
    cbn [PyStr.split_once].
    assert (Hs' : PyStr.startswith "__" (String c (crop ++ "__" ++ condition)) = false).
    { destruct crop as [|c2 crop]; cbn in Hs |- *.
      - rewrite andb_true_r in Hs. now rewrite Hs.
      - rewrite andb_true_r in *. exact Hs. }
    rewrite Hs'. now rewrite (IH Hc).
Qed.

(** X7.  For every folder name made of a crop, a double underscore and a
    condition, where the double underscore of the name is the first one
    (the crop followed by one underscore holds none), the label is the
    capitalized crop, a colon, and [healthy] for the condition [healthy],
    else the crop, an underscore and the condition. *)
Theorem label_for_rule (crop condition : string) :
  PyStr.contains "__" (crop ++ "_")%string = false ->
  TrainYolo.label_for (crop ++ "__" ++ condition)%string =
  if String.eqb condition "healthy"
  then (PyStr.capitalize crop ++ ":healthy")%string
  else (PyStr.capitalize crop ++ ":" ++ crop ++ "_" ++ condition)%string.
Proof.
  intros H. rewrite label_for_fallback. unfold TrainYolo.fallback_label.
  now rewrite (split_once_first crop condition H).
Qed.

(** [label_for_rule] on a folder that is not in the table. *)
Lemma label_for_rule_witness :
  TrainYolo.label_for "cassava__mosaic" = "Cassava:cassava_mosaic".
Proof. apply (label_for_rule "cassava" "mosaic"). reflexivity. Defined.

(** X8.  A class name without a double underscore is its own label, and so a
    list of such names is returned as it is. *)
Theorem generate_labels_without_separator (names : list string) :
  Forall (fun name => PyStr.contains "__" name = false) names ->
  TrainYolo.generate_labels names = names.
Proof.
  intros H. rewrite generate_labels_map.
  induction H as [|name names Hn _ IH]; [reflexivity|].
  cbn [map]. rewrite IH. f_equal.
  rewrite label_for_fallback. unfold TrainYolo.fallback_label.
  now rewrite (split_once_absent "__" name Hn).
Qed.

(** [generate_labels_without_separator] on two plain names. *)
Lemma generate_labels_without_separator_witness :
  TrainYolo.generate_labels ["background"; "maize_rust"] = ["background"; "maize_rust"].
Proof.
  apply (generate_labels_without_separator ["background"; "maize_rust"]).
  repeat constructor.
Defined.

(** ** The two label matchers *)

Lemma lower_char_idem c : PyStr.lower_char (PyStr.lower_char c) = PyStr.lower_char c.
Proof. destruct c as [[] [] [] [] [] [] [] []]; reflexivity. Qed.

Lemma lower_idem s : PyStr.lower (PyStr.lower s) = PyStr.lower s.
Proof.
  unfold PyStr.lower. induction s as [|c s IH]; [reflexivity|].
  cbn [PyStr.map_chars]. now rewrite lower_char_idem, IH.
Qed.

(** X9.  Both scripts match a label name whatever the case of its letters: the
    name and its lower-cased form get the same folder from
    [match_pv_label] and the same index from the tests of
    [train_mobilenet.py]. *)
Theorem label_matching_ignores_case (name : string) :
  PrepareDataset.match_pv_label (PyStr.lower name) = PrepareDataset.match_pv_label name /\
  TrainMobilenet.leaf_index (PyStr.lower name) = TrainMobilenet.leaf_index name.
Proof.
  unfold PrepareDataset.match_pv_label, TrainMobilenet.leaf_index.
  now rewrite lower_idem.
Qed.

Lemma startswith_app_l p q : forall s,
  PyStr.startswith (p ++ q) s = true -> PyStr.startswith p s = true.
Proof.
  induction p as [|a p IH]; intros s; [reflexivity|].
  destruct s as [|b s]; cbn [String.append PyStr.startswith]; [discriminate|].
  intros H. apply andb_true_iff in H. destruct H as [-> H]. now apply IH.
Qed.

Lemma contains_intro sub s : PyStr.startswith sub s = true -> PyStr.contains sub s = true.
Proof. destruct s; cbn [PyStr.contains]; intros ->; reflexivity. Qed.

Lemma contains_tail sub c s : PyStr.contains sub s = true -> PyStr.contains sub (String c s) = true.
Proof. cbn [PyStr.contains]. intros ->. apply orb_true_r. Qed.

Lemma startswith_app_r p q : forall s,
  PyStr.startswith (p ++ q) s = true -> PyStr.contains q s = true.
Proof.
  induction p as [|a p IH]; intros s.
  - apply contains_intro.
  - destruct s as [|b s]; cbn [String.append PyStr.startswith]; [discriminate|].
    intros H. apply andb_true_iff in H. destruct H as [_ H].
    apply contains_tail. now apply IH.
Qed.

(** A string that holds [p ++ q] holds [p] and holds [q]. *)
Lemma contains_app p q : forall s,
  PyStr.contains (p ++ q) s = true ->
  PyStr.contains p s = true /\ PyStr.contains q s = true.
Proof.
  induction s as [|c s IH]; cbn [PyStr.contains]; intros H;
    apply orb_true_iff in H; destruct H as [H|H]; try discriminate.
  - split; [rewrite (startswith_app_l p q _ H); reflexivity|].
    exact (startswith_app_r p q _ H).
  - split; [rewrite (startswith_app_l p q _ H); reflexivity|].
    exact (startswith_app_r p q _ H).
  - destruct (IH H) as [Hp Hq]. split.
    + rewrite Hp. apply orb_true_r.
    + now apply contains_tail.
Qed.

(** X10.  Every label name [prepare_dataset.py] keeps is kept by
    [train_mobilenet.py] too, with one of the indices 2 to 5; the converse
    fails, and the two can disagree on the class: [Maize_rust] is kept by
    the second only, and [corn_rust_healthy] is healthy maize for the
    first and maize rust for the second. *)
Theorem kept_labels_kept_by_mobilenet :
  (forall name folder,
      PrepareDataset.match_pv_label name = Some folder ->
      exists leaf, TrainMobilenet.leaf_index name = Some leaf /\ 2 <= leaf <= 5) /\
  (PrepareDataset.match_pv_label "Maize_rust" = None /\
   TrainMobilenet.leaf_index "Maize_rust" = Some 2) /\
  (PrepareDataset.match_pv_label "corn_rust_healthy" = Some "maize__healthy" /\
   TrainMobilenet.leaf_index "corn_rust_healthy" = Some 2).
Proof.
  split; [|split; split; reflexivity].
  intros name folder M. unfold PrepareDataset.match_pv_label in M.
  apply first_match_Some in M. destruct M as (k & c & Hin & Hk & Hc).
  unfold TrainMobilenet.leaf_index. cbn zeta.
  unfold PrepareDataset.PV_LABEL_MAP in Hin. simpl in Hin.
  destruct Hin as [[= <- <- _]|[[= <- <- _]|[[= <- <- _]|[[= <- <- _]|[]]]]].
  - rewrite Hk, Hc.
    destruct (PyStr.contains "tomato" _), (PyStr.contains "early" _),
      (PyStr.contains "blight" _), (PyStr.contains "healthy" _),
      (PyStr.contains "maize" _), (PyStr.contains "rust" _);
      cbn; eexists; split; try reflexivity; lia.
  - rewrite Hk, Hc.
    destruct (PyStr.contains "tomato" _), (PyStr.contains "early" _),
      (PyStr.contains "blight" _), (PyStr.contains "common_rust" _),
      (PyStr.contains "maize" _), (PyStr.contains "rust" _);
      cbn; eexists; split; try reflexivity; lia.
  - destruct (contains_app "early" "_blight" _ Hc) as [He _].
    destruct (contains_app "early_" "blight" _ Hc) as [_ Hb].
    rewrite Hk, He, Hb. cbn. eexists; split; [reflexivity|lia].
  - rewrite Hk, Hc.
    destruct (PyStr.contains "early" _), (PyStr.contains "blight" _);
      cbn; eexists; split; try reflexivity; lia.
Qed.

(** [kept_labels_kept_by_mobilenet] on a PlantVillage label name. *)
Lemma kept_labels_kept_by_mobilenet_witness :
  exists leaf,
    TrainMobilenet.leaf_index "Tomato___Early_blight" = Some leaf /\ 2 <= leaf <= 5.
Proof.
  apply (proj1 kept_labels_kept_by_mobilenet "Tomato___Early_blight"
               "tomato__early_blight").
  reflexivity.
Defined.

(** ** The labels [train_mobilenet.py] feeds to the model *)

Lemma leaf_index_range name leaf :
  TrainMobilenet.leaf_index name = Some leaf -> 2 <= leaf <= 5.
Proof.
  unfold TrainMobilenet.leaf_index. cbn zeta.
  repeat match goal with
         | |- context [if ?b then _ else _] => destruct b
         end; intros [= <-]; lia.
Qed.

Lemma NoDup_keys_set {V} (d : list (nat * V)) k v :
  NoDup (Py.keys d) -> NoDup (Py.keys (Py.set Nat.eqb d k v)).
Proof.
  induction d as [|[k0 v0] d IH]; cbn [Py.set Py.keys map fst]; intros Hnd.
  - repeat constructor. intros [].
  - inversion Hnd as [|? ? Hk0 Hd]; subst.
    destruct (Nat.eqb_spec k0 k) as [->|N]; cbn [map fst]; [now constructor|].
    constructor; [|now apply IH].
    intros Hin. apply (keys_set _ Nat.eqb_eq) in Hin. destruct Hin as [->|Hin]; auto.
Qed.

Lemma NoDup_keys_pv_to_leaf names : NoDup (Py.keys (TrainMobilenet.pv_to_leaf names)).
Proof.
  unfold TrainMobilenet.pv_to_leaf.
  assert (H : forall l d, NoDup (Py.keys d) ->
            NoDup (Py.keys (fold_left
              (fun d '(i, name) =>
                 match TrainMobilenet.leaf_index name with
                 | Some leaf => Py.set Nat.eqb d i leaf
                 | None => d
                 end) l d))).
  { induction l as [|[i name] l IH]; intros d Hd; cbn [fold_left]; [exact Hd|].
    apply IH. destruct (TrainMobilenet.leaf_index name); [now apply NoDup_keys_set|exact Hd]. }
  apply H. constructor.
Qed.

Lemma length_list_set l : forall k v, List.length (TrainMobilenet.list_set l k v) = List.length l.
Proof.
  induction l as [|x l IH]; intros [|k] v; cbn [TrainMobilenet.list_set List.length];
    try reflexivity. now rewrite IH.
Qed.

Lemma nth_list_set l : forall k v i,
  nth i (TrainMobilenet.list_set l k v) 0 =
  if (i =? k) && (i <? List.length l) then v else nth i l 0.
Proof.
  induction l as [|x l IH]; intros k v i.
  - cbn [TrainMobilenet.list_set List.length]. destruct k; now rewrite andb_false_r.
  - destruct k as [|k]; cbn [TrainMobilenet.list_set].
    + destruct i as [|i]; [reflexivity|]. reflexivity.
    + destruct i as [|i]; [reflexivity|]. cbn [nth List.length]. rewrite IH.
      reflexivity.
Qed.

Lemma nth_fill_mapping (d : list (nat * nat)) : forall m i,
  NoDup (Py.keys d) ->
  nth i (fold_left (fun m '(k, v) => TrainMobilenet.list_set m k v) d m) 0 =
  match Py.get Nat.eqb d i with
  | Some v => if i <? List.length m then v else nth i m 0
  | None => nth i m 0
  end.
Proof.
  induction d as [|[k v] d IH]; intros m i Hnd; cbn [fold_left Py.get]; [reflexivity|].
  cbn [Py.keys map fst] in Hnd. inversion Hnd as [|? ? Hk Hd]; subst.
  rewrite (IH _ _ Hd), length_list_set, nth_list_set.
  destruct (Nat.eqb_spec k i) as [->|N].
  - replace (Py.get Nat.eqb d i) with (@None nat)
      by (symmetry; now apply (get_None_iff _ Nat.eqb_eq)).
    rewrite Nat.eqb_refl. cbn [andb]. reflexivity.
  - replace (i =? k) with false by (symmetry; apply Nat.eqb_neq; congruence).
    reflexivity.
Qed.

(** [mapping] holds at each position the index of the label name there, or
    0 where the name has none. *)
Lemma nth_mapping names i :
  nth i (TrainMobilenet.mapping names) 0 =
  match nth_error names i with
  | Some name =>
      match TrainMobilenet.leaf_index name with Some leaf => leaf | None => 0 end
  | None => 0
  end.
Proof.
  unfold TrainMobilenet.mapping.
  rewrite nth_fill_mapping by apply NoDup_keys_pv_to_leaf.
  rewrite get_pv_to_leaf, repeat_length.
  assert (Hrep : nth i (repeat 0 (List.length names)) 0 = 0).
  { destruct (Nat.ltb_spec i (List.length names)) as [L|L].
    - now rewrite nth_repeat_lt.
    - apply nth_overflow. now rewrite repeat_length. }
  rewrite Hrep. destruct (nth_error names i) as [name|] eqn:E; [|reflexivity].
  destruct (TrainMobilenet.leaf_index name); [|reflexivity].
  replace (i <? List.length names) with true; [reflexivity|].
  symmetry. apply Nat.ltb_lt. apply nth_error_Some. congruence.
Qed.

Lemma ds_pv_labels_range (Image : Type) (pv : PrepareDataset.PlantVillage Image) :
  Forall (fun x => 2 <= snd x <= 5) (TrainMobilenet.ds_pv pv).
Proof.
  unfold TrainMobilenet.ds_pv. apply Forall_map, Forall_forall.
  intros x Hx. apply filter_In in Hx. destruct Hx as [_ Hx].
  rewrite filter_fn_spec, get_pv_to_leaf in Hx.
  unfold TrainMobilenet.map_fn. cbn [snd]. rewrite nth_mapping.
  destruct (nth_error (PrepareDataset.label_names pv) (snd x)) as [name|]; [|discriminate].
  destruct (TrainMobilenet.leaf_index name) as [leaf|] eqn:El; [|discriminate].
  now apply leaf_index_range in El.
Qed.

(** X11.  The filter and the gather of [train_mobilenet.py] together: [ds_pv]
    holds, in the order of the dataset, each example whose label name gets
    an index from the chain of tests, relabelled with that index (one of 2
    to 5), and no other example. *)
Theorem ds_pv_relabels (Image : Type) (pv : PrepareDataset.PlantVillage Image) :
  TrainMobilenet.ds_pv pv =
  flat_map (fun x =>
              match nth_error (PrepareDataset.label_names pv) (snd x) with
              | Some name =>
                  match TrainMobilenet.leaf_index name with
                  | Some leaf => [(fst x, leaf)]
                  | None => []
                  end
              | None => []
              end) (PrepareDataset.examples pv) /\
  Forall (fun x => 2 <= snd x <= 5) (TrainMobilenet.ds_pv pv).
Proof.
  split; [|apply ds_pv_labels_range].
  unfold TrainMobilenet.ds_pv.
  set (names := PrepareDataset.label_names pv).
  induction (PrepareDataset.examples pv) as [|x l IH]; [reflexivity|].
  cbn [filter flat_map]. rewrite filter_fn_spec, get_pv_to_leaf.
  destruct (nth_error names (snd x)) as [name|] eqn:En; [|exact IH].
  destruct (TrainMobilenet.leaf_index name) as [leaf|] eqn:El; [|exact IH].
  cbn [map app]. unfold TrainMobilenet.map_fn at 1. rewrite nth_mapping, En, El.
  now rewrite IH.
Qed.

(** X12.  [train_mobilenet.py] builds its stream only when it finds no local
    cocoa path.  Without one the stream given to the shuffle is the
    preprocessed PlantVillage examples, in their order, with labels from 2
    to 5, below the 6 entries of [LABELS].  With one or more, the decoded
    cocoa images have no static shape and [ds_all.map(preprocess)] raises
    [ValueError]: no example labelled 0 or 1 ever reaches the model. *)
Theorem ds_all_outcome (Image : Type) (load_img : string -> Image)
        (preprocess_image : Image -> Image)
        (pv : PrepareDataset.PlantVillage Image) (cocoa : PrepareDataset.CocoaDir) :
  (TrainMobilenet.cocoa_files cocoa = [] ->
   TrainMobilenet.ds_all load_img preprocess_image pv cocoa =
     Py.Ok (map (TrainMobilenet.preprocess preprocess_image) (TrainMobilenet.ds_pv pv))) /\
  (TrainMobilenet.cocoa_files cocoa <> [] ->
   TrainMobilenet.ds_all load_img preprocess_image pv cocoa =
     Py.Raise (Py.ValueError "'images' contains no shape.")) /\
  (forall stream,
      TrainMobilenet.ds_all load_img preprocess_image pv cocoa = Py.Ok stream ->
      Forall (fun x => 2 <= snd x <= 5 /\ snd x < List.length TrainMobilenet.LABELS)
             stream).
Proof.
  assert (Hnone : TrainMobilenet.cocoa_files cocoa = [] ->
            TrainMobilenet.ds_all load_img preprocess_image pv cocoa =
            Py.Ok (map (TrainMobilenet.preprocess preprocess_image)
                       (TrainMobilenet.ds_pv pv))).
  { intros E. unfold TrainMobilenet.ds_all. now rewrite E. }
  assert (Hsome : TrainMobilenet.cocoa_files cocoa <> [] ->
            TrainMobilenet.ds_all load_img preprocess_image pv cocoa =
            Py.Raise (Py.ValueError "'images' contains no shape.")).
  { intros N. unfold TrainMobilenet.ds_all.
    destruct (TrainMobilenet.cocoa_files cocoa); [contradiction|reflexivity]. }
  split; [exact Hnone|split; [exact Hsome|]].
  intros stream E.
  destruct (TrainMobilenet.cocoa_files cocoa) as [|f files] eqn:Ef.
  - rewrite (Hnone eq_refl) in E. injection E as <-.
    apply Forall_map.
    eapply Forall_impl; [|exact (ds_pv_labels_range Image pv)].
    intros x Hx. change (List.length TrainMobilenet.LABELS) with 6.
    unfold TrainMobilenet.preprocess. cbn [snd] in *. lia.
  - rewrite Hsome in E by discriminate. discriminate E.
Qed.

(** [ds_all_outcome] with a single image in the local [healthy]
    directory. *)
Lemma ds_all_outcome_witness :
  TrainMobilenet.ds_all (fun path => 0) (fun image => image)
    {| PrepareDataset.label_names := ["Tomato___healthy"];
       PrepareDataset.examples := [(7, 0)] |}
    one_cocoa_image =
  Py.Raise (Py.ValueError "'images' contains no shape.").
Proof.
  apply (proj1 (proj2 (ds_all_outcome nat (fun path => 0) (fun image => image)
                         {| PrepareDataset.label_names := ["Tomato___healthy"];
                            PrepareDataset.examples := [(7, 0)] |}
                         one_cocoa_image))).
  discriminate.
Defined.

(** ** The passes over the streams of [train_mobilenet.py] *)

Lemma NoDup_app_disjoint {B} (l1 l2 : list B) :
  NoDup (l1 ++ l2) -> forall x, In x l1 -> ~ In x l2.
Proof.
  induction l1 as [|y l1 IH]; cbn [app]; intros Hnd x [].
  - subst y. inversion Hnd as [|? ? Hx _]; subst. intros H2. apply Hx.
    apply in_or_app. now right.
  - inversion Hnd; subst. now apply IH.
Qed.

(** X13.  Each pass over [ds_train] yields [N - ceil(N / 5)] of the [N]
    examples and each pass over [ds_val] yields [ceil(N / 5)], all of them
    examples of the stream and, for distinct examples, without repeats.  A
    pass over [ds_train] and a pass over [ds_val] are two iterations of
    the shuffled dataset: they share no example exactly when the examples
    of the validation pass are among those the iteration of the training
    pass sends to validation.  A shuffle that draws another order on each
    iteration does not ensure it: under such a shuffle training can get an
    example that validation gets too. *)
Theorem mobilenet_streams_per_pass :
  (forall (T : TfData.Shuffler) (A : Type) (i j : nat) (ds : list A),
      List.length (TrainMobilenet.ds_train T i ds) =
        List.length ds - (List.length ds + 4) / 5 /\
      List.length (TrainMobilenet.ds_val T j ds) = (List.length ds + 4) / 5 /\
      incl (TrainMobilenet.ds_train T i ds) ds /\
      incl (TrainMobilenet.ds_val T j ds) ds /\
      (NoDup ds ->
       NoDup (TrainMobilenet.ds_train T i ds) /\
       NoDup (TrainMobilenet.ds_val T j ds) /\
       ((forall x, In x (TrainMobilenet.ds_train T i ds) ->
                   ~ In x (TrainMobilenet.ds_val T j ds)) <->
        incl (TrainMobilenet.ds_val T j ds) (TrainMobilenet.ds_val T i ds)))) /\
  (exists (T : TfData.Shuffler) (i j : nat) (ds : list nat) (x : nat),
      NoDup ds /\
      In x (TrainMobilenet.ds_train T i ds) /\ In x (TrainMobilenet.ds_val T j ds)).
Proof.
  split.
  - intros T A i j ds.
    pose proof (train_val_Permutation T i ds) as Pi.
    pose proof (train_val_Permutation T j ds) as Pj.
    assert (Htr : incl (TrainMobilenet.ds_train T i ds) ds).
    { intros x Hx. apply (Permutation_in _ Pi). apply in_or_app. now left. }
    assert (Hva : incl (TrainMobilenet.ds_val T j ds) ds).
    { intros x Hx. apply (Permutation_in _ Pj). apply in_or_app. now right. }
    split; [|split; [apply ds_val_length|split; [exact Htr|split; [exact Hva|]]]].
    + pose proof (Permutation_length Pi) as L. rewrite length_app, ds_val_length in L.
      lia.
    + intros Hnd.
      assert (Ni : NoDup (TrainMobilenet.ds_train T i ds ++ TrainMobilenet.ds_val T i ds))
        by (eapply Permutation_NoDup; [apply Permutation_sym, Pi|exact Hnd]).
      assert (Nj : NoDup (TrainMobilenet.ds_train T j ds ++ TrainMobilenet.ds_val T j ds))
        by (eapply Permutation_NoDup; [apply Permutation_sym, Pj|exact Hnd]).
      split; [now apply NoDup_app_remove_r in Ni|].
      split; [now apply NoDup_app_remove_l in Nj|]. split.
      * intros Hdis x Hx.
        assert (Hin : In x (TrainMobilenet.ds_train T i ds ++ TrainMobilenet.ds_val T i ds))
          by (apply (Permutation_in _ (Permutation_sym Pi)); now apply Hva).
        apply in_app_or in Hin. destruct Hin as [Hin|Hin]; [|exact Hin].
        now contradiction (Hdis x Hin).
      * intros Hsub x Hx Hv. apply Hsub in Hv.
        exact (NoDup_app_disjoint _ _ Ni x Hx Hv).
  - exists alternating_shuffler, 0, 1, [10; 11; 12; 13; 14; 15; 16], 15.
    split; [|split; simpl; auto].
    repeat constructor; simpl; intuition discriminate.
Qed.

(** [mobilenet_streams_per_pass] on seven distinct examples, the training
    pass being iteration 0 and the validation pass iteration 1 of a
    shuffle that changes its order. *)
Lemma mobilenet_streams_per_pass_witness :
  let ds := [10; 11; 12; 13; 14; 15; 16] in
  NoDup (TrainMobilenet.ds_train alternating_shuffler 0 ds) /\
  NoDup (TrainMobilenet.ds_val alternating_shuffler 1 ds) /\
  ((forall x, In x (TrainMobilenet.ds_train alternating_shuffler 0 ds) ->
              ~ In x (TrainMobilenet.ds_val alternating_shuffler 1 ds)) <->
   incl (TrainMobilenet.ds_val alternating_shuffler 1 ds)
        (TrainMobilenet.ds_val alternating_shuffler 0 ds)).
Proof.
  intros ds.
  apply (proj2 (proj2 (proj2 (proj2
           (proj1 mobilenet_streams_per_pass alternating_shuffler nat 0 1 ds))))).
  repeat constructor; simpl; intuition discriminate.
Defined.

(** The two passes of that run: the examples 10 and 15 are in both, 11 and
    16 in neither. *)
Example mobilenet_passes_overlap :
  TrainMobilenet.ds_train alternating_shuffler 0 [10; 11; 12; 13; 14; 15; 16]
    = [15; 14; 13; 12; 10] /\
  TrainMobilenet.ds_val alternating_shuffler 1 [10; 11; 12; 13; 14; 15; 16] = [10; 15].
Proof. split; reflexivity. Qed.

(** ** The class names of the model, in index order *)

(** X14.  The list comprehension over the sorted keys never raises [KeyError]:
    it returns one name per class, read under the indices of the model
    taken in increasing order. *)
Theorem ordered_names_total (class_names : list (nat * string)) :
  exists names keys,
    TrainYolo.ordered_names class_names = Py.Ok names /\
    Permutation keys (Py.keys class_names) /\
    StronglySorted le keys /\
    map Some names = map (Py.get Nat.eqb class_names) keys /\
    List.length names = List.length class_names.
Proof.
  destruct (ordered_names_lookup class_names) as (names & E & Hm & Hlen).
  exists names, (TrainYolo.sorted (Py.keys class_names)).
  split; [exact E|split; [apply sorted_Permutation|split; [apply sorted_Sorted|]]].
  split; [exact Hm|exact Hlen].
Qed.

(** ** How a run of [train_yolov8_cls.py] can end *)

(** X15.  How a failing run of the YOLO script has ended.  Either it raised
    one of its own [FileNotFoundError]s (no dataset, no best weights, no
    [.tflite] file in the export directory) and has asked for nothing but
    training and export; or an exception came out of one of five calls, and
    the run has made the calls up to that one and no other.  The look-up of
    the class names never fails.  In particular, when the export returns a
    path that is not a directory and nothing is there once the assets
    directory is made, the run fails in [shutil.copy2], the assets directory
    made and nothing copied. *)
Theorem yolo_main_failures (H : TrainYolo.Host) (w : TrainYolo.fs H) :
  let train := TrainYolo.Train (TrainYolo.DATASET_DIR H) in
  let export := TrainYolo.Export (TrainYolo.best_pt H) in
  let mkdir := TrainYolo.Mkdir (TrainYolo.ASSETS_DIR H) in
  (forall e,
      fst (fst (TrainYolo.main H w)) = Py.Raise e ->
      let trace := snd (fst (TrainYolo.main H w)) in
      ((exists msg, e = Py.FileNotFoundError msg) /\ Forall training_only trace) \/
      (exists text, e = Py.Propagated "model.train" text /\ trace = [train]) \/
      (exists text, e = Py.Propagated "best_model.export" text /\
                    trace = [train; export]) \/
      (exists text, e = Py.Propagated "ASSETS_DIR.mkdir" text /\
                    trace = [train; export; mkdir]) \/
      (exists text src,
          e = Py.Propagated "shutil.copy2" text /\
          trace = [train; export; mkdir; TrainYolo.Copy2 src (TrainYolo.dst_model H)]) \/
      (exists text src labels,
          e = Py.Propagated "dst_labels.write_text" text /\
          trace = [train; export; mkdir; TrainYolo.Copy2 src (TrainYolo.dst_model H);
                   TrainYolo.WriteText (TrainYolo.dst_labels H) labels])) /\
  (forall w1 w2 w3 export_path,
      TrainYolo.path_exists H w (TrainYolo.DATASET_DIR H) = true ->
      TrainYolo.yolo_train H (TrainYolo.DATASET_DIR H) w = (Py.Returns tt, w1) ->
      TrainYolo.path_exists H w1 (TrainYolo.best_pt H) = true ->
      TrainYolo.yolo_export H (TrainYolo.best_pt H) w1 = (Py.Returns export_path, w2) ->
      TrainYolo.is_dir H w2 export_path = false ->
      TrainYolo.mkdir_p H (TrainYolo.ASSETS_DIR H) w2 = (Py.Returns tt, w3) ->
      TrainYolo.path_exists H w3 export_path = false ->
      exists text,
        fst (TrainYolo.main H w) =
        (Py.Raise (Py.Propagated "shutil.copy2" text),
         [train; export; mkdir; TrainYolo.Copy2 export_path (TrainYolo.dst_model H)])).
Proof.
  intros train export mkdir. split.
  - intros e. unfold TrainYolo.main.
    destruct (negb (TrainYolo.path_exists H w _)).
    { cbn [fst snd]. intros [= <-]. left.
      split; [unfold TrainYolo.dataset_not_found; eauto|constructor]. }
    destruct (TrainYolo.yolo_train H _ w) as [[[]|text1] w1];
      [|cbn [fst snd]; intros [= <-]; right; left; exists text1; split; reflexivity].
    destruct (negb (TrainYolo.path_exists H w1 _)).
    { cbn [fst snd]. intros [= <-]. left.
      split; [unfold TrainYolo.best_weights_not_found; eauto|repeat constructor]. }
    destruct (TrainYolo.yolo_export H _ w1) as [[export_path|text2] w2];
      [|cbn [fst snd]; intros [= <-]; right; right; left; exists text2;
        split; reflexivity].
    destruct (ordered_names_lookup
                (TrainYolo.yolo_names H (TrainYolo.best_pt H) w2)) as (names & En & _).
    assert (Hinstall : forall tflite_path e',
              fst (fst (TrainYolo.install H tflite_path (TrainYolo.generate_labels names)
                          ([train] ++ [export]) w2)) = Py.Raise e' ->
              let trace := snd (fst (TrainYolo.install H tflite_path
                                       (TrainYolo.generate_labels names)
                                       ([train] ++ [export]) w2)) in
              (exists text, e' = Py.Propagated "ASSETS_DIR.mkdir" text /\
                            trace = [train; export; mkdir]) \/
              (exists text src,
                  e' = Py.Propagated "shutil.copy2" text /\
                  trace = [train; export; mkdir;
                           TrainYolo.Copy2 src (TrainYolo.dst_model H)]) \/
              (exists text src labels,
                  e' = Py.Propagated "dst_labels.write_text" text /\
                  trace = [train; export; mkdir;
                           TrainYolo.Copy2 src (TrainYolo.dst_model H);
                           TrainYolo.WriteText (TrainYolo.dst_labels H) labels])).
    { intros tflite_path e'. unfold TrainYolo.install.
      destruct (TrainYolo.mkdir_p H _ _) as [[[]|text3] w3];
        [|cbn [fst snd]; intros [= <-]; left; exists text3; split; reflexivity].
      destruct (TrainYolo.copy2 H _ _ _) as [[[]|text4] w4];
        [|cbn [fst snd]; intros [= <-]; right; left; exists text4, tflite_path;
          split; reflexivity].
      destruct (TrainYolo.write_text H _ _ _) as [[[]|text5] w5];
        [cbn [fst]; discriminate|].
      cbn [fst snd]. intros [= <-]. right; right.
      exists text5, tflite_path, (TrainYolo.manifest (TrainYolo.generate_labels names)).
      split; reflexivity. }
    unfold TrainYolo.locate_tflite.
    destruct (TrainYolo.is_dir H w2 export_path);
      [destruct (TrainYolo.glob_tflite H w2 export_path) as [|first rest]|].
    + cbn [fst snd]. intros [= <-]. left.
      split; [unfold TrainYolo.no_tflite_found; eauto|repeat constructor].
    + rewrite En. intros He. right; right; right. exact (Hinstall first e He).
    + rewrite En. intros He. right; right; right. exact (Hinstall export_path e He).
  - intros w1 w2 w3 export_path Hdata Htrain Hbest Hexport Hdir Hmkdir Hgone.
    destruct (TrainYolo.copy2_missing H export_path (TrainYolo.dst_model H) w3 Hgone)
      as [text Hcopy].
    exists text. unfold TrainYolo.main.
    rewrite Hdata, Htrain, Hbest, Hexport. cbn [negb].
    unfold TrainYolo.locate_tflite. rewrite Hdir.
    destruct (ordered_names_lookup
                (TrainYolo.yolo_names H (TrainYolo.best_pt H) w2)) as (names & En & _).
    rewrite En. unfold TrainYolo.install. rewrite Hmkdir.
    destruct (TrainYolo.copy2 H export_path (TrainYolo.dst_model H) w3) as [r4 w4].
    cbn [fst] in Hcopy. subst r4. reflexivity.
Qed.

(** [yolo_main_failures] on a host whose export leaves no file at the path
    it returns. *)
Lemma yolo_main_failures_witness :
  exists text,
    fst (TrainYolo.main (listed_host_exporting false) ["/repo/training/datasets/ccmt_cls"]) =
    (Py.Raise (Py.Propagated "shutil.copy2" text),
     [ TrainYolo.Train "/repo/training/datasets/ccmt_cls";
       TrainYolo.Export "/repo/training/runs/ccmt_cls/weights/best.pt";
       TrainYolo.Mkdir "/repo/app/src/main/assets";
       TrainYolo.Copy2 "best.tflite" "/repo/app/src/main/assets/model.tflite" ]).
Proof.
  apply (proj2 (yolo_main_failures (listed_host_exporting false)
                  ["/repo/training/datasets/ccmt_cls"])
           ["/repo/training/runs/ccmt_cls/weights/best.pt";
            "/repo/training/datasets/ccmt_cls"]
           ["/repo/training/runs/ccmt_cls/weights/best.pt";
            "/repo/training/datasets/ccmt_cls"]
           ["/repo/app/src/main/assets";
            "/repo/training/runs/ccmt_cls/weights/best.pt";
            "/repo/training/datasets/ccmt_cls"]
           "best.tflite"); reflexivity.
Defined.

(** X16.  What a completed run of the YOLO script has done.  The dataset
    directory existed, the training returned and left the best weights,
    the export returned a path, the model file being that path or, when it
    is a directory, the first [.tflite] file in it, and the three file
    operations returned; the file copied existed when it was copied.  The run has trained, exported, made the assets
    directory, copied the model and then written the manifest of the labels
    of all the classes of the model, in this order. *)
Theorem yolo_main_completes (H : TrainYolo.Host) (w : TrainYolo.fs H) :
  fst (fst (TrainYolo.main H w)) = Py.Ok tt ->
  exists w1 w2 w3 export_path tflite_path names,
    TrainYolo.path_exists H w (TrainYolo.DATASET_DIR H) = true /\
    TrainYolo.yolo_train H (TrainYolo.DATASET_DIR H) w = (Py.Returns tt, w1) /\
    TrainYolo.path_exists H w1 (TrainYolo.best_pt H) = true /\
    TrainYolo.yolo_export H (TrainYolo.best_pt H) w1 = (Py.Returns export_path, w2) /\
    (if TrainYolo.is_dir H w2 export_path
     then exists others, TrainYolo.glob_tflite H w2 export_path = tflite_path :: others
     else tflite_path = export_path) /\
    TrainYolo.ordered_names (TrainYolo.yolo_names H (TrainYolo.best_pt H) w2)
      = Py.Ok names /\
    List.length names = List.length (TrainYolo.yolo_names H (TrainYolo.best_pt H) w2) /\
    TrainYolo.mkdir_p H (TrainYolo.ASSETS_DIR H) w2 = (Py.Returns tt, w3) /\
    TrainYolo.path_exists H w3 tflite_path = true /\
    fst (TrainYolo.copy2 H tflite_path (TrainYolo.dst_model H) w3) = Py.Returns tt /\
    snd (fst (TrainYolo.main H w)) =
    [ TrainYolo.Train (TrainYolo.DATASET_DIR H);
      TrainYolo.Export (TrainYolo.best_pt H);
      TrainYolo.Mkdir (TrainYolo.ASSETS_DIR H);
      TrainYolo.Copy2 tflite_path (TrainYolo.dst_model H);
      TrainYolo.WriteText (TrainYolo.dst_labels H)
        (TrainYolo.manifest (TrainYolo.generate_labels names)) ].
Proof.
  unfold TrainYolo.main.
  destruct (TrainYolo.path_exists H w _) eqn:Hdata; cbn [negb]; [|discriminate].
  destruct (TrainYolo.yolo_train H _ w) as [[[]|text1] w1] eqn:Htrain; [|discriminate].
  destruct (TrainYolo.path_exists H w1 _) eqn:Hbest; cbn [negb]; [|discriminate].
  destruct (TrainYolo.yolo_export H _ w1) as [[export_path|text2] w2] eqn:Hexport;
    [|discriminate].
  destruct (ordered_names_lookup
              (TrainYolo.yolo_names H (TrainYolo.best_pt H) w2)) as (names & En & _ & Hlen).
  assert (Hfound : forall tflite_path,
            TrainYolo.locate_tflite H w2 export_path = Py.Ok tflite_path ->
            if TrainYolo.is_dir H w2 export_path
            then exists others,
                   TrainYolo.glob_tflite H w2 export_path = tflite_path :: others
            else tflite_path = export_path).
  { intros p. unfold TrainYolo.locate_tflite.
    destruct (TrainYolo.is_dir H w2 export_path);
      [destruct (TrainYolo.glob_tflite H w2 export_path) as [|first rest]|].
    - discriminate.
    - intros [= ->]. eauto.
    - now intros [= ->]. }
  destruct (TrainYolo.locate_tflite H w2 export_path) as [tflite_path|e];
    [|discriminate].
  specialize (Hfound tflite_path eq_refl) as Hloc.
  rewrite En. unfold TrainYolo.install.
  destruct (TrainYolo.mkdir_p H _ w2) as [[[]|text3] w3] eqn:Hmkdir; [|discriminate].
  destruct (TrainYolo.copy2 H tflite_path _ w3) as [[[]|text4] w4] eqn:Hcopy;
    [|discriminate].
  destruct (TrainYolo.write_text H _ _ w4) as [[[]|text5] w5]; [|discriminate].
  intros _. exists w1, w2, w3, export_path, tflite_path, names.
  repeat (split; [first [reflexivity|assumption]|]).
  split; [|split; [now rewrite Hcopy|reflexivity]].
  destruct (TrainYolo.path_exists H w3 tflite_path) eqn:Hsrc; [reflexivity|].
  destruct (TrainYolo.copy2_missing H tflite_path (TrainYolo.dst_model H) w3 Hsrc)
    as [text Hraise].
  rewrite Hcopy in Hraise. discriminate Hraise.
Qed.

(** [yolo_main_completes] on a host that has the dataset directory and
    whose export writes its file. *)
Lemma yolo_main_completes_witness :
  exists w1 w2 w3 export_path tflite_path names,
    TrainYolo.path_exists listed_host ["/repo/training/datasets/ccmt_cls"]
      (TrainYolo.DATASET_DIR listed_host) = true /\
    TrainYolo.yolo_train listed_host (TrainYolo.DATASET_DIR listed_host)
      ["/repo/training/datasets/ccmt_cls"] = (Py.Returns tt, w1) /\
    TrainYolo.path_exists listed_host w1 (TrainYolo.best_pt listed_host) = true /\
    TrainYolo.yolo_export listed_host (TrainYolo.best_pt listed_host) w1
      = (Py.Returns export_path, w2) /\
    (if TrainYolo.is_dir listed_host w2 export_path
     then exists others,
            TrainYolo.glob_tflite listed_host w2 export_path = tflite_path :: others
     else tflite_path = export_path) /\
    TrainYolo.ordered_names
      (TrainYolo.yolo_names listed_host (TrainYolo.best_pt listed_host) w2)
      = Py.Ok names /\
    List.length names =
      List.length (TrainYolo.yolo_names listed_host (TrainYolo.best_pt listed_host) w2) /\
    TrainYolo.mkdir_p listed_host (TrainYolo.ASSETS_DIR listed_host) w2
      = (Py.Returns tt, w3) /\
    TrainYolo.path_exists listed_host w3 tflite_path = true /\
    fst (TrainYolo.copy2 listed_host tflite_path (TrainYolo.dst_model listed_host) w3)
      = Py.Returns tt /\
    snd (fst (TrainYolo.main listed_host ["/repo/training/datasets/ccmt_cls"])) =
    [ TrainYolo.Train (TrainYolo.DATASET_DIR listed_host);
      TrainYolo.Export (TrainYolo.best_pt listed_host);
      TrainYolo.Mkdir (TrainYolo.ASSETS_DIR listed_host);
      TrainYolo.Copy2 tflite_path (TrainYolo.dst_model listed_host);
      TrainYolo.WriteText (TrainYolo.dst_labels listed_host)
        (TrainYolo.manifest (TrainYolo.generate_labels names)) ].
Proof.
  apply (yolo_main_completes listed_host ["/repo/training/datasets/ccmt_cls"]).
  reflexivity.
Defined.

(** ** Every extracted image is saved once *)

Lemma NoDup_keys_set_string {V} (d : list (string * V)) k v :
  NoDup (Py.keys d) -> NoDup (Py.keys (Py.set String.eqb d k v)).
Proof.
  induction d as [|[k0 v0] d IH]; cbn [Py.set Py.keys map fst]; intros Hnd.
  - repeat constructor. intros [].
  - inversion Hnd as [|? ? Hk0 Hd]; subst.
    destruct (String.eqb_spec k0 k) as [->|N]; cbn [map fst]; [now constructor|].
    constructor; [|now apply IH].
    intros Hin. apply (keys_set _ String.eqb_eq) in Hin. destruct Hin as [->|Hin]; auto.
Qed.

Lemma NoDup_keys_extract {Image} (pv : PrepareDataset.PlantVillage Image) d :
  PrepareDataset.extract_plantvillage pv = Py.Ok d -> NoDup (Py.keys d).
Proof.
  unfold PrepareDataset.extract_plantvillage. intros E.
  set (itf := PrepareDataset.idx_to_folder (PrepareDataset.label_names pv)) in *.
  destruct (scan_ok itf (PrepareDataset.examples pv) 0 (PrepareDataset.empty_classes itf))
    as (d' & E' & Hk); [intros f Hf; now apply keys_empty_classes|].
  rewrite E in E'. injection E' as <-. rewrite Hk.
  unfold PrepareDataset.empty_classes.
  generalize (Py.values itf) as l.
  assert (H : forall (l : list string) (ibc : list (string * list (Image * nat))),
            NoDup (Py.keys ibc) ->
            NoDup (Py.keys (fold_left (fun d folder => Py.set String.eqb d folder []) l ibc))).
  { induction l as [|f l IH]; intros ibc Hnd; cbn [fold_left]; [exact Hnd|].
    apply IH. now apply NoDup_keys_set_string. }
  intros l. apply H. constructor.
Qed.

Section SavedOnce.
Context (R : Sklearn.Rng) {Image : Type}.
Local Abbreviation World := (PrepareDataset.World R (Image := Image)).
Local Abbreviation OutFile := (PrepareDataset.OutFile Image).

Lemma filter_all {B} (p : B -> bool) (l : list B) :
  Forall (fun x => p x = true) l -> filter p l = l.
Proof. induction 1 as [|x l Hx _ IH]; cbn [filter]; [reflexivity|]. now rewrite Hx, IH. Qed.

Lemma filter_none {B} (p : B -> bool) (l : list B) :
  Forall (fun x => p x = false) l -> filter p l = [].
Proof. induction 1 as [|x l Hx _ IH]; cbn [filter]; [reflexivity|]. now rewrite Hx. Qed.

Lemma split_files_class D (images : list (Image * nat)) c :
  Forall (fun o => PrepareDataset.of_class o = c) (split_files R D images c).
Proof.
  unfold split_files.
  apply (writes_only_save_split R (fun o => PrepareDataset.of_class o = c));
    [reflexivity|constructor].
Qed.

(** Among the blocks of a dictionary, the files of a class are the block
    of that class. *)
Lemma filter_blocks D c images (d : list (string * list (Image * nat))) :
  NoDup (Py.keys d) -> In (c, images) d ->
  filter (in_class c)
         (flat_map (fun '(class_name, imgs) => split_files R D imgs class_name) d) =
  split_files R D images c.
Proof.
  induction d as [|[c' imgs'] d IH]; cbn [Py.keys map fst flat_map]; [intros _ []|].
  intros Hnd Hin. inversion Hnd as [|? ? Hc' Hd]; subst. rewrite filter_app.
  destruct Hin as [[= -> ->]|Hin].
  - rewrite filter_all, filter_none; [apply app_nil_r| |].
    + apply Forall_forall. intros o Ho. apply in_flat_map in Ho.
      destruct Ho as ([c2 imgs2] & Hin2 & Ho).
      pose proof (split_files_class D imgs2 c2) as Hc2. rewrite Forall_forall in Hc2.
      unfold in_class. rewrite (Hc2 o Ho). apply String.eqb_neq. intros ->.
      apply Hc'. unfold Py.keys. apply in_map_iff. now exists (c, imgs2).
    + eapply Forall_impl; [|apply split_files_class]. intros o Ho.
      unfold in_class. now apply String.eqb_eq.
  - rewrite filter_none, (IH Hd Hin); [reflexivity|].
    eapply Forall_impl; [|apply split_files_class]. intros o Ho.
    unfold in_class. rewrite Ho. apply String.eqb_neq. intros ->.
    apply Hc'. unfold Py.keys. apply in_map_iff. now exists (c, images).
Qed.
End SavedOnce.

Section SavedOnceMain.
Context (R : Sklearn.Rng) {Image : Type}.
Local Abbreviation World := (PrepareDataset.World R (Image := Image)).

(** The images of the files [save_split] writes for a class are the images
    of the class, unless it has a single one. *)
Lemma split_files_data D (images : list (Image * nat)) c :
  existsb (PrepareDataset.dir_eqb ("train", c)) D = true ->
  existsb (PrepareDataset.dir_eqb ("val", c)) D = true ->
  List.length images <> 1 ->
  Permutation (map PrepareDataset.of_data (split_files R D images c))
              (map (fun x => PrepareDataset.Jpeg (fst x)) images).
Proof.
  intros Htrain Hval Hn. unfold split_files.
  destruct images as [|x [|y images]]; [reflexivity|now contradiction Hn|].
  destruct (save_split_partition R (x :: y :: images) c
              {| PrepareDataset.rng := Sklearn.RandomState R PrepareDataset.SEED;
                 PrepareDataset.dirs := D; PrepareDataset.files := [] |})
    as (tr & va & Hperm & _ & E); [simpl; lia|exact Htrain|exact Hval|].
  rewrite E. cbn [snd PrepareDataset.files app].
  rewrite map_app, !map_map.
  change (fun x0 : Image * nat => PrepareDataset.of_data (jpeg_file "train" c x0))
    with (fun x0 : Image * nat => PrepareDataset.Jpeg (Image := Image) (fst x0)).
  change (fun x0 : Image * nat => PrepareDataset.of_data (jpeg_file "val" c x0))
    with (fun x0 : Image * nat => PrepareDataset.Jpeg (Image := Image) (fst x0)).
  rewrite <- map_app. now apply Permutation_map.
Qed.

(** What [copy_cocoa_data] writes, in a tree with the class directories,
    lies in the two cocoa folders. *)
Lemma copy_cocoa_data_appends cocoa (w : World) :
  exists fs,
    PrepareDataset.files R (snd (PrepareDataset.copy_cocoa_data R cocoa w)) =
      PrepareDataset.files R w ++ fs /\
    Forall (fun o => In (PrepareDataset.of_class o) ["cocoa__black_pod"; "cocoa__healthy"]) fs.
Proof.
  destruct (uniform_copy_cocoa_data R (Image := Image) cocoa (PrepareDataset.dirs R w))
    as (r & fs & Hu).
  exists fs. split; [now destruct (Hu w eq_refl) as (_ & _ & _ & Hf)|].
  set (w0 := {| PrepareDataset.rng := PrepareDataset.rng R w;
                PrepareDataset.dirs := PrepareDataset.dirs R w;
                PrepareDataset.files := @nil (PrepareDataset.OutFile Image) |}).
  destruct (Hu w0 eq_refl) as (_ & _ & _ & Hf). subst w0.
  cbn [PrepareDataset.files app] in Hf. rewrite <- Hf.
  apply (writes_only_copy_cocoa_data R
           (fun o => In (PrepareDataset.of_class o) ["cocoa__black_pod"; "cocoa__healthy"]));
    [|constructor].
  intros split cls name src _ Hc. exact Hc.
Qed.
End SavedOnceMain.

(** X17.  In a completed run of [main] every image extracted for a class is
    saved exactly once, and in the folders of that class: the JPEG files
    under the class name hold the images of the class, each once. *)
Theorem main_saves_each_image_once (R : Sklearn.Rng) (Image : Type)
        (pv : PrepareDataset.PlantVillage Image) (cocoa : PrepareDataset.CocoaDir)
        (w : PrepareDataset.World R) images_by_class :
  PrepareDataset.extract_plantvillage pv = Py.Ok images_by_class ->
  fst (PrepareDataset.main R pv cocoa w) = Py.Ok tt ->
  forall class_name images,
    In (class_name, images) images_by_class ->
    Permutation
      (map PrepareDataset.of_data
           (filter (in_class class_name)
                   (PrepareDataset.files R (snd (PrepareDataset.main R pv cocoa w)))))
      (map (fun x => PrepareDataset.Jpeg (fst x)) images).
Proof.
  intros E Hok c images Hin. rewrite main_unfold, E in *.
  destruct (extract_plantvillage_ok pv) as (d & E' & Hd).
  rewrite E in E'. injection E' as <-.
  assert (Hc : In c ["maize__rust"; "maize__healthy"; "tomato__early_blight"; "tomato__healthy"]).
  { destruct (Hd c) as (nm & _ & Hm).
    - unfold Py.keys. apply in_map_iff. now exists (c, images).
    - eapply match_pv_label_range; eauto. }
  unfold save_and_copy, PrepareDataset.seq_, PrepareDataset.mbind in *.
  change (PrepareDataset.for_each R images_by_class
            (fun '(class_name, images) => PrepareDataset.save_split R images class_name))
    with (save_all R images_by_class) in *.
  pose proof (save_all_blocks R images_by_class (prepared R)) as Hb.
  assert (Hall : fst (save_all R images_by_class (prepared R)) = Py.Ok tt).
  { destruct (save_all R images_by_class (prepared R)) as [[[]|e] w1]; [reflexivity|discriminate]. }
  assert (Hlen : List.length images <> 1).
  { unfold save_all in Hall.
    rewrite for_each_ok_iff in Hall by (intros [c' imgs']; apply uniform_save_split).
    specialize (Hall (c, images) Hin). cbn beta iota in Hall.
    apply (save_split_ok_iff R Image images c (prepared R)); [| |exact Hall];
      apply class_dir_exists; simpl; auto; now apply In_PV_ALL_CLASSES. }
  destruct (Hb Hall) as [Hdirs Hfiles].
  destruct (save_all R images_by_class (prepared R)) as [[[]|e] w1]; [|discriminate].
  cbn [snd] in *.
  destruct (copy_cocoa_data_appends R cocoa w1) as (fs & Hf & Hcocoa).
  rewrite Hf, Hfiles. cbn [prepared PrepareDataset.files PrepareDataset.dirs app].
  rewrite filter_app.
  rewrite (filter_blocks R _ c images images_by_class (NoDup_keys_extract pv _ E) Hin).
  rewrite (filter_none (in_class c) fs).
  - rewrite app_nil_r.
    apply split_files_data; [| |exact Hlen];
      apply class_dir_exists; simpl; auto; now apply In_PV_ALL_CLASSES.
  - eapply Forall_impl; [|exact Hcocoa]. intros o Ho. unfold in_class.
    apply String.eqb_neq. intros Heq. cbn beta in Ho. rewrite Heq in Ho.
    simpl in Hc, Ho.
    repeat (destruct Hc as [<-|Hc]; [intuition discriminate|]). contradiction.
Qed.

(** [main_saves_each_image_once] on a dataset of three examples, two of
    them tomato leaves. *)
Lemma main_saves_each_image_once_witness :
  let pv := {| PrepareDataset.label_names := ["Tomato___healthy"; "Apple___Apple_scab"];
               PrepareDataset.examples := [(5, 0); (6, 1); (7, 0)] |} in
  let cocoa : PrepareDataset.CocoaDir := fun _ => None in
  let run := PrepareDataset.main reversing_rng (Image := nat) pv cocoa
               (prepared reversing_rng) in
  Permutation
    (map PrepareDataset.of_data
         (filter (in_class "tomato__healthy") (PrepareDataset.files reversing_rng (snd run))))
    (map (fun x => PrepareDataset.Jpeg (fst x)) [(5, 0); (7, 1)]).
Proof.
  intros pv cocoa run.
  apply (main_saves_each_image_once reversing_rng nat pv cocoa (prepared reversing_rng)
           [("tomato__healthy", [(5, 0); (7, 1)])]).
  - reflexivity.
  - reflexivity.
  - now left.
Defined.

(** ** [create_class_dirs] on an output tree that is not empty *)

Section MkdirFacts.
Context (R : Sklearn.Rng) {Image : Type}.
Local Abbreviation World := (PrepareDataset.World R (Image := Image)).

Lemma dir_eqb_eq a b : PrepareDataset.dir_eqb a b = true <-> a = b.
Proof.
  destruct a as [a1 a2], b as [b1 b2]. unfold PrepareDataset.dir_eqb. cbn [fst snd].
  rewrite andb_true_iff, !String.eqb_eq. split; [intros [-> ->]; reflexivity|].
  intros [= -> ->]. auto.
Qed.

Lemma existsb_dir d D : existsb (PrepareDataset.dir_eqb d) D = true <-> In d D.
Proof.
  rewrite existsb_exists. split.
  - intros (x & Hx & E). apply dir_eqb_eq in E. now subst.
  - intros H. exists d. split; [exact H|now apply dir_eqb_eq].
Qed.

(** A loop of [mkdir] calls completes, leaves the files and the generator
    alone, and adds the missing directories to those that exist. *)
Lemma mkdir_loop {B} (l : list B) (dir : B -> string * string) : forall w : World,
  let run := PrepareDataset.for_each R l (fun x => PrepareDataset.mkdir R (dir x)) w in
  fst run = Py.Ok tt /\
  PrepareDataset.rng R (snd run) = PrepareDataset.rng R w /\
  PrepareDataset.files R (snd run) = PrepareDataset.files R w /\
  (forall d, In d (PrepareDataset.dirs R (snd run)) <->
             In d (PrepareDataset.dirs R w) \/ In d (map dir l)) /\
  (NoDup (PrepareDataset.dirs R w) -> NoDup (PrepareDataset.dirs R (snd run))).
Proof.
  induction l as [|x l IH]; intros w; cbn [PrepareDataset.for_each map].
  - cbn. split; [reflexivity|split; [reflexivity|split; [reflexivity|split; [|auto]]]].
    intros d0. tauto.
  - unfold PrepareDataset.seq_, PrepareDataset.mbind.
    pose (w1 := snd (PrepareDataset.mkdir R (dir x) w)).
    change (PrepareDataset.mkdir R (dir x) w) with (Py.Ok tt, w1).
    cbn beta iota zeta.
    pose proof (IH w1) as IH1. cbn zeta in IH1.
    destruct IH1 as (Hok & Hrng & Hfiles & Hdirs & Hnd).
    split; [exact Hok|split; [exact Hrng|split; [exact Hfiles|split]]].
    + intros d. rewrite Hdirs. subst w1.
      unfold PrepareDataset.mkdir. cbn [snd PrepareDataset.dirs map In].
      destruct (existsb (PrepareDataset.dir_eqb (dir x)) (PrepareDataset.dirs R w)) eqn:E.
      * apply existsb_dir in E. split; [tauto|]. intros [H|[<-|H]]; auto.
      * rewrite in_app_iff. cbn [In]. tauto.
    + intros Hw. apply Hnd. subst w1.
      unfold PrepareDataset.mkdir. cbn [snd PrepareDataset.dirs].
      destruct (existsb (PrepareDataset.dir_eqb (dir x)) (PrepareDataset.dirs R w)) eqn:E;
        [exact Hw|].
      apply NoDup_app; [exact Hw|repeat constructor; intros []|].
      intros d Hd [<-|[]]. apply existsb_dir in Hd. congruence.
Qed.
End MkdirFacts.

(** X18.  [create_class_dirs] never fails and never removes anything: on any
    output tree it completes, leaves the files as they are, keeps the
    directories that exist and adds exactly the missing ones of the
    twelve class directories, without repeating one. *)
Theorem create_class_dirs_keeps (R : Sklearn.Rng) (Image : Type)
        (w : PrepareDataset.World R (Image := Image)) :
  let run := PrepareDataset.create_class_dirs R w in
  fst run = Py.Ok tt /\
  PrepareDataset.files R (snd run) = PrepareDataset.files R w /\
  (forall d, In d (PrepareDataset.dirs R (snd run)) <->
             In d (PrepareDataset.dirs R w) \/ In d PrepareDataset.class_dirs) /\
  (NoDup (PrepareDataset.dirs R w) -> NoDup (PrepareDataset.dirs R (snd run))).
Proof.
  unfold PrepareDataset.create_class_dirs. cbn [PrepareDataset.for_each].
  unfold PrepareDataset.seq_, PrepareDataset.mbind.
  pose proof (mkdir_loop R PrepareDataset.ALL_CLASSES (fun cls => ("train", cls)) w) as H1.
  cbn zeta in H1. destruct H1 as (Ok1 & _ & F1 & D1 & N1).
  destruct (PrepareDataset.for_each R PrepareDataset.ALL_CLASSES _ w) as [r1 w1].
  cbn [fst snd] in *. subst r1.
  pose proof (mkdir_loop R PrepareDataset.ALL_CLASSES (fun cls => ("val", cls)) w1) as H2.
  cbn zeta in H2. destruct H2 as (Ok2 & _ & F2 & D2 & N2).
  destruct (PrepareDataset.for_each R PrepareDataset.ALL_CLASSES _ w1) as [r2 w2].
  cbn [fst snd PrepareDataset.ret] in *. subst r2.
  unfold PrepareDataset.ret. cbn [fst snd].
  split; [reflexivity|split; [congruence|split; [|auto]]].
  intros d. rewrite D2, D1. unfold PrepareDataset.class_dirs.
  cbn [flat_map]. rewrite app_nil_r, in_app_iff. tauto.
Qed.
